(** * TProfile2Poly: a polygon-binned two-dimensional profile

    Shallow embedding of [hist/hist/src/TProfile2Poly.cxx] and the properties
    its specification states about it.

    The C++ code computes on [Double_t].  Everything below is written over an
    arithmetic interface [Arith], so that a structural property (which bin is
    written, what is returned, which field is left alone) holds for every
    arithmetic, IEEE binary64 included.  Two instances are given: [binary64]
    (the kernel's primitive floats; definitions evaluate on it) and
    [real_arith] (exact real numbers).  A property that needs a law of
    arithmetic says so by a hypothesis ([ExactAdd], [OrderLaws]). *)

From Stdlib Require Import ZArith List Bool Lia.
From Stdlib Require Import Floats.
From Stdlib Require Import Reals Lra.
From stdpp Require Import base option list gmap.

Local Open Scope Z_scope.

(** ** Arithmetic on [Double_t] *)

Class Arith (D : Type) : Type := {
  d0 : D;                       (* the literal 0 *)
  d1 : D;                       (* the literal 1 *)
  dadd : D -> D -> D;           (* a + b *)
  dsub : D -> D -> D;           (* a - b *)
  dmul : D -> D -> D;           (* a * b *)
  ddiv : D -> D -> D;           (* a / b *)
  dsqrt : D -> D;               (* std::sqrt(a) *)
  dgt : D -> D -> bool;         (* a > b *)
  dne : D -> D -> bool;         (* a != b *)
  dfloor : D -> Z               (* (Int_t)(floor(a)) *)
}.

(** Addition without rounding: what the specification's "within floating
    tolerance" idealises. *)
Class ExactAdd (D : Type) `{Arith D} : Prop := {
  dadd_assoc : forall a b c : D, dadd a (dadd b c) = dadd (dadd a b) c;
  dadd_comm : forall a b : D, dadd a b = dadd b a;
  dadd_0_l : forall a : D, dadd d0 a = a
}.

(** [>] is a strict order (true of IEEE comparison as well: a comparison
    with a NaN is false). *)
Class OrderLaws (D : Type) `{Arith D} : Prop := {
  dgt_asym : forall a b : D, dgt a b = true -> dgt b a = false;
  dgt_trans : forall a b c : D, dgt a b = true -> dgt b c = true -> dgt a c = true
}.

(** *** IEEE binary64 *)

Definition Int_t_min : Z := - 2 ^ 31.
Definition Int_t_max : Z := 2 ^ 31 - 1.

(** [(Int_t)(floor(f))].  The conversion of a NaN, an infinity or a value
    outside [Int_t] is undefined in C++; the x86-64 conversion instruction
    yields [INT_MIN] there, which is what this instance returns. *)
Definition floor_Int_t (f : float) : Z :=
  match Prim2SF f with
  | S754_zero _ => 0
  | S754_finite s m e =>
      let v := if s then Z.neg m else Z.pos m in
      let r := if 0 <=? e then v * 2 ^ e else v / 2 ^ (- e) in
      if (Int_t_min <=? r) && (r <=? Int_t_max) then r else Int_t_min
  | _ => Int_t_min
  end.

#[export] Instance binary64 : Arith float := {|
  d0 := 0%float;
  d1 := 1%float;
  dadd := PrimFloat.add;
  dsub := PrimFloat.sub;
  dmul := PrimFloat.mul;
  ddiv := PrimFloat.div;
  dsqrt := PrimFloat.sqrt;
  dgt := fun a b => PrimFloat.ltb b a;
  dne := fun a b => negb (PrimFloat.eqb a b);
  dfloor := floor_Int_t
|}.

(** *** Exact real numbers *)

#[export] Instance real_arith : Arith R := {|
  d0 := 0%R;
  d1 := 1%R;
  dadd := Rplus;
  dsub := Rminus;
  dmul := Rmult;
  ddiv := Rdiv;
  dsqrt := sqrt;
  dgt := fun a b => if Rgt_dec a b then true else false;
  dne := fun a b => if Req_dec_T a b then false else true;
  dfloor := Int_part
|}.

(** ** TProfile2PolyBin: the accumulator of one region *)

(** [EErrorType] is declared in a header outside this file.  The switch in
    [UpdateError] names [kERRORMEAN] and [kERRORSPREAD]; [kERRORother]
    stands for every other enumerator (the [default:] label). *)
Inductive EErrorType : Set := kERRORMEAN | kERRORSPREAD | kERRORother.

Module TProfile2PolyBin.
Section Def.
Context {D : Type} `{Arith D} {Poly : Type}.

(** The first three fields are those of the base class [TH2PolyBin] that
    this file reads or writes: the polygon (null for a bin made by the
    default constructor), the displayed content and the changed flag. *)
Record t : Type := mk {
  fPoly : option Poly;
  fContent : D;
  fChanged : bool;
  fSumw : D;
  fSumvw : D;
  fSumw2 : D;
  fSumwv2 : D;
  fError : D;
  fAverage : D;
  fErrorMode : EErrorType
}.

(** [TProfile2PolyBin::TProfile2PolyBin()] and
    [TProfile2PolyBin(TObject *poly, Int_t bin_number)]; the base
    constructor zeroes the content. *)
Definition new (poly : option Poly) : t :=
  {| fPoly := poly; fContent := d0; fChanged := true;
     fSumw := d0; fSumvw := d0; fSumw2 := d0; fSumwv2 := d0;
     fError := d0; fAverage := d0; fErrorMode := kERRORSPREAD |}.

(** Modelled from the spec: the inline accessors of the header, which is
    not among the sources.  [GetEffectiveEntries] is
    "sumWeight² / sumWeightSquared (0 if sumWeightSquared == 0)". *)
Definition GetEffectiveEntries (b : t) : D :=
  if dne (fSumw2 b) d0 then ddiv (dmul (fSumw b) (fSumw b)) (fSumw2 b) else d0.
Definition GetEntries (b : t) : D := fSumw b.
Definition GetEntriesW2 (b : t) : D := fSumw2 b.
Definition GetEntriesVW (b : t) : D := fSumvw b.
Definition GetEntriesWV2 (b : t) : D := fSumwv2 b.
Definition GetError (b : t) : D := fError b.

(** [TH2PolyBin::SetChanged], [SetContent] (which also flags the bin as
    changed) and [ClearContent]. *)
Definition SetChanged (flag : bool) (b : t) : t :=
  {| fPoly := fPoly b; fContent := fContent b; fChanged := flag;
     fSumw := fSumw b; fSumvw := fSumvw b; fSumw2 := fSumw2 b; fSumwv2 := fSumwv2 b;
     fError := fError b; fAverage := fAverage b; fErrorMode := fErrorMode b |}.

Definition SetContent (content : D) (b : t) : t :=
  {| fPoly := fPoly b; fContent := content; fChanged := true;
     fSumw := fSumw b; fSumvw := fSumvw b; fSumw2 := fSumw2 b; fSumwv2 := fSumwv2 b;
     fError := fError b; fAverage := fAverage b; fErrorMode := fErrorMode b |}.

Definition ClearContent (b : t) : t := SetContent d0 b.

(** Modelled from the spec: [TProfile2PolyBin::SetErrorOption] is an inline
    function of the header, which is not among the sources; it stores the
    mode in the bin ("propagates it to every currently-registered interior
    bin"). *)
Definition SetErrorOption (type : EErrorType) (b : t) : t :=
  {| fPoly := fPoly b; fContent := fContent b; fChanged := fChanged b;
     fSumw := fSumw b; fSumvw := fSumvw b; fSumw2 := fSumw2 b; fSumwv2 := fSumwv2 b;
     fError := fError b; fAverage := fAverage b; fErrorMode := type |}.

(** [void TProfile2PolyBin::Merge(const TProfile2PolyBin *toMerge)] *)
Definition Merge (this toMerge : t) : t :=
  {| fPoly := fPoly this; fContent := fContent this; fChanged := fChanged this;
     fSumw := dadd (fSumw this) (fSumw toMerge);
     fSumvw := dadd (fSumvw this) (fSumvw toMerge);
     fSumw2 := dadd (fSumw2 this) (fSumw2 toMerge);
     fSumwv2 := dadd (fSumwv2 this) (fSumwv2 toMerge);
     fError := fError this; fAverage := fAverage this; fErrorMode := fErrorMode this |}.

(** [void TProfile2PolyBin::UpdateAverage()] *)
Definition UpdateAverage (b : t) : t :=
  {| fPoly := fPoly b; fContent := fContent b; fChanged := fChanged b;
     fSumw := fSumw b; fSumvw := fSumvw b; fSumw2 := fSumw2 b; fSumwv2 := fSumwv2 b;
     fError := fError b;
     fAverage := if dne (fSumw b) d0 then ddiv (fSumvw b) (fSumw b) else fAverage b;
     fErrorMode := fErrorMode b |}.

(** [void TProfile2PolyBin::UpdateError()] *)
Definition UpdateError (b : t) : t :=
  let tmp :=
    if dne (fSumw b) d0
    then dsqrt (dsub (ddiv (fSumwv2 b) (fSumw b)) (dmul (fAverage b) (fAverage b)))
    else d0 in
  {| fPoly := fPoly b; fContent := fContent b; fChanged := fChanged b;
     fSumw := fSumw b; fSumvw := fSumvw b; fSumw2 := fSumw2 b; fSumwv2 := fSumwv2 b;
     fError :=
       match fErrorMode b with
       | kERRORMEAN => ddiv tmp (dsqrt (GetEffectiveEntries b))
       | kERRORSPREAD => tmp
       | kERRORother => ddiv tmp (dsqrt (GetEffectiveEntries b))
       end;
     fAverage := fAverage b; fErrorMode := fErrorMode b |}.

(** [void TProfile2PolyBin::Update()] *)
Definition Update (b : t) : t :=
  SetChanged true (UpdateError (UpdateAverage b)).

(** [void TProfile2PolyBin::ClearStats()] *)
Definition ClearStats (b : t) : t :=
  {| fPoly := fPoly b; fContent := fContent b; fChanged := fChanged b;
     fSumw := d0; fSumvw := d0; fSumw2 := d0; fSumwv2 := d0;
     fError := d0; fAverage := d0; fErrorMode := fErrorMode b |}.

(** The four additions of [TProfile2PolyBin::Fill], before its call of
    [Update]. *)
Definition AddSums (value weight : D) (b : t) : t :=
  {| fPoly := fPoly b; fContent := fContent b; fChanged := fChanged b;
     fSumw := dadd (fSumw b) weight;
     fSumvw := dadd (fSumvw b) (dmul value weight);
     fSumw2 := dadd (fSumw2 b) (dmul weight weight);
     fSumwv2 := dadd (fSumwv2 b) (dmul (dmul weight value) value);
     fError := fError b; fAverage := fAverage b; fErrorMode := fErrorMode b |}.

(** [void TProfile2PolyBin::Fill(Double_t value, Double_t weight)] *)
Definition Fill (value weight : D) (b : t) : t :=
  Update (AddSums value weight b).

End Def.
Arguments t D Poly : clear implicits.
End TProfile2PolyBin.

(** ** The collaborators of the base class [TH2Poly] *)

(** [TH2PolyBin::IsInside(x, y)]: the point-in-polygon test, an external
    capability. *)
Class Geometry (D Poly : Type) : Type := {
  inside : Poly -> D -> D -> bool
}.

(** [TAxis], as far as [GetXmin] and [GetXmax] go. *)
Record TAxis (D : Type) : Type := mkAxis {
  GetXmin : D;
  GetXmax : D
}.
Arguments mkAxis {D}.
Arguments GetXmin {D}.
Arguments GetXmax {D}.

(** [kNOverflow], the number of overflow slots. *)
Definition kNOverflow : Z := 9.

(** An array or [TList] read at an [Int_t] index: [None] when the index
    is out of range ([TList::At] returns a null pointer there, and a C
    array has no such element). *)
Definition At {A : Type} (l : list A) (i : Z) : option A :=
  if i <? 0 then None else l !! Z.to_nat i.

(** A loop whose body may fail: the state is threaded through, and the
    first failure ends it. *)
Fixpoint foldlM {S A : Type} (body : S -> A -> option S) (s : S) (l : list A) : option S :=
  match l with
  | [] => Some s
  | a :: l' => s' ← body s a; foldlM body s' l'
  end.

Module TProfile2Poly.
Section Def.
Context {D : Type} `{Arith D} {Poly : Type} `{Geometry D Poly}.

Local Abbreviation Bin := (TProfile2PolyBin.t D Poly).

(** The members this file uses, those inherited from [TH1], [TH2] and
    [TH2Poly] included.  [fBins] owns the bins; a cell of the partition
    [fCells] holds pointers to bins of [fBins], here their positions.
    The pointer [fBins] is null until [CreateBin] makes the list for the
    first bin, which its caller appends at once: the empty list stands
    for the null pointer, and what the code reads through [fBins] without
    a test ([GetSize] below) has no result on it. *)
Record t : Type := mk {
  fXaxis : TAxis D;
  fYaxis : TAxis D;
  fNcells : Z;
  fBins : list Bin;
  fCells : list (list nat);
  fCellX : Z;
  fCellY : Z;
  fStepX : D;
  fStepY : D;
  fOverflow : list D;
  fOverflowBins : list Bin;
  fEntries : D;
  fTsumw : D;
  fTsumw2 : D;
  fTsumwx : D;
  fTsumwx2 : D;
  fTsumwy : D;
  fTsumwy2 : D;
  fTsumwxy : D;
  fTsumwz : D;
  fTsumwz2 : D;
  fErrorMode : EErrorType
}.

(** Field updates. *)
Definition set_fOverflowBins (v : list Bin) (h : t) : t :=
  mk (fXaxis h) (fYaxis h) (fNcells h) (fBins h) (fCells h) (fCellX h) (fCellY h)
     (fStepX h) (fStepY h) (fOverflow h) v (fEntries h)
     (fTsumw h) (fTsumw2 h) (fTsumwx h) (fTsumwx2 h) (fTsumwy h) (fTsumwy2 h)
     (fTsumwxy h) (fTsumwz h) (fTsumwz2 h) (fErrorMode h).

Definition set_fBins (v : list Bin) (h : t) : t :=
  mk (fXaxis h) (fYaxis h) (fNcells h) v (fCells h) (fCellX h) (fCellY h)
     (fStepX h) (fStepY h) (fOverflow h) (fOverflowBins h) (fEntries h)
     (fTsumw h) (fTsumw2 h) (fTsumwx h) (fTsumwx2 h) (fTsumwy h) (fTsumwy2 h)
     (fTsumwxy h) (fTsumwz h) (fTsumwz2 h) (fErrorMode h).

Definition set_fEntries (v : D) (h : t) : t :=
  mk (fXaxis h) (fYaxis h) (fNcells h) (fBins h) (fCells h) (fCellX h) (fCellY h)
     (fStepX h) (fStepY h) (fOverflow h) (fOverflowBins h) v
     (fTsumw h) (fTsumw2 h) (fTsumwx h) (fTsumwx2 h) (fTsumwy h) (fTsumwy2 h)
     (fTsumwxy h) (fTsumwz h) (fTsumwz2 h) (fErrorMode h).

Definition set_fErrorMode (v : EErrorType) (h : t) : t :=
  mk (fXaxis h) (fYaxis h) (fNcells h) (fBins h) (fCells h) (fCellX h) (fCellY h)
     (fStepX h) (fStepY h) (fOverflow h) (fOverflowBins h) (fEntries h)
     (fTsumw h) (fTsumw2 h) (fTsumwx h) (fTsumwx2 h) (fTsumwy h) (fTsumwy2 h)
     (fTsumwxy h) (fTsumwz h) (fTsumwz2 h) v.

(** Modelled from the spec: [OverflowIdxToArrayIdx] is an inline function
    of the header, which is not among the sources; external overflow
    number [b] "indexes overflow[-binNumber-1]", as the accessors below
    do in the code. *)
Definition OverflowIdxToArrayIdx (val : Z) : Z := - val - 1.

(** Modelled from the spec: [TH2Poly::GetNumberOfBins] is not among the
    sources; it is the number of registered bins, those of [fBins]. *)
Definition GetNumberOfBins (h : t) : Z := Z.of_nat (length (fBins h)).

(** [fBins->GetSize()]: [TList::GetSize] through the pointer [fBins], with
    no result when the pointer is null. *)
Definition GetSize (h : t) : option Z :=
  match fBins h with
  | [] => None
  | _ :: _ => Some (Z.of_nat (length (fBins h)))
  end.

(** [Int_t TProfile2Poly::GetOverflowRegionFromCoordinates(Double_t x, Double_t y)] *)
Definition GetOverflowRegionFromCoordinates (h : t) (x y : D) : Z :=
  let region := 0 in
  if fNcells h <=? kNOverflow then 0
  else
    (* y offset *)
    let region :=
      if dgt y (GetXmax (fYaxis h)) then region + -1
      else if dgt y (GetXmin (fYaxis h)) then region + -4
      else region + -7 in
    (* x offset *)
    let region :=
      if dgt x (GetXmax (fXaxis h)) then region + -2
      else if dgt x (GetXmin (fXaxis h)) then region + -1
      else region + 0 in
    region.

(** The nine additions to the statistics of the histogram in [Fill]. *)
Definition AddStats (xcoord ycoord value weight : D) (h : t) : t :=
  mk (fXaxis h) (fYaxis h) (fNcells h) (fBins h) (fCells h) (fCellX h) (fCellY h)
     (fStepX h) (fStepY h) (fOverflow h) (fOverflowBins h) (fEntries h)
     (dadd (fTsumw h) weight)
     (dadd (fTsumw2 h) (dmul weight weight))
     (dadd (fTsumwx h) (dmul weight xcoord))
     (dadd (fTsumwx2 h) (dmul (dmul weight xcoord) xcoord))
     (dadd (fTsumwy h) (dmul weight ycoord))
     (dadd (fTsumwy2 h) (dmul (dmul weight ycoord) ycoord))
     (dadd (fTsumwxy h) (dmul (dmul weight xcoord) ycoord))
     (dadd (fTsumwz h) (dmul weight value))
     (dadd (fTsumwz2 h) (dmul (dmul weight value) value))
     (fErrorMode h).

(** [bin->IsInside(xcoord, ycoord)]; there is nothing to test in a bin
    without a polygon. *)
Definition IsInside (bin : Bin) (xcoord ycoord : D) : option bool :=
  poly ← TProfile2PolyBin.fPoly bin; Some (inside poly xcoord ycoord).

(** The body of the [while ((obj = next()))] loop of [Fill], for the bin
    at position [k] of [fBins]. *)
Definition FillBin (xcoord ycoord value weight : D) (h : t) (k : nat) : option t :=
  bin ← fBins h !! k;
  isin ← IsInside bin xcoord ycoord;
  if isin : bool then
    let h := set_fEntries (dadd (fEntries h) d1) h in
    let bin := TProfile2PolyBin.Fill value weight bin in
    let bin := TProfile2PolyBin.Update bin in
    let bin := TProfile2PolyBin.SetContent (TProfile2PolyBin.fAverage bin) bin in
    Some (set_fBins (<[k := bin]> (fBins h)) h)
  else Some h.

(** [Int_t TProfile2Poly::Fill(Double_t xcoord, Double_t ycoord, Double_t value, Double_t weight)].
    The result is [None] when the code reads or writes outside an array
    or through a null pointer. *)
Definition Fill (h : t) (xcoord ycoord value weight : D) : option (t * Z) :=
  (* Find region in which the hit occured *)
  let tmp := GetOverflowRegionFromCoordinates h xcoord ycoord in
  let overflow_idx := OverflowIdxToArrayIdx tmp in
  ovf ← At (fOverflowBins h) overflow_idx;
  let h := set_fOverflowBins
             (<[Z.to_nat overflow_idx := TProfile2PolyBin.Fill value weight ovf]>
                (fOverflowBins h)) h in
  (* Find the cell to which (x,y) coordinates belong to *)
  let n := dfloor (ddiv (dsub xcoord (GetXmin (fXaxis h))) (fStepX h)) in
  let m := dfloor (ddiv (dsub ycoord (GetXmin (fYaxis h))) (fStepY h)) in
  (* Make sure the array indices are correct. *)
  let n := if n >=? fCellX h then fCellX h - 1 else n in
  let m := if m >=? fCellY h then fCellY h - 1 else m in
  let n := if n <? 0 then 0 else n in
  let m := if m <? 0 then 0 else m in
  (* Update global (per histo) statistics *)
  let h := AddStats xcoord ycoord value weight h in
  (* Update local (per bin) statistics *)
  cell ← At (fCells h) (n + fCellX h * m);
  h ← foldlM (FillBin xcoord ycoord value weight) h cell;
  Some (h, tmp).

(** [Int_t TProfile2Poly::Fill(Double_t xcoord, Double_t ycoord, Double_t value)] *)
Definition Fill1 (h : t) (xcoord ycoord value : D) : option (t * Z) :=
  Fill h xcoord ycoord value d1.

(** The body of the loop of [SetContentToAverage], and the loop over
    every bin of [fBins] in turn. *)
Definition ContentToAverage (bin : Bin) : Bin :=
  let bin := TProfile2PolyBin.Update bin in
  TProfile2PolyBin.SetContent (TProfile2PolyBin.fAverage bin) bin.

Definition ShowAverage (h : t) : t :=
  set_fBins (ContentToAverage <$> fBins h) h.

(** [void TProfile2Poly::SetContentToAverage()]: [fBins->GetSize()], then
    the loop up to that number. *)
Definition SetContentToAverage (h : t) : option t :=
  nbins ← GetSize h;
  Some (ShowAverage h).

(** The body of the loop of [SetContentToError], and the loop. *)
Definition ContentToError (bin : Bin) : Bin :=
  let bin := TProfile2PolyBin.Update bin in
  TProfile2PolyBin.SetContent (TProfile2PolyBin.fError bin) bin.

Definition ShowError (h : t) : t :=
  set_fBins (ContentToError <$> fBins h) h.

(** [void TProfile2Poly::SetContentToError()] *)
Definition SetContentToError (h : t) : option t :=
  nbins ← GetSize h;
  Some (ShowError h).

(** [void TProfile2Poly::SetErrorOption(EErrorType type)].  [TIter] on a
    null list yields nothing, so a histogram without bins only has its
    own mode set. *)
Definition SetErrorOption (type : EErrorType) (h : t) : t :=
  let h := set_fErrorMode type h in
  set_fBins (TProfile2PolyBin.SetErrorOption type <$> fBins h) h.

(** [void TProfile2Poly::GetStats(Double_t *stats) const] *)
Definition GetStats (h : t) : list D :=
  [fTsumw h; fTsumw2 h; fTsumwx h; fTsumwx2 h; fTsumwy h; fTsumwy2 h;
   fTsumwxy h; fTsumwz h; fTsumwz2 h].

(** *** Merge *)

(** [this->fOverflowBins[i].Merge(&histo->fOverflowBins[i])] *)
Definition MergeOverflowBin (histo this : t) (i : Z) : option t :=
  dst ← At (fOverflowBins this) i;
  src ← At (fOverflowBins histo) i;
  Some (set_fOverflowBins
          (<[Z.to_nat i := TProfile2PolyBin.Merge dst src]> (fOverflowBins this)) this).

(** The ten additions of the first loop of [Merge], for the source [histo]. *)
Definition AddStatsOf (histo this : t) : t :=
  mk (fXaxis this) (fYaxis this) (fNcells this) (fBins this) (fCells this)
     (fCellX this) (fCellY this) (fStepX this) (fStepY this) (fOverflow this)
     (fOverflowBins this)
     (dadd (fEntries this) (fEntries histo))
     (dadd (fTsumw this) (fTsumw histo))
     (dadd (fTsumw2 this) (fTsumw2 histo))
     (dadd (fTsumwx this) (fTsumwx histo))
     (dadd (fTsumwx2 this) (fTsumwx2 histo))
     (dadd (fTsumwy this) (fTsumwy histo))
     (dadd (fTsumwy2 this) (fTsumwy2 histo))
     (dadd (fTsumwxy this) (fTsumwxy histo))
     (dadd (fTsumwz this) (fTsumwz histo))
     (dadd (fTsumwz2 this) (fTsumwz2 histo))
     (fErrorMode this).

(** The body of the first loop, [for (const auto &histo : list)]. *)
Definition MergeGlobal (this histo : t) : option t :=
  let this := AddStatsOf histo this in
  (* Merge overflow bins *)
  foldlM (MergeOverflowBin histo) this (seqZ 0 kNOverflow).

(** [src = e->fBins->At(i); dst->Merge(src)] *)
Definition MergeSrc (i : Z) (dst : Bin) (e : t) : option Bin :=
  src ← At (fBins e) i;
  Some (TProfile2PolyBin.Merge dst src).

(** The body of the second loop, [for (Int_t i = 0; i < nbins; i++)]. *)
Definition MergeBin (list : list t) (this : t) (i : Z) : option t :=
  dst ← At (fBins this) i;
  dst ← foldlM (MergeSrc i) dst list;
  Some (set_fBins (<[Z.to_nat i := TProfile2PolyBin.Update dst]> (fBins this)) this).

(** [std::set<Int_t> numBinUnique], after the loop that inserts
    [histo->fBins->GetSize()] for every histogram of the list; no result
    when one of them has a null [fBins]. *)
Definition numBinUnique (list : list t) : option (gset Z) :=
  foldlM (fun s histo => n ← GetSize histo; Some ({[ n ]} ∪ s)) ∅ list.

(** [Long64_t TProfile2Poly::Merge(const std::vector<TProfile2Poly *> &list)].
    The histograms of [list] are objects other than [this].  The result is
    [None] when the code goes through a null pointer: the [fBins] of a
    histogram without bins, or [fBins->At(i)] past the end of a list. *)
Definition Merge (this : t) (list : list t) : option (t * Z) :=
  if (length list =? 0)%nat then Some (this, -1)
  else
    (* Check that bin numbers of TP2P's to be merged are equal *)
    numBinUnique ← numBinUnique list;
    if negb (size numBinUnique =? 1)%nat then Some (this, -1)
    else
      let nbins := hd 0 (elements numBinUnique) in
      (* Update global (per histo) statistics *)
      this ← foldlM MergeGlobal this list;
      (* Update local (per bin) statistics *)
      this ← foldlM (MergeBin list) this (seqZ 0 nbins);
      this ← SetContentToAverage this;
      Some (this, 1).

(** *** Accessors by bin number *)

(** [Double_t TProfile2Poly::GetBinEffectiveEntries(Int_t bin) const] *)
Definition GetBinEffectiveEntries (h : t) (bin : Z) : option D :=
  if (bin >? GetNumberOfBins h) || (bin =? 0) || (bin <? - kNOverflow) then Some d0
  else if bin <? 0 then At (fOverflow h) (- bin - 1)
  else TProfile2PolyBin.GetEffectiveEntries <$> At (fBins h) (bin - 1).

(** [Double_t TProfile2Poly::GetBinEntries(Int_t bin) const] *)
Definition GetBinEntries (h : t) (bin : Z) : option D :=
  if (bin >? GetNumberOfBins h) || (bin =? 0) || (bin <? - kNOverflow) then Some d0
  else if bin <? 0 then TProfile2PolyBin.GetEntries <$> At (fOverflowBins h) (- bin - 1)
  else TProfile2PolyBin.GetEntries <$> At (fBins h) (bin - 1).

(** [Double_t TProfile2Poly::GetBinEntriesW2(Int_t bin) const] *)
Definition GetBinEntriesW2 (h : t) (bin : Z) : option D :=
  if (bin >? GetNumberOfBins h) || (bin =? 0) || (bin <? - kNOverflow) then Some d0
  else if bin <? 0 then TProfile2PolyBin.GetEntriesW2 <$> At (fOverflowBins h) (- bin - 1)
  else TProfile2PolyBin.GetEntriesW2 <$> At (fBins h) (bin - 1).

(** [Double_t TProfile2Poly::GetBinEntriesVW(Int_t bin) const] *)
Definition GetBinEntriesVW (h : t) (bin : Z) : option D :=
  if (bin >? GetNumberOfBins h) || (bin =? 0) || (bin <? - kNOverflow) then Some d0
  else if bin <? 0 then TProfile2PolyBin.GetEntriesVW <$> At (fOverflowBins h) (- bin - 1)
  else TProfile2PolyBin.GetEntriesVW <$> At (fBins h) (bin - 1).

(** [Double_t TProfile2Poly::GetBinEntriesWV2(Int_t bin) const] *)
Definition GetBinEntriesWV2 (h : t) (bin : Z) : option D :=
  if (bin >? GetNumberOfBins h) || (bin =? 0) || (bin <? - kNOverflow) then Some d0
  else if bin <? 0 then TProfile2PolyBin.GetEntriesWV2 <$> At (fOverflowBins h) (- bin - 1)
  else TProfile2PolyBin.GetEntriesWV2 <$> At (fBins h) (bin - 1).

(** [Double_t TProfile2Poly::GetBinError(Int_t bin) const] *)
Definition GetBinError (h : t) (bin : Z) : option D :=
  if (bin >? GetNumberOfBins h) || (bin =? 0) || (bin <? - kNOverflow) then Some d0
  else if bin <? 0 then TProfile2PolyBin.GetError <$> At (fOverflowBins h) (- bin - 1)
  else TProfile2PolyBin.GetError <$> At (fBins h) (bin - 1).

(** *** States *)

(** The shape every histogram built by the constructors and [AddBin] has:
    nine overflow slots, one cell counted per registered bin on top of
    them ([CreateBin]), a partition of [fCellX] by [fCellY] cells whose
    entries point to registered bins, and a polygon in every registered
    bin ([CreateBin] makes no bin without one). *)
Definition wf (h : t) : Prop :=
  length (fOverflowBins h) = 9%nat /\
  length (fOverflow h) = 9%nat /\
  fNcells h = kNOverflow + Z.of_nat (length (fBins h)) /\
  0 < fCellX h /\ 0 < fCellY h /\
  Z.of_nat (length (fCells h)) = fCellX h * fCellY h /\
  Forall (Forall (fun k => (k < length (fBins h))%nat)) (fCells h) /\
  Forall (fun bin => is_Some (TProfile2PolyBin.fPoly bin)) (fBins h).

(** A histogram in which nothing has been filled yet: the statistics are
    zero and every bin is as its constructor left it. *)
Definition fresh (h : t) : Prop :=
  fEntries h = d0 /\
  GetStats h = replicate 9 d0 /\
  fOverflowBins h = replicate 9 (TProfile2PolyBin.new None) /\
  Forall (fun bin => bin = TProfile2PolyBin.new (TProfile2PolyBin.fPoly bin)) (fBins h).


(** A sequence of calls of [Fill], each on the result of the one before;
    a sample is [(x, y, value, weight)]. *)
Definition Fills (h : t) (samples : list (D * D * D * D)) : option t :=
  foldlM (fun h '(x, y, v, w) => fst <$> Fill h x y v w) h samples.

(** The sum of [fSumw] over a list of bins. *)
Definition SumW (bins : list Bin) : D :=
  foldr (fun bin acc => dadd (TProfile2PolyBin.fSumw bin) acc) d0 bins.

End Def.
Arguments t D Poly : clear implicits.
End TProfile2Poly.

(** ** The grid of overflow regions

    The comment in [GetOverflowRegionFromCoordinates] draws the regions as
    three rows (-1, -4, -7 downwards) of three columns (0, -1, -2 to the
    right), and [printOverflowRegions] prints the slots three to a line.
    The row and the column of a region number, each 0, 1 or 2: *)
Definition Row (region : Z) : Z := (- region - 1) / 3.
Definition Column (region : Z) : Z := (- region - 1) mod 3.

Section Frame.
Context {D : Type} `{Arith D} {Poly : Type}.

(** What filling and merging never change: the axes, the partition, the
    array [fOverflow] of the base class, the mode, and the polygon of every
    registered bin. *)
Definition geometry_of (h : TProfile2Poly.t D Poly) :=
  (TProfile2Poly.fXaxis h, TProfile2Poly.fYaxis h, TProfile2Poly.fNcells h,
   TProfile2Poly.fCells h, TProfile2Poly.fCellX h, TProfile2Poly.fCellY h,
   TProfile2Poly.fStepX h, TProfile2Poly.fStepY h, TProfile2Poly.fOverflow h,
   TProfile2Poly.fErrorMode h,
   TProfile2PolyBin.fPoly <$> TProfile2Poly.fBins h).

(** The part of a histogram that the loop over a cell in [Fill] leaves
    alone. *)
Definition outside_bins (h : TProfile2Poly.t D Poly) :=
  (geometry_of h, TProfile2Poly.fOverflowBins h, TProfile2Poly.GetStats h).

(** [x] and [y] lie in the domain of the axes, borders included. *)
Definition InDomain (h : TProfile2Poly.t D Poly) (x y : D) : Prop :=
  dgt (GetXmin (TProfile2Poly.fXaxis h)) x = false /\
  dgt x (GetXmax (TProfile2Poly.fXaxis h)) = false /\
  dgt (GetXmin (TProfile2Poly.fYaxis h)) y = false /\
  dgt y (GetXmax (TProfile2Poly.fYaxis h)) = false.

(** The lower end of neither axis exceeds its upper end. *)
Definition ProperDomain (h : TProfile2Poly.t D Poly) : Prop :=
  dgt (GetXmin (TProfile2Poly.fXaxis h)) (GetXmax (TProfile2Poly.fXaxis h)) = false /\
  dgt (GetXmin (TProfile2Poly.fYaxis h)) (GetXmax (TProfile2Poly.fYaxis h)) = false.

End Frame.

(** No registered polygon reaches outside the domain of the axes. *)
Definition PolygonsInDomain {D Poly : Type} `{Arith D} `{Geometry D Poly}
    (h : TProfile2Poly.t D Poly) : Prop :=
  forall bin poly x y,
    bin ∈ TProfile2Poly.fBins h -> TProfile2PolyBin.fPoly bin = Some poly ->
    inside poly x y = true -> InDomain h x y.

(** ** Merging, and the histograms that can arise *)

Section SpecMerge.
Context {D : Type} `{Arith D} {Poly : Type} `{Geometry D Poly}.

(** Bin [i] of every source that has one, in the order of the sources,
    and the same for overflow slot [i]. *)
Definition source_bins (sources : list (TProfile2Poly.t D Poly)) (i : nat) :
    list (TProfile2PolyBin.t D Poly) :=
  omap (fun e => TProfile2Poly.fBins e !! i) sources.

Definition source_overflow (sources : list (TProfile2Poly.t D Poly)) (i : nat) :
    list (TProfile2PolyBin.t D Poly) :=
  omap (fun e => TProfile2Poly.fOverflowBins e !! i) sources.

(** The specification's "additively combines": the quantity [f] of the
    target plus that of every source, in their order. *)
Definition total (f : TProfile2Poly.t D Poly -> D) (this : TProfile2Poly.t D Poly)
    (sources : list (TProfile2Poly.t D Poly)) : D :=
  foldl (fun acc e => dadd acc (f e)) (f this) sources.

(** What the body of the first loop of [Merge] makes of the target for one
    source: the ten additions, and the overflow bins merged pairwise. *)
Definition MergedGlobal (this histo : TProfile2Poly.t D Poly) : TProfile2Poly.t D Poly :=
  TProfile2Poly.set_fOverflowBins
    (zip_with TProfile2PolyBin.Merge
       (TProfile2Poly.fOverflowBins this) (TProfile2Poly.fOverflowBins histo))
    (TProfile2Poly.AddStatsOf histo this).

(** What the second loop of [Merge] makes of the bin at position [i] once
    it has run up to [n]. *)
Definition MergedBin (sources : list (TProfile2Poly.t D Poly)) (n i : nat)
    (bin : TProfile2PolyBin.t D Poly) : TProfile2PolyBin.t D Poly :=
  if (i <? n)%nat
  then TProfile2PolyBin.Update (foldl TProfile2PolyBin.Merge bin (source_bins sources i))
  else bin.

(** The histograms that calls of [Fill] and [Merge] make from well-formed
    histograms in which nothing was filled; the sources of a merge are
    such histograms themselves. *)
Inductive reachable : TProfile2Poly.t D Poly -> Prop :=
  | reach_new h :
      TProfile2Poly.wf h -> TProfile2Poly.fresh h -> reachable h
  | reach_Fill h x y value weight h' r :
      reachable h -> TProfile2Poly.Fill h x y value weight = Some (h', r) ->
      reachable h'
  | reach_Merge h list h' r :
      reachable h -> (forall e, e ∈ list -> reachable e) ->
      TProfile2Poly.Merge h list = Some (h', r) ->
      reachable h'.

End SpecMerge.

(** ** A concrete partition: rectangles *)

(** An axis-parallel rectangle as polygon; a point on its border counts as
    inside. *)
Record Rect (D : Type) : Type := mkRect {
  rx1 : D;
  ry1 : D;
  rx2 : D;
  ry2 : D
}.
Arguments mkRect {D}.
Arguments rx1 {D}.
Arguments ry1 {D}.
Arguments rx2 {D}.
Arguments ry2 {D}.

#[export] Instance rect_geometry {D : Type} `{Arith D} : Geometry D (Rect D) := {|
  inside := fun p x y =>
    negb (dgt (rx1 p) x) && negb (dgt x (rx2 p)) &&
    negb (dgt (ry1 p) y) && negb (dgt y (ry2 p))
|}.

(** The histogram of the specification's scenarios: domain [0,10] x [0,10],
    one registered bin covering the whole domain, nothing filled.  The
    partition has 2 x 2 cells of side [five]; the bin lies in each. *)
Definition square {D : Type} `{Arith D} (ten five : D) : TProfile2Poly.t D (Rect D) :=
  TProfile2Poly.mk
    (mkAxis d0 ten) (mkAxis d0 ten) 10
    [TProfile2PolyBin.new (Some (mkRect d0 d0 ten ten))]
    [[0%nat]; [0%nat]; [0%nat]; [0%nat]] 2 2 five five
    (replicate 9 d0) (replicate 9 (TProfile2PolyBin.new None))
    d0 d0 d0 d0 d0 d0 d0 d0 d0 d0 kERRORSPREAD.

(** The same domain with two registered bins, its left and right halves. *)
Definition halves {D : Type} `{Arith D} (ten five : D) : TProfile2Poly.t D (Rect D) :=
  TProfile2Poly.mk
    (mkAxis d0 ten) (mkAxis d0 ten) 11
    [TProfile2PolyBin.new (Some (mkRect d0 d0 five ten));
     TProfile2PolyBin.new (Some (mkRect five d0 ten ten))]
    [[0%nat]; [1%nat]; [0%nat]; [1%nat]] 2 2 five five
    (replicate 9 d0) (replicate 9 (TProfile2PolyBin.new None))
    d0 d0 d0 d0 d0 d0 d0 d0 d0 d0 kERRORSPREAD.

Definition square64 : TProfile2Poly.t float (Rect float) := square 10%float 5%float.
Definition squareR : TProfile2Poly.t R (Rect R) := square 10%R 5%R.
Definition halves64 : TProfile2Poly.t float (Rect float) := halves 10%float 5%float.

(** ** The specification's formulas for [Update]

    These follow the words of the specification, not the code: the
    average, the variance proxy, the effective entries and the error it
    gives for a bin. *)
Section SpecFormulas.
Context {D : Type} `{Arith D} {Poly : Type}.
Local Abbreviation Bin := (TProfile2PolyBin.t D Poly).

(** "average = sumWeightedValue / sumWeight if sumWeight ≠ 0, else unchanged" *)
Definition spec_average (b : Bin) : D :=
  if dne (TProfile2PolyBin.fSumw b) d0
  then ddiv (TProfile2PolyBin.fSumvw b) (TProfile2PolyBin.fSumw b)
  else TProfile2PolyBin.fAverage b.

(** "variance = sumWeightedValueSquared/sumWeight − average²" *)
Definition spec_variance (b : Bin) (average : D) : D :=
  dsub (ddiv (TProfile2PolyBin.fSumwv2 b) (TProfile2PolyBin.fSumw b)) (dmul average average).

(** "effectiveEntries = sumWeight² / sumWeightSquared (0 if sumWeightSquared == 0)" *)
Definition spec_effectiveEntries (b : Bin) : D :=
  if dne (TProfile2PolyBin.fSumw2 b) d0
  then ddiv (dmul (TProfile2PolyBin.fSumw b) (TProfile2PolyBin.fSumw b)) (TProfile2PolyBin.fSumw2 b)
  else d0.

(** "error = sqrt(variance)" for SPREAD, "sqrt(variance) / sqrt(effectiveEntries)"
    for MEAN_ERROR and for any other mode. *)
Definition spec_error (b : Bin) : D :=
  let variance := spec_variance b (spec_average b) in
  match TProfile2PolyBin.fErrorMode b with
  | kERRORSPREAD => dsqrt variance
  | kERRORMEAN => ddiv (dsqrt variance) (dsqrt (spec_effectiveEntries b))
  | kERRORother => ddiv (dsqrt variance) (dsqrt (spec_effectiveEntries b))
  end.

(** What [UpdateError] computes where the formula above divides by a zero
    [sumWeight]: the square root is replaced by 0. *)
Definition error_without_weight (b : Bin) : D :=
  match TProfile2PolyBin.fErrorMode b with
  | kERRORSPREAD => d0
  | kERRORMEAN => ddiv d0 (dsqrt (spec_effectiveEntries b))
  | kERRORother => ddiv d0 (dsqrt (spec_effectiveEntries b))
  end.

(** The four moment sums of a bin, in the order [fSumw], [fSumvw],
    [fSumw2], [fSumwv2]. *)
Definition moments (b : Bin) : D * D * D * D :=
  (TProfile2PolyBin.fSumw b, TProfile2PolyBin.fSumvw b,
   TProfile2PolyBin.fSumw2 b, TProfile2PolyBin.fSumwv2 b).

(** The fields of a bin other than the four moment sums. *)
Definition rest_of_bin (b : Bin) : option Poly * D * bool * D * D * EErrorType :=
  (TProfile2PolyBin.fPoly b, TProfile2PolyBin.fContent b, TProfile2PolyBin.fChanged b,
   TProfile2PolyBin.fError b, TProfile2PolyBin.fAverage b, TProfile2PolyBin.fErrorMode b).

(** The specification's "additively combines", for a bin: the quantity [f]
    of the bin plus that of every source bin, in their order. *)
Definition bin_total (f : Bin -> D) (bin : Bin) (sources : list Bin) : D :=
  foldl (fun acc s => dadd acc (f s)) (f bin) sources.

(** The four moment sums of a bin and a list of source bins combined. *)
Definition combined_moments (bin : Bin) (sources : list Bin) : D * D * D * D :=
  (bin_total TProfile2PolyBin.fSumw bin sources,
   bin_total TProfile2PolyBin.fSumvw bin sources,
   bin_total TProfile2PolyBin.fSumw2 bin sources,
   bin_total TProfile2PolyBin.fSumwv2 bin sources).

End SpecFormulas.

(** Three bins over the real numbers. *)
Definition binA : TProfile2PolyBin.t R unit :=
  TProfile2PolyBin.mk None 0%R false 1%R 10%R 1%R 100%R 0%R 10%R kERRORSPREAD.
Definition binB : TProfile2PolyBin.t R unit :=
  TProfile2PolyBin.mk None 0%R false 2%R 40%R 4%R 800%R 0%R 20%R kERRORSPREAD.
Definition binC : TProfile2PolyBin.t R unit :=
  TProfile2PolyBin.mk None 0%R false 3%R 15%R 9%R 75%R 0%R 5%R kERRORMEAN.

(** A bin over binary64 in which nothing was filled. *)
Definition empty64 : TProfile2PolyBin.t float unit := TProfile2PolyBin.new None.

(** The square histogram after [Fill(5, 5, 10, 1)], as in the specification's
    scenarios ([square64] itself should the call fail). *)
Definition filled64 : TProfile2Poly.t float (Rect float) :=
  default square64 (TProfile2Poly.Fills square64 [(5, 5, 10, 1)%float]).

(** The square histogram after [Fill(-1, -1, 5, 2)]. *)
Definition outside64 : TProfile2Poly.t float (Rect float) :=
  default square64 (TProfile2Poly.Fills square64 [(-1, -1, 5, 2)%float]).

(** Two bins on binary64, one holding the weight 2^53, one the weight 1. *)
Definition binHeavy : TProfile2PolyBin.t float unit :=
  TProfile2PolyBin.mk None 0%float false 9007199254740992%float 0%float
    9007199254740992%float 0%float 0%float 0%float kERRORSPREAD.
Definition binLight : TProfile2PolyBin.t float unit :=
  TProfile2PolyBin.mk None 0%float false 1%float 0%float 1%float 0%float
    0%float 0%float kERRORSPREAD.

(** Three samples for the square histogram: one of weight 2^53 in the
    middle, two of weight 1 below and left of the domain. *)
Definition heavy_samples : list (float * float * float * float) :=
  [(5, 5, 0, 9007199254740992)%float; (-1, -1, 0, 1)%float; (-1, -1, 0, 1)%float].

(** ** Further vocabulary *)

Section Coverage.
Context {D : Type} `{Arith D} {Poly : Type} `{Geometry D Poly}.

(** A bin filled with the values of a list, one call of
    [TProfile2PolyBin::Fill] each, all with the weight 1 that
    [TProfile2Poly::Fill(xcoord, ycoord, value)] passes. *)
Definition FillUnit (b : TProfile2PolyBin.t D Poly) (values : list D) :
    TProfile2PolyBin.t D Poly :=
  foldl (fun b v => TProfile2PolyBin.Fill v d1 b) b values.

(** The bin at position [k] of [fBins] has a polygon that contains the
    point. *)
Definition Contains (h : TProfile2Poly.t D Poly) (x y : D) (k : nat) : bool :=
  match TProfile2Poly.fBins h !! k with
  | Some bin =>
      match TProfile2PolyBin.fPoly bin with
      | Some poly => inside poly x y
      | None => false
      end
  | None => false
  end.


(** The contributions of one sample to the nine statistics, in the order
    of [GetStats]. *)
Definition SampleStats (x y value weight : D) : list D :=
  [weight; dmul weight weight;
   dmul weight x; dmul (dmul weight x) x;
   dmul weight y; dmul (dmul weight y) y;
   dmul (dmul weight x) y;
   dmul weight value; dmul (dmul weight value) value].

(** The histogram a successful [Merge] leaves, for sources of [n] bins:
    the first loop, the second loop and the final pass. *)
Definition Merged (this : TProfile2Poly.t D Poly) (sources : list (TProfile2Poly.t D Poly))
    (n : nat) : TProfile2Poly.t D Poly :=
  TProfile2Poly.ShowAverage
    (TProfile2Poly.set_fBins (imap (MergedBin sources n) (TProfile2Poly.fBins this))
       (foldl MergedGlobal this sources)).

(** The statistics of a histogram and its overflow bins. *)
Definition stats_part (h : TProfile2Poly.t D Poly) :=
  (TProfile2Poly.fEntries h, TProfile2Poly.GetStats h, TProfile2Poly.fOverflowBins h).

End Coverage.

(** The square histogram over the real numbers with the statistics of one
    sample added. *)
Definition markedR : TProfile2Poly.t R (Rect R) :=
  TProfile2Poly.AddStats 5%R 5%R 10%R 1%R squareR.

(** The square domain before any bin is registered. *)
Definition no_bins64 : TProfile2Poly.t float (Rect float) :=
  TProfile2Poly.mk
    (mkAxis 0%float 10%float) (mkAxis 0%float 10%float) 9
    [] [[]; []; []; []] 2 2 5%float 5%float
    (replicate 9 0%float) (replicate 9 (TProfile2PolyBin.new None))
    0%float 0%float 0%float 0%float 0%float 0%float 0%float 0%float 0%float 0%float
    kERRORSPREAD.

(** * Properties *)

(** ** The real numbers as arithmetic *)

#[export] Instance real_exact : ExactAdd R.
Proof.
  split; simpl; intros; ring.
Qed.

#[export] Instance real_order : OrderLaws R.
Proof.
  split; simpl; intros a b.
  - destruct (Rgt_dec a b), (Rgt_dec b a); intros; try reflexivity; try discriminate.
    exfalso; lra.
  - intros c. destruct (Rgt_dec a b), (Rgt_dec b c), (Rgt_dec a c); intros;
      try reflexivity; try discriminate.
    exfalso; lra.
Qed.

(** ** Binary64 as arithmetic *)

(** Case analysis on the comparisons of exponents and mantissas. *)
Ltac compare_cases :=
  repeat match goal with
  | H : context [Pos.compare_cont Eq ?a ?b] |- _ =>
      change (Pos.compare_cont Eq a b) with (Pos.compare a b) in H
  | |- context [Pos.compare_cont Eq ?a ?b] =>
      change (Pos.compare_cont Eq a b) with (Pos.compare a b)
  end;
  repeat match goal with
  | H : context [Z.compare ?a ?b] |- _ => destruct (Z.compare_spec a b)
  | |- context [Z.compare ?a ?b] => destruct (Z.compare_spec a b)
  | H : context [Pos.compare ?a ?b] |- _ => destruct (Pos.compare_spec a b)
  | |- context [Pos.compare ?a ?b] => destruct (Pos.compare_spec a b)
  end; subst; simpl in *; try discriminate; try reflexivity; try lia.

Lemma SFltb_asym (a b : spec_float) : SFltb a b = true -> SFltb b a = false.
Proof.
  unfold SFltb, SFcompare.
  destruct a as [[]|[]| |[] ma ea], b as [[]|[]| |[] mb eb]; simpl;
    try discriminate; try reflexivity; compare_cases.
Qed.

Lemma SFltb_trans (a b c : spec_float) :
  SFltb a b = true -> SFltb b c = true -> SFltb a c = true.
Proof.
  unfold SFltb, SFcompare.
  destruct a as [[]|[]| |[] ma ea], b as [[]|[]| |[] mb eb], c as [[]|[]| |[] mc ec];
    simpl; try discriminate; try reflexivity; compare_cases.
Qed.

(** The comparison of doubles is a strict order. *)
#[export] Instance binary64_order : OrderLaws float.
Proof.
  split; cbn; intros a b.
  - rewrite !ltb_spec. apply SFltb_asym.
  - intros c. rewrite !ltb_spec. intros Hab Hbc. exact (SFltb_trans _ _ _ Hbc Hab).
Qed.

Lemma SFadd_comm (prec emax : Z) (x y : spec_float) :
  SFadd prec emax x y = SFadd prec emax y x.
Proof.
  destruct x as [sx|sx| |sx mx ex], y as [sy|sy| |sy my ey]; cbn;
    try reflexivity; try (destruct sx, sy; reflexivity).
  now rewrite Z.min_comm, Z.add_comm.
Qed.

(** The addition of doubles is commutative. *)
Lemma binary64_add_comm (x y : float) : dadd x y = dadd y x.
Proof.
  apply Prim2SF_inj. cbn. rewrite !add_spec. apply SFadd_comm.
Qed.

(** Their addition rounds, and so is not associative: 2^53 + 1 is 2^53. *)
Example binary64_add_rounds :
  dadd (dadd 9007199254740992%float 1%float) 1%float = 9007199254740992%float /\
  dadd 9007199254740992%float (dadd 1%float 1%float) = 9007199254740994%float.
Proof.
  split; vm_compute; reflexivity.
Qed.

(** ** The accumulator *)

Section BinFacts.
Context {D : Type} `{Arith D} {Poly : Type}.
Local Abbreviation Bin := (TProfile2PolyBin.t D Poly).
Import TProfile2PolyBin.

Lemma bin_eq (a b : Bin) :
  moments a = moments b -> rest_of_bin a = rest_of_bin b -> a = b.
Proof.
  destruct a, b; unfold moments, rest_of_bin; simpl.
  intros Hm Hr; inversion Hm; inversion Hr; subst; reflexivity.
Qed.

Lemma Update_idem (b : Bin) : Update (Update b) = Update b.
Proof.
  destruct b as [p c ch w vw w2 wv2 e a m].
  cbv [Update UpdateError UpdateAverage SetChanged GetEffectiveEntries
       fPoly fContent fChanged fSumw fSumvw fSumw2 fSumwv2 fError fAverage fErrorMode].
  destruct (dne w d0); reflexivity.
Qed.

Lemma Update_fPoly (b : Bin) : fPoly (Update b) = fPoly b.
Proof. reflexivity. Qed.

Lemma Merge_fSumw (a b : Bin) : fSumw (Merge a b) = dadd (fSumw a) (fSumw b).
Proof. reflexivity. Qed.

(** C3 (as amended).  After [Update] the average is
    [sumWeightedValue / sumWeight] when [sumWeight ≠ 0] and the previous
    average otherwise.  The error is the specification's formula (the
    square root of the variance proxy, divided by the square root of the
    effective entries unless the mode is SPREAD) when [sumWeight ≠ 0]; when
    [sumWeight = 0] the square root is replaced by 0, so the error is 0 in
    SPREAD mode and [0 / sqrt(effectiveEntries)] in the other modes.  The
    sums, the polygon, the content and the mode are as before, and the bin
    is flagged as changed. *)
Theorem Update_average_and_error (b : Bin) :
  fAverage (Update b) = spec_average b /\
  fError (Update b) =
    (if dne (fSumw b) d0 then spec_error b else error_without_weight b) /\
  moments (Update b) = moments b /\
  fPoly (Update b) = fPoly b /\ fContent (Update b) = fContent b /\
  fErrorMode (Update b) = fErrorMode b /\ fChanged (Update b) = true.
Proof.
  destruct b as [p c ch w vw w2 wv2 e a m].
  unfold Update, UpdateError, UpdateAverage, SetChanged, GetEffectiveEntries,
    spec_error, error_without_weight, spec_variance, spec_average,
    spec_effectiveEntries, moments; simpl.
  repeat split.
  destruct (dne w d0), m; reflexivity.
Qed.

(** C6 (as amended).  [Fill] adds to the four moment sums
    ([sumWeight += w], [sumWeightedValue += v·w], [sumWeightSquared += w·w],
    [sumWeightedValueSquared += w·v·v]) and then calls [Update] itself: the
    average and the error it leaves are those of the new sums (the average
    [sumWeightedValue / sumWeight] of the new sums where the new
    [sumWeight ≠ 0], and the error of the specification's formula there).
    The polygon, the content and the mode are as before, and the bin is
    flagged as changed. *)
Theorem Fill_sums_then_Update (value weight : D) (b : Bin) :
  moments (Fill value weight b) =
    (dadd (fSumw b) weight, dadd (fSumvw b) (dmul value weight),
     dadd (fSumw2 b) (dmul weight weight),
     dadd (fSumwv2 b) (dmul (dmul weight value) value)) /\
  fAverage (Fill value weight b) =
    (if dne (dadd (fSumw b) weight) d0
     then ddiv (dadd (fSumvw b) (dmul value weight)) (dadd (fSumw b) weight)
     else fAverage b) /\
  fError (Fill value weight b) =
    (if dne (dadd (fSumw b) weight) d0
     then spec_error (AddSums value weight b)
     else error_without_weight (AddSums value weight b)) /\
  fPoly (Fill value weight b) = fPoly b /\
  fContent (Fill value weight b) = fContent b /\
  fErrorMode (Fill value weight b) = fErrorMode b /\
  fChanged (Fill value weight b) = true.
Proof.
  destruct b as [p c ch w vw w2 wv2 e a m].
  cbv [Fill AddSums Update UpdateError UpdateAverage SetChanged GetEffectiveEntries
       spec_error error_without_weight spec_variance spec_average
       spec_effectiveEntries moments
       fPoly fContent fChanged fSumw fSumvw fSumw2 fSumwv2 fError fAverage fErrorMode].
  repeat split.
  destruct (dne (dadd w weight) d0), m; reflexivity.
Qed.

End BinFacts.

Section BinMerge.
Context {D : Type} `{ExactAdd D} {Poly : Type}.
Local Abbreviation Bin := (TProfile2PolyBin.t D Poly).
Import TProfile2PolyBin.

Lemma dadd_swap (a b c : D) : dadd (dadd a b) c = dadd (dadd a c) b.
Proof.
  rewrite <- !dadd_assoc. f_equal. apply dadd_comm.
Qed.

Lemma Merge_swap (a b c : Bin) : Merge (Merge a b) c = Merge (Merge a c) b.
Proof.
  apply bin_eq; [|reflexivity].
  unfold moments; simpl.
  now rewrite (dadd_swap (fSumw a)), (dadd_swap (fSumvw a)),
    (dadd_swap (fSumw2 a)), (dadd_swap (fSumwv2 a)).
Qed.

Lemma Merge_foldl_perm (l l' : list Bin) :
  l ≡ₚ l' -> forall a : Bin, foldl Merge a l = foldl Merge a l'.
Proof.
  induction 1 as [|x l l' _ IH|x y l|l1 l2 l3 _ IH1 _ IH2]; intros a; simpl.
  - reflexivity.
  - apply IH.
  - now rewrite Merge_swap.
  - now rewrite IH1.
Qed.

End BinMerge.

Section BinMergeOrder.
Context {D : Type} `{Arith D} {Poly : Type}.
Local Abbreviation Bin := (TProfile2PolyBin.t D Poly).
Import TProfile2PolyBin.

(** C7.  [Merge] adds the four moment sums of the other bin to those of
    this one and leaves every other field (polygon, content, changed flag,
    error, average, mode) as it was, in every arithmetic.  Where addition
    is commutative (as that of binary64 is), two bins merge to the same
    sums either way round.  Where addition is exact (associative and
    commutative, as over the real numbers), the sums do not depend on the
    order or the grouping: merging [b] then [c] into [a] equals merging
    [b] merged with [c] into [a], and merging the bins of a list one
    after the other gives the same bin for every permutation of the
    list. *)
Theorem Merge_moments_only_order_free (a b c : Bin) (l l' : list Bin) :
  moments (Merge a b) =
    (dadd (fSumw a) (fSumw b), dadd (fSumvw a) (fSumvw b),
     dadd (fSumw2 a) (fSumw2 b), dadd (fSumwv2 a) (fSumwv2 b)) /\
  rest_of_bin (Merge a b) = rest_of_bin a /\
  ((forall x y : D, dadd x y = dadd y x) ->
   moments (Merge a b) = moments (Merge b a)) /\
  (ExactAdd D -> l ≡ₚ l' ->
   Merge (Merge a b) c = Merge a (Merge b c) /\
   Merge (Merge a b) c = Merge (Merge a c) b /\
   foldl Merge a l = foldl Merge a l').
Proof.
  split; [reflexivity|]. split; [reflexivity|]. split.
  - intros Hcomm. unfold moments; simpl.
    now rewrite (Hcomm (fSumw a)), (Hcomm (fSumvw a)),
      (Hcomm (fSumw2 a)), (Hcomm (fSumwv2 a)).
  - intros Hexact Hperm. split; [|split].
    + apply bin_eq; [|reflexivity].
      unfold moments; simpl. now rewrite !dadd_assoc.
    + apply Merge_swap.
    + now apply Merge_foldl_perm.
Qed.

End BinMergeOrder.

(** C7 on three bins over the real numbers, and its commutativity on two
    bins on binary64. *)
Lemma Merge_order_free_witness :
  moments (TProfile2PolyBin.Merge binA binB) = moments (TProfile2PolyBin.Merge binB binA) /\
  TProfile2PolyBin.Merge (TProfile2PolyBin.Merge binA binB) binC =
    TProfile2PolyBin.Merge binA (TProfile2PolyBin.Merge binB binC) /\
  foldl TProfile2PolyBin.Merge binA [binB; binC] =
    foldl TProfile2PolyBin.Merge binA [binC; binB] /\
  moments (TProfile2PolyBin.Merge binHeavy binLight) =
    moments (TProfile2PolyBin.Merge binLight binHeavy).
Proof.
  pose proof (Merge_moments_only_order_free binA binB binC [binB; binC] [binC; binB])
    as (_ & _ & Hcomm & Hexact).
  destruct (Hexact real_exact (perm_swap binC binB [])) as (Hassoc & _ & Hperm).
  pose proof (Merge_moments_only_order_free binHeavy binLight binLight [] [])
    as (_ & _ & Hcomm64 & _).
  exact (conj (Hcomm Rplus_comm) (conj Hassoc (conj Hperm (Hcomm64 binary64_add_comm)))).
Defined.

(** ** The accumulator on binary64 *)

(** Two doubles that [==] tells apart are different. *)
Lemma float_neq (a b : float) : PrimFloat.eqb a b = false -> PrimFloat.is_nan a = false -> a <> b.
Proof.
  intros Hne Hnan ->.
  unfold PrimFloat.is_nan in Hnan. rewrite Hne in Hnan. discriminate.
Qed.

(** C7, counterexample.  On binary64 the grouping matters: a bin of
    weight 1 merged twice into a bin of weight 2^53 leaves 2^53, the two
    merged with each other first leave 2^53 + 2. *)
Lemma Merge_grouping_matters_on_binary64 :
  TProfile2PolyBin.fSumw
    (TProfile2PolyBin.Merge (TProfile2PolyBin.Merge binHeavy binLight) binLight) =
    9007199254740992%float /\
  TProfile2PolyBin.fSumw
    (TProfile2PolyBin.Merge binHeavy (TProfile2PolyBin.Merge binLight binLight)) =
    9007199254740994%float /\
  moments (TProfile2PolyBin.Merge (TProfile2PolyBin.Merge binHeavy binLight) binLight) <>
    moments (TProfile2PolyBin.Merge binHeavy (TProfile2PolyBin.Merge binLight binLight)).
Proof.
  split; [vm_compute; reflexivity|]. split; [vm_compute; reflexivity|].
  intros Heq.
  assert (Hs : TProfile2PolyBin.fSumw
                 (TProfile2PolyBin.Merge (TProfile2PolyBin.Merge binHeavy binLight) binLight) =
               TProfile2PolyBin.fSumw
                 (TProfile2PolyBin.Merge binHeavy (TProfile2PolyBin.Merge binLight binLight)))
    by exact (f_equal (fun m => fst (fst (fst m))) Heq).
  revert Hs. apply float_neq; vm_compute; reflexivity.
Qed.

(** C3, counterexample.  For a bin in which nothing was filled
    ([sumWeight = 0]) [Update] leaves the error 0, while the formula of the
    claim, [sqrt(sumWeightedValueSquared/sumWeight − average²)], is
    [sqrt(0/0 − 0)], not a number. *)
Lemma Update_error_is_not_the_formula :
  TProfile2PolyBin.fError (TProfile2PolyBin.Update empty64) = 0%float /\
  PrimFloat.is_nan (spec_error empty64) = true /\
  TProfile2PolyBin.fError (TProfile2PolyBin.Update empty64) <> spec_error empty64.
Proof.
  split; [reflexivity|]. split; [vm_compute; reflexivity|].
  apply float_neq; vm_compute; reflexivity.
Qed.

(** C6, counterexample.  Filling the value 10 with weight 1 into a bin in
    which nothing was filled changes its average from 0 to 10, with no call
    of [Update] by the caller. *)
Lemma Fill_recomputes_average :
  TProfile2PolyBin.fAverage empty64 = 0%float /\
  TProfile2PolyBin.fAverage (TProfile2PolyBin.Fill 10%float 1%float empty64) = 10%float /\
  TProfile2PolyBin.fAverage (TProfile2PolyBin.Fill 10%float 1%float empty64) <>
    TProfile2PolyBin.fAverage empty64.
Proof.
  split; [reflexivity|]. split; [vm_compute; reflexivity|].
  apply float_neq; vm_compute; reflexivity.
Qed.

(** Reduction of the projections of a histogram, its bins left folded. *)
Ltac poly_simpl :=
  cbn [TProfile2Poly.fXaxis TProfile2Poly.fYaxis TProfile2Poly.fNcells
       TProfile2Poly.fBins TProfile2Poly.fCells TProfile2Poly.fCellX
       TProfile2Poly.fCellY TProfile2Poly.fStepX TProfile2Poly.fStepY
       TProfile2Poly.fOverflow TProfile2Poly.fOverflowBins TProfile2Poly.fEntries
       TProfile2Poly.fTsumw TProfile2Poly.fTsumw2 TProfile2Poly.fTsumwx
       TProfile2Poly.fTsumwx2 TProfile2Poly.fTsumwy TProfile2Poly.fTsumwy2
       TProfile2Poly.fTsumwxy TProfile2Poly.fTsumwz TProfile2Poly.fTsumwz2
       TProfile2Poly.fErrorMode TProfile2Poly.set_fBins TProfile2Poly.set_fEntries
       TProfile2Poly.set_fOverflowBins TProfile2Poly.set_fErrorMode
       TProfile2Poly.AddStats TProfile2Poly.AddStatsOf TProfile2Poly.GetStats
       geometry_of outside_bins fst snd] in *.

(** ** The histogram: frame lemmas *)

Section PolyFacts.
Context {D : Type} `{Arith D} {Poly : Type} `{Geometry D Poly}.
Local Abbreviation Bin := (TProfile2PolyBin.t D Poly).
Local Abbreviation Profile := (TProfile2Poly.t D Poly).
Import TProfile2Poly.

Lemma At_Some {A : Type} (l : list A) (i : Z) (a : A) :
  At l i = Some a <-> 0 <= i /\ l !! Z.to_nat i = Some a.
Proof.
  unfold At. destruct (Z.ltb_spec i 0); split.
  - discriminate.
  - intros [? _]; lia.
  - auto.
  - intros [_ ?]; assumption.
Qed.

Lemma At_lt {A : Type} (l : list A) (i : Z) :
  0 <= i < Z.of_nat (length l) -> is_Some (At l i).
Proof.
  intros Hi. unfold At. destruct (Z.ltb_spec i 0); [lia|].
  apply lookup_lt_is_Some. lia.
Qed.

Lemma foldlM_app {S A : Type} (body : S -> A -> option S) (s : S) (l1 l2 : list A) :
  foldlM body s (l1 ++ l2) = s' ← foldlM body s l1; foldlM body s' l2.
Proof.
  revert s; induction l1 as [|a l1 IH]; intros s; simpl; [reflexivity|].
  destruct (body s a); simpl; auto.
Qed.

(** An invariant of the body is an invariant of the loop. *)
Lemma foldlM_invariant {S A : Type} (P : S -> Prop) (body : S -> A -> option S) (l : list A) :
  (forall s a s', a ∈ l -> P s -> body s a = Some s' -> P s') ->
  forall s s', P s -> foldlM body s l = Some s' -> P s'.
Proof.
  induction l as [|a l IH]; intros Hbody s s' Hs; simpl.
  - intros [= <-]; assumption.
  - destruct (body s a) as [s1|] eqn:Hb; simpl; [|discriminate].
    apply IH.
    + intros ? ? ? Hin; apply Hbody; now right.
    + eapply Hbody; [left|exact Hs|exact Hb].
Qed.

(** A body that cannot fail where the invariant holds makes a loop that
    cannot fail. *)
Lemma foldlM_total {S A : Type} (P : S -> Prop) (body : S -> A -> option S) (l : list A) :
  (forall s a, a ∈ l -> P s -> exists s', body s a = Some s' /\ P s') ->
  forall s, P s -> exists s', foldlM body s l = Some s' /\ P s'.
Proof.
  induction l as [|a l IH]; intros Hbody s Hs; simpl.
  - eauto.
  - destruct (Hbody s a) as (s1 & -> & Hs1); [left|assumption|]. simpl.
    apply IH; [|assumption].
    intros ? ? Hin; apply Hbody; now right.
Qed.

Lemma FillBin_Some (x y v w : D) (h h' : Profile) (k : nat) :
  FillBin x y v w h k = Some h' ->
  exists bin poly,
    fBins h !! k = Some bin /\ TProfile2PolyBin.fPoly bin = Some poly /\
    h' = if inside poly x y
         then set_fBins (<[k := ContentToAverage (TProfile2PolyBin.Fill v w bin)]> (fBins h))
                (set_fEntries (dadd (fEntries h) d1) h)
         else h.
Proof.
  unfold FillBin, IsInside.
  destruct (fBins h !! k) as [bin|]; cbn [mbind option_bind]; [|discriminate].
  destruct (TProfile2PolyBin.fPoly bin) as [poly|] eqn:Hpoly;
    cbn [mbind option_bind]; [|discriminate].
  intros Hh'. exists bin, poly. repeat split; [assumption|].
  destruct (inside poly x y); now inversion Hh'.
Qed.

Lemma ContentToAverage_fPoly (bin : Bin) :
  TProfile2PolyBin.fPoly (ContentToAverage bin) = TProfile2PolyBin.fPoly bin.
Proof. reflexivity. Qed.

Lemma FillBin_frame (x y v w : D) (h h' : Profile) (k : nat) :
  FillBin x y v w h k = Some h' -> outside_bins h' = outside_bins h.
Proof.
  intros (bin & poly & Hk & Hpoly & ->)%FillBin_Some.
  destruct (inside poly x y); [|reflexivity].
  destruct h; unfold outside_bins, geometry_of, GetStats; poly_simpl.
  rewrite list_fmap_insert, list_insert_id; [reflexivity|].
  rewrite list_lookup_fmap, Hk. reflexivity.
Qed.

Lemma FillCell_frame (x y v w : D) (cell : list nat) (h h' : Profile) :
  foldlM (FillBin x y v w) h cell = Some h' -> outside_bins h' = outside_bins h.
Proof.
  apply (foldlM_invariant (fun s => outside_bins s = outside_bins h)); [|reflexivity].
  intros s k s' _ Hs Hk. rewrite <- Hs. eapply FillBin_frame, Hk.
Qed.

Lemma FillCell_none (x y v w : D) (cell : list nat) (h : Profile) :
  (forall k, k ∈ cell -> exists bin poly,
      fBins h !! k = Some bin /\ TProfile2PolyBin.fPoly bin = Some poly /\
      inside poly x y = false) ->
  foldlM (FillBin x y v w) h cell = Some h.
Proof.
  induction cell as [|k cell IH]; intros Hcell; cbn [foldlM]; [reflexivity|].
  destruct (Hcell k) as (bin & poly & Hk & Hpoly & Hin); [left|].
  assert (Hstep : FillBin x y v w h k = Some h).
  { unfold FillBin, IsInside. rewrite Hk. cbn [mbind option_bind].
    rewrite Hpoly. cbn [mbind option_bind]. now rewrite Hin. }
  rewrite Hstep. cbn [mbind option_bind].
  apply IH. intros; apply Hcell; now right.
Qed.

(** [Fill], step by step: the overflow slot of the region, then the
    statistics, then the bins of one cell. *)
Lemma Fill_Some (h h' : Profile) (x y v w : D) (r : Z) :
  Fill h x y v w = Some (h', r) ->
  r = GetOverflowRegionFromCoordinates h x y /\
  exists ovf cell,
    At (fOverflowBins h) (- r - 1) = Some ovf /\
    cell ∈ fCells h /\
    foldlM (FillBin x y v w)
      (AddStats x y v w
         (set_fOverflowBins
            (<[Z.to_nat (- r - 1) := TProfile2PolyBin.Fill v w ovf]> (fOverflowBins h)) h))
      cell = Some h'.
Proof.
  unfold Fill, OverflowIdxToArrayIdx. cbv zeta.
  destruct (At (fOverflowBins h) _) as [ovf|] eqn:Hovf; cbn [mbind option_bind];
    [|discriminate].
  destruct h; poly_simpl.
  match goal with |- context [At fCells0 ?i] => destruct (At fCells0 i) as [cell|] eqn:Hcell end;
    cbn [mbind option_bind]; [|discriminate].
  match goal with |- context [foldlM ?f ?s cell] =>
    destruct (foldlM f s cell) as [h1|] eqn:Hfold end;
    cbn [mbind option_bind]; [|discriminate].
  intros [= <- <-]. split; [reflexivity|].
  exists ovf, cell. repeat split; try assumption.
  apply At_Some in Hcell as [_ Hcell]. eapply list_elem_of_lookup_2, Hcell.
Qed.

(** What [Fill] leaves of the histogram outside its registered bins. *)
Lemma Fill_outside_bins (h h' : Profile) (x y v w : D) (r : Z) :
  Fill h x y v w = Some (h', r) ->
  exists ovf,
    At (fOverflowBins h) (- r - 1) = Some ovf /\
    fOverflowBins h' =
      <[Z.to_nat (- r - 1) := TProfile2PolyBin.Fill v w ovf]> (fOverflowBins h) /\
    GetStats h' = GetStats (AddStats x y v w h) /\
    geometry_of h' = geometry_of h.
Proof.
  intros (_ & ovf & cell & Hovf & _ & Hfold)%Fill_Some.
  apply FillCell_frame in Hfold. exists ovf. split; [assumption|].
  assert (Hg : geometry_of h' = fst (fst (outside_bins h'))) by reflexivity.
  assert (Ho : fOverflowBins h' = snd (fst (outside_bins h'))) by reflexivity.
  assert (Hs : GetStats h' = snd (outside_bins h')) by reflexivity.
  rewrite Hg, Ho, Hs, Hfold. destruct h; repeat split.
Qed.

Lemma wf_frame (h h' : Profile) :
  geometry_of h' = geometry_of h ->
  length (fOverflowBins h') = length (fOverflowBins h) ->
  wf h -> wf h'.
Proof.
  unfold geometry_of, wf. intros Hg Hlen.
  assert (Hbins : length (fBins h') = length (fBins h)).
  { rewrite <- (length_fmap TProfile2PolyBin.fPoly (fBins h')),
      <- (length_fmap TProfile2PolyBin.fPoly (fBins h)). now inversion Hg. }
  assert (Hpoly : Forall (fun bin => is_Some (TProfile2PolyBin.fPoly bin)) (fBins h) ->
                  Forall (fun bin => is_Some (TProfile2PolyBin.fPoly bin)) (fBins h')).
  { intros Hb.
    change (Forall (is_Some ∘ TProfile2PolyBin.fPoly) (fBins h)) in Hb.
    change (Forall (is_Some ∘ TProfile2PolyBin.fPoly) (fBins h')).
    rewrite <- Forall_fmap in Hb |- *. inversion Hg; congruence. }
  inversion Hg as [[Hx Hy Hn Hc Hcx Hcy Hsx Hsy Ho Hm Hp]].
  rewrite Hlen, Hbins, Hn, Hc, Hcx, Hcy, Ho. tauto.
Qed.

(** The region number once a bin is registered: the offset of the row
    plus the offset of the column. *)
Lemma region_registered (h : Profile) (x y : D) :
  kNOverflow < fNcells h ->
  GetOverflowRegionFromCoordinates h x y =
    (if dgt y (GetXmax (fYaxis h)) then -1
     else if dgt y (GetXmin (fYaxis h)) then -4 else -7) +
    (if dgt x (GetXmax (fXaxis h)) then -2
     else if dgt x (GetXmin (fXaxis h)) then -1 else 0).
Proof.
  intros Hn. unfold GetOverflowRegionFromCoordinates.
  destruct (Z.leb_spec (fNcells h) kNOverflow); [lia|].
  destruct (dgt y (GetXmax (fYaxis h))), (dgt y (GetXmin (fYaxis h))),
    (dgt x (GetXmax (fXaxis h))), (dgt x (GetXmin (fXaxis h))); reflexivity.
Qed.

Lemma region_range (h : Profile) (x y : D) :
  kNOverflow < fNcells h ->
  -9 <= GetOverflowRegionFromCoordinates h x y <= -1.
Proof.
  intros Hn. rewrite region_registered by assumption.
  destruct (dgt y (GetXmax (fYaxis h))), (dgt y (GetXmin (fYaxis h))),
    (dgt x (GetXmax (fXaxis h))), (dgt x (GetXmin (fXaxis h))); lia.
Qed.

Lemma region_Row (h : Profile) (x y : D) :
  kNOverflow < fNcells h ->
  Row (GetOverflowRegionFromCoordinates h x y) =
    if dgt y (GetXmax (fYaxis h)) then 0
    else if dgt y (GetXmin (fYaxis h)) then 1 else 2.
Proof.
  intros Hn. rewrite region_registered by assumption.
  destruct (dgt y (GetXmax (fYaxis h))), (dgt y (GetXmin (fYaxis h))),
    (dgt x (GetXmax (fXaxis h))), (dgt x (GetXmin (fXaxis h))); reflexivity.
Qed.

Lemma region_Column (h : Profile) (x y : D) :
  kNOverflow < fNcells h ->
  Column (GetOverflowRegionFromCoordinates h x y) =
    if dgt x (GetXmax (fXaxis h)) then 2
    else if dgt x (GetXmin (fXaxis h)) then 1 else 0.
Proof.
  intros Hn. rewrite region_registered by assumption.
  destruct (dgt y (GetXmax (fYaxis h))), (dgt y (GetXmin (fYaxis h))),
    (dgt x (GetXmax (fXaxis h))), (dgt x (GetXmin (fXaxis h))); reflexivity.
Qed.

(** A region number is its row and its column. *)
Lemma region_Row_Column (r : Z) : -9 <= r <= -1 -> r = - (3 * Row r + Column r) - 1.
Proof.
  intros Hr. unfold Row, Column.
  pose proof (Z.div_mod (- r - 1) 3). lia.
Qed.

(** The two corrections of a cell index in [Fill] leave it within the
    partition. *)
Lemma cell_index_range (n m cx cy : Z) :
  0 < cx -> 0 < cy ->
  let n := if n >=? cx then cx - 1 else n in
  let m := if m >=? cy then cy - 1 else m in
  let n := if n <? 0 then 0 else n in
  let m := if m <? 0 then 0 else m in
  0 <= n + cx * m < cx * cy.
Proof.
  intros Hcx Hcy. cbv zeta.
  destruct (Z.geb_spec n cx), (Z.geb_spec m cy);
    repeat match goal with |- context [?a <? 0] => destruct (Z.ltb_spec a 0) end; nia.
Qed.

Lemma FillBin_total (x y v w : D) (h : Profile) (cell : list nat) (k : nat) :
  wf h -> cell ∈ fCells h -> k ∈ cell -> is_Some (FillBin x y v w h k).
Proof.
  intros (_ & _ & _ & _ & _ & _ & Hcells & Hpolys) Hcell Hk.
  rewrite Forall_forall in Hcells. specialize (Hcells _ Hcell).
  rewrite Forall_forall in Hcells. specialize (Hcells _ Hk).
  apply lookup_lt_is_Some in Hcells as [bin Hbin].
  rewrite Forall_forall in Hpolys.
  destruct (Hpolys bin) as [poly Hpoly]; [eapply list_elem_of_lookup_2, Hbin|].
  unfold FillBin, IsInside. rewrite Hbin. cbn [mbind option_bind].
  rewrite Hpoly. cbn [mbind option_bind]. destruct (inside poly x y); eauto.
Qed.

(** [Fill] on a well-formed histogram with a registered bin returns, and
    what it returns is the region number; the histogram stays well-formed. *)
Lemma Fill_total (h : Profile) (x y v w : D) :
  wf h -> kNOverflow < fNcells h ->
  exists h', Fill h x y v w = Some (h', GetOverflowRegionFromCoordinates h x y) /\
             wf h' /\ geometry_of h' = geometry_of h.
Proof.
  intros Hwf Hn.
  pose proof (region_range h x y Hn) as Hr.
  destruct (At_lt (fOverflowBins h) (- GetOverflowRegionFromCoordinates h x y - 1))
    as [ovf Hovf].
  { destruct Hwf as (-> & _). lia. }
  unfold Fill, OverflowIdxToArrayIdx. cbv zeta. rewrite Hovf. cbn [mbind option_bind].
  set (h1 := AddStats x y v w (set_fOverflowBins _ h)).
  assert (Hg1 : geometry_of h1 = geometry_of h) by (destruct h; reflexivity).
  assert (Hwf1 : wf h1).
  { apply (wf_frame h); [assumption| |assumption].
    subst h1. destruct h; poly_simpl. apply length_insert. }
  assert (Hc1 : fCells h1 = fCells h) by (destruct h; reflexivity).
  assert (Hcx : fCellX h1 = fCellX h) by (destruct h; reflexivity).
  assert (Hax : fXaxis (set_fOverflowBins
                 (<[Z.to_nat (- GetOverflowRegionFromCoordinates h x y - 1) :=
                      TProfile2PolyBin.Fill v w ovf]> (fOverflowBins h)) h) = fXaxis h)
    by (destruct h; reflexivity).
  match goal with |- context [At (fCells h1) ?i] =>
    destruct (At_lt (fCells h1) i) as [cell Hcell] end.
  { destruct Hwf1 as (_ & _ & _ & Hx & Hy & -> & _).
    rewrite Hcx. destruct h; poly_simpl. now apply cell_index_range. }
  rewrite Hcell. cbn [mbind option_bind].
  apply At_Some in Hcell as [_ Hcell]. apply list_elem_of_lookup_2 in Hcell.
  destruct (foldlM_total (fun s => outside_bins s = outside_bins h1)
              (FillBin x y v w) cell) with (s := h1) as (h' & Hfold & Hh');
    [|reflexivity|].
  { intros s k Hk Hs.
    assert (Hwfs : wf s).
    { apply (wf_frame h1); [| |assumption].
      - now apply (f_equal (fun o => fst (fst o))) in Hs.
      - now apply (f_equal (fun o => length (snd (fst o)))) in Hs. }
    destruct (FillBin_total x y v w s cell k Hwfs) as [s' Hs']; [|assumption|].
    { apply (f_equal (fun o => fst (fst o))) in Hs. unfold outside_bins in Hs.
      cbn [fst] in Hs. unfold geometry_of in Hs.
      assert (Hcs : fCells s = fCells h1) by now inversion Hs.
      now rewrite Hcs. }
    exists s'. split; [assumption|]. rewrite <- Hs. eapply FillBin_frame, Hs'. }
  rewrite Hfold. cbn [mbind option_bind]. exists h'. split; [reflexivity|].
  assert (Hg : geometry_of h' = geometry_of h1)
    by now apply (f_equal (fun o => fst (fst o))) in Hh'.
  split; [|congruence].
  apply (wf_frame h1); [assumption| |assumption].
  now apply (f_equal (fun o => length (snd (fst o)))) in Hh'.
Qed.

End PolyFacts.

(** ** Where a sample is classified *)

Section Regions.
Context {D : Type} `{OrderLaws D} {Poly : Type} `{Geometry D Poly}.
Local Abbreviation Profile := (TProfile2Poly.t D Poly).
Import TProfile2Poly.

(** A value below the lower end of a proper axis is not above either end. *)
Lemma below_axis (a : TAxis D) (x : D) :
  dgt (GetXmin a) (GetXmax a) = false -> dgt (GetXmin a) x = true ->
  dgt x (GetXmax a) = false /\ dgt x (GetXmin a) = false.
Proof.
  intros Hproper Hx. split; [|now apply dgt_asym].
  destruct (dgt x (GetXmax a)) eqn:Hmax; [|reflexivity].
  rewrite (dgt_trans _ _ _ Hx Hmax) in Hproper. discriminate.
Qed.

(** C1 (as amended).  On a well-formed histogram with a registered bin and
    proper axes, [Fill] returns the number of the region of the 3 x 3 grid
    the sample lies in: [-(3·row + column) - 1], with row 0 above [ymax],
    1 within, 2 below [ymin], and column 0 left of [xmin], 1 within, 2
    right of [xmax].  For a sample with [xmin < x ≤ xmax] and
    [ymin < y ≤ ymax] that is -5, the centre of the grid (not 0); for a
    sample outside the domain it is one of the eight other numbers from -1
    to -9. *)
Theorem Fill_returns_region (h : Profile) (x y value weight : D) :
  wf h -> kNOverflow < fNcells h -> ProperDomain h ->
  exists h' r,
    Fill h x y value weight = Some (h', r) /\
    r = - (3 * Row r + Column r) - 1 /\
    (dgt x (GetXmin (fXaxis h)) = true -> dgt x (GetXmax (fXaxis h)) = false ->
     dgt y (GetXmin (fYaxis h)) = true -> dgt y (GetXmax (fYaxis h)) = false ->
     r = -5) /\
    (dgt (GetXmin (fXaxis h)) x = true \/ dgt x (GetXmax (fXaxis h)) = true \/
     dgt (GetXmin (fYaxis h)) y = true \/ dgt y (GetXmax (fYaxis h)) = true ->
     -9 <= r <= -1 /\ r <> -5) /\
    (dgt y (GetXmax (fYaxis h)) = true -> Row r = 0) /\
    (dgt y (GetXmin (fYaxis h)) = true -> dgt y (GetXmax (fYaxis h)) = false -> Row r = 1) /\
    (dgt (GetXmin (fYaxis h)) y = true -> Row r = 2) /\
    (dgt (GetXmin (fXaxis h)) x = true -> Column r = 0) /\
    (dgt x (GetXmin (fXaxis h)) = true -> dgt x (GetXmax (fXaxis h)) = false -> Column r = 1) /\
    (dgt x (GetXmax (fXaxis h)) = true -> Column r = 2).
Proof.
  intros Hwf Hn [Hpx Hpy].
  destruct (Fill_total h x y value weight Hwf Hn) as (h' & HFill & _).
  exists h', (GetOverflowRegionFromCoordinates h x y). split; [assumption|].
  pose proof (region_range h x y Hn) as Hr.
  pose proof (region_Row h x y Hn) as HRow.
  pose proof (region_Column h x y Hn) as HCol.
  pose proof (region_Row_Column _ Hr) as Hrc.
  set (r := GetOverflowRegionFromCoordinates h x y) in *.
  assert (Hleft : dgt (GetXmin (fXaxis h)) x = true -> Column r = 0).
  { intros Hx. destruct (below_axis _ _ Hpx Hx) as [Hx1 Hx2].
    now rewrite HCol, Hx1, Hx2. }
  assert (Hbottom : dgt (GetXmin (fYaxis h)) y = true -> Row r = 2).
  { intros Hy. destruct (below_axis _ _ Hpy Hy) as [Hy1 Hy2].
    now rewrite HRow, Hy1, Hy2. }
  assert (Hright : dgt x (GetXmax (fXaxis h)) = true -> Column r = 2).
  { intros Hx. now rewrite HCol, Hx. }
  assert (Htop : dgt y (GetXmax (fYaxis h)) = true -> Row r = 0).
  { intros Hy. now rewrite HRow, Hy. }
  assert (Hmidc : dgt x (GetXmin (fXaxis h)) = true ->
                  dgt x (GetXmax (fXaxis h)) = false -> Column r = 1).
  { intros Hx1 Hx2. now rewrite HCol, Hx1, Hx2. }
  assert (Hmidr : dgt y (GetXmin (fYaxis h)) = true ->
                  dgt y (GetXmax (fYaxis h)) = false -> Row r = 1).
  { intros Hy1 Hy2. now rewrite HRow, Hy1, Hy2. }
  split; [exact Hrc|]. split.
  { intros Hx1 Hx2 Hy1 Hy2.
    specialize (Hmidc Hx1 Hx2). specialize (Hmidr Hy1 Hy2). lia. }
  split.
  { intros Hout. split; [exact Hr|]. intros Hr5.
    destruct Hout as [Hx|[Hx|[Hy|Hy]]];
      [specialize (Hleft Hx)|specialize (Hright Hx)
      |specialize (Hbottom Hy)|specialize (Htop Hy)];
      rewrite Hr5 in *; discriminate. }
  tauto.
Qed.

(** C9 (as amended).  On a well-formed histogram with a registered bin and
    proper axes, none of whose polygons reaches outside the domain: a
    sample with [x < xmin] and [y < ymin] is classified into the bottom
    left region (-7: row 2, column 0), [Fill] adds it to overflow slot 6
    and adds its weight to the global Σw, and leaves [fEntries] and the
    registered bins alone; and a sample with [xmin < x ≤ xmax] is
    classified into the middle column. *)
Theorem Fill_bottom_left_and_middle_column (h : Profile) (x y value weight : D) :
  wf h -> kNOverflow < fNcells h -> ProperDomain h -> PolygonsInDomain h ->
  (dgt (GetXmin (fXaxis h)) x = true -> dgt (GetXmin (fYaxis h)) y = true ->
   exists h' ovf,
     Fill h x y value weight = Some (h', -7) /\ Row (-7) = 2 /\ Column (-7) = 0 /\
     fOverflowBins h !! 6%nat = Some ovf /\
     fOverflowBins h' = <[6%nat := TProfile2PolyBin.Fill value weight ovf]> (fOverflowBins h) /\
     fTsumw h' = dadd (fTsumw h) weight /\
     fEntries h' = fEntries h /\ fBins h' = fBins h) /\
  (dgt x (GetXmin (fXaxis h)) = true -> dgt x (GetXmax (fXaxis h)) = false ->
   exists h' r, Fill h x y value weight = Some (h', r) /\ Column r = 1).
Proof.
  intros Hwf Hn [Hpx Hpy] Hpolys.
  destruct (Fill_total h x y value weight Hwf Hn) as (h' & HFill & _).
  split.
  - intros Hx Hy.
    destruct (below_axis _ _ Hpx Hx) as [Hx1 Hx2].
    destruct (below_axis _ _ Hpy Hy) as [Hy1 Hy2].
    assert (Hr : GetOverflowRegionFromCoordinates h x y = -7)
      by now rewrite region_registered, Hx1, Hx2, Hy1, Hy2.
    rewrite Hr in HFill.
    destruct (Fill_Some _ _ _ _ _ _ _ HFill) as (_ & ovf & cell & Hovf & Hcell & Hfold).
    rewrite FillCell_none in Hfold.
    + injection Hfold as <-. eexists; exists ovf.
      apply At_Some in Hovf as [_ Hovf].
      split; [exact HFill|]. destruct h; repeat split. exact Hovf.
    + intros k Hk.
      destruct Hwf as (_ & _ & _ & _ & _ & _ & Hcells & Hpoly).
      rewrite Forall_forall in Hcells. specialize (Hcells _ Hcell).
      rewrite Forall_forall in Hcells. specialize (Hcells _ Hk).
      apply lookup_lt_is_Some in Hcells as [bin Hbin].
      rewrite Forall_forall in Hpoly.
      destruct (Hpoly bin) as [poly Hp]; [eapply list_elem_of_lookup_2, Hbin|].
      exists bin, poly. split; [destruct h; exact Hbin|]. split; [assumption|].
      destruct (inside poly x y) eqn:Hin; [|reflexivity].
      destruct (Hpolys bin poly x y) as (Hdom & _); try assumption.
      * eapply list_elem_of_lookup_2, Hbin.
      * rewrite Hdom in Hx. discriminate.
  - intros Hx1 Hx2. exists h', (GetOverflowRegionFromCoordinates h x y).
    split; [assumption|]. now rewrite region_Column, Hx2, Hx1.
Qed.

End Regions.

(** ** The overflow slots and the global sum of weights *)

Section Balance.
Context {D : Type} `{ExactAdd D} {Poly : Type} `{Geometry D Poly}.
Local Abbreviation Bin := (TProfile2PolyBin.t D Poly).
Local Abbreviation Profile := (TProfile2Poly.t D Poly).
Import TProfile2Poly.

Lemma SumW_insert (l : list Bin) (i : nat) (old new : Bin) (w : D) :
  l !! i = Some old ->
  TProfile2PolyBin.fSumw new = dadd (TProfile2PolyBin.fSumw old) w ->
  SumW (<[i := new]> l) = dadd (SumW l) w.
Proof.
  revert i; induction l as [|a l IH]; intros [|i]; try discriminate; simpl.
  - intros [= ->] ->. apply dadd_swap.
  - intros Hi Hnew. rewrite (IH i Hi Hnew). apply dadd_assoc.
Qed.

Lemma SumW_new (n : nat) (p : option Poly) :
  SumW (replicate n (TProfile2PolyBin.new p)) = d0.
Proof.
  induction n as [|n IH]; simpl; [reflexivity|].
  rewrite IH. apply dadd_0_l.
Qed.

Lemma fresh_balanced (h : Profile) :
  fresh h -> SumW (fOverflowBins h) = fTsumw h.
Proof.
  intros (_ & Hstats & -> & _). rewrite SumW_new.
  unfold GetStats in Hstats. now inversion Hstats.
Qed.

Lemma Fill_fTsumw (h h' : Profile) (x y v w : D) (r : Z) :
  Fill h x y v w = Some (h', r) -> fTsumw h' = dadd (fTsumw h) w.
Proof.
  intros (ovf & _ & _ & Hstats & _)%Fill_outside_bins.
  unfold GetStats in Hstats. destruct h; poly_simpl. now inversion Hstats.
Qed.

Lemma Fill_balanced (h h' : Profile) (x y v w : D) (r : Z) :
  Fill h x y v w = Some (h', r) ->
  SumW (fOverflowBins h) = fTsumw h -> SumW (fOverflowBins h') = fTsumw h'.
Proof.
  intros HFill Hbal. rewrite (Fill_fTsumw _ _ _ _ _ _ _ HFill), <- Hbal.
  apply Fill_outside_bins in HFill as (ovf & Hovf & -> & _).
  apply At_Some in Hovf as [_ Hovf].
  now apply (SumW_insert _ _ ovf).
Qed.

Lemma Fills_balanced (samples : list (D * D * D * D)) (h : Profile) :
  wf h -> kNOverflow < fNcells h -> SumW (fOverflowBins h) = fTsumw h ->
  exists h', Fills h samples = Some h' /\
    (wf h' /\ kNOverflow < fNcells h' /\ SumW (fOverflowBins h') = fTsumw h').
Proof.
  intros Hwf Hn Hbal. unfold Fills.
  apply (foldlM_total
           (fun s => wf s /\ kNOverflow < fNcells s /\ SumW (fOverflowBins s) = fTsumw s));
    [|auto].
  intros s [[[x y] v] w] _ (Hwfs & Hns & Hbals).
  destruct (Fill_total s x y v w Hwfs Hns) as (s' & HFill & Hwf' & Hg).
  exists s'. rewrite HFill. split; [reflexivity|].
  split; [assumption|]. split.
  - unfold geometry_of in Hg. inversion Hg. congruence.
  - eapply Fill_balanced; eassumption.
Qed.

End Balance.

Section OverflowSlot.
Context {D : Type} `{Arith D} {Poly : Type} `{Geometry D Poly}.
Local Abbreviation Bin := (TProfile2PolyBin.t D Poly).
Local Abbreviation Profile := (TProfile2Poly.t D Poly).
Import TProfile2Poly.

(** C10.  On a well-formed histogram with a registered bin, in every
    arithmetic, every call of [Fill] returns, and it replaces exactly one
    of the nine overflow bins, the one of the region of the sample, by
    that bin filled with the sample: its [fSumw] grows by the weight, the
    other eight slots are as before, and the global Σw grows by the same
    weight.  A sample with [xmin < x ≤ xmax] and [ymin < y ≤ ymax] goes to
    the centre slot, 4.  Where addition is exact, after any sequence of
    calls on a histogram in which nothing was filled the nine [fSumw] add
    up to the global Σw. *)
Theorem Fill_one_overflow_slot (h : Profile) (x y value weight : D)
    (samples : list (D * D * D * D)) :
  wf h -> kNOverflow < fNcells h ->
  (exists h' r i ovf,
     Fill h x y value weight = Some (h', r) /\
     i = Z.to_nat (- r - 1) /\ (i < 9)%nat /\
     fOverflowBins h !! i = Some ovf /\
     fOverflowBins h' = <[i := TProfile2PolyBin.Fill value weight ovf]> (fOverflowBins h) /\
     TProfile2PolyBin.fSumw (TProfile2PolyBin.Fill value weight ovf) =
       dadd (TProfile2PolyBin.fSumw ovf) weight /\
     (forall j, j <> i -> fOverflowBins h' !! j = fOverflowBins h !! j) /\
     fTsumw h' = dadd (fTsumw h) weight /\
     (dgt x (GetXmin (fXaxis h)) = true -> dgt x (GetXmax (fXaxis h)) = false ->
      dgt y (GetXmin (fYaxis h)) = true -> dgt y (GetXmax (fYaxis h)) = false ->
      i = 4%nat)) /\
  (ExactAdd D -> fresh h ->
   exists hn, Fills h samples = Some hn /\ SumW (fOverflowBins hn) = fTsumw hn).
Proof.
  intros Hwf Hn. split.
  - destruct (Fill_total h x y value weight Hwf Hn) as (h' & HFill & _).
    pose proof (region_range h x y Hn) as Hr.
    pose proof (Fill_fTsumw _ _ _ _ _ _ _ HFill) as Hsum.
    destruct (Fill_outside_bins _ _ _ _ _ _ _ HFill) as (ovf & Hovf & Ho & _).
    apply At_Some in Hovf as [_ Hovf].
    exists h', (GetOverflowRegionFromCoordinates h x y),
      (Z.to_nat (- GetOverflowRegionFromCoordinates h x y - 1)), ovf.
    split; [exact HFill|]. split; [reflexivity|]. split; [lia|].
    split; [exact Hovf|]. split; [exact Ho|]. split; [reflexivity|].
    split; [|split; [exact Hsum|]].
    + intros j Hj. rewrite Ho. now apply list_lookup_insert_ne.
    + intros Hx1 Hx2 Hy1 Hy2.
      now rewrite region_registered, Hx1, Hx2, Hy1, Hy2.
  - intros Hexact Hfresh.
    destruct (Fills_balanced samples h Hwf Hn (fresh_balanced h Hfresh))
      as (hn & HFills & _ & _ & Hbal).
    eauto.
Qed.

End OverflowSlot.

(** ** Merge: the refusals *)

Section MergeFails.
Context {D : Type} `{Arith D} {Poly : Type} `{Geometry D Poly}.
Local Abbreviation Profile := (TProfile2Poly.t D Poly).
Import TProfile2Poly.

Lemma GetSize_Some (h : Profile) :
  fBins h <> [] -> GetSize h = Some (GetNumberOfBins h).
Proof. unfold GetSize, GetNumberOfBins. now destruct (fBins h). Qed.

Lemma GetSize_None (h : Profile) : fBins h = [] -> GetSize h = None.
Proof. unfold GetSize. now intros ->. Qed.

Lemma GetSize_inv (h : Profile) (n : Z) :
  GetSize h = Some n -> fBins h <> [] /\ n = GetNumberOfBins h.
Proof.
  unfold GetSize, GetNumberOfBins. destruct (fBins h); [discriminate|].
  intros [= <-]. now split.
Qed.

(** The loop that fills [numBinUnique] ends when no histogram of the list
    is without bins, and then holds their numbers of bins. *)
Lemma numBinUnique_acc (list : list Profile) (s0 s : gset Z) :
  foldlM (fun s histo => n ← GetSize histo; Some ({[ n ]} ∪ s)) s0 list = Some s <->
  Forall (fun e => fBins e <> []) list /\
  s = foldl (fun s histo => {[ GetNumberOfBins histo ]} ∪ s) s0 list.
Proof.
  revert s0; induction list as [|e list IH]; intros s0; cbn [foldlM foldl].
  - split; [intros [= <-]; now split|now intros [_ ->]].
  - destruct (GetSize e) as [n|] eqn:He; cbn [mbind option_bind].
    + apply GetSize_inv in He as [He ->]. rewrite IH. split.
      * intros [Hall ->]. split; [now constructor|reflexivity].
      * intros [Hall ->]. split; [now inversion Hall|reflexivity].
    + split; [discriminate|]. intros [Hall _]. inversion Hall as [|? ? He' _]; subst.
      now rewrite (GetSize_Some e He') in He.
Qed.

Lemma numBinUnique_None (list : list Profile) (e : Profile) :
  e ∈ list -> fBins e = [] -> numBinUnique list = None.
Proof.
  intros He Hnull. destruct (numBinUnique list) as [s|] eqn:Hs; [|reflexivity].
  apply numBinUnique_acc in Hs as [Hall _]. rewrite Forall_forall in Hall.
  now destruct (Hall e He).
Qed.

Lemma elem_of_numBinUnique_acc (list : list Profile) (s : gset Z) (n : Z) :
  n ∈ foldl (fun s histo => {[ GetNumberOfBins histo ]} ∪ s) s list <->
  n ∈ s \/ exists e, e ∈ list /\ GetNumberOfBins e = n.
Proof.
  revert s; induction list as [|e list IH]; intros s; simpl.
  - split; [auto|]. intros [?|(e & He & _)]; [assumption|]. now apply elem_of_nil in He.
  - rewrite IH, elem_of_union, elem_of_singleton. split.
    + intros [[->|Hs]|(e' & He' & <-)]; [right; exists e; split; [left|reflexivity]|now left|].
      right. exists e'. split; [now right|reflexivity].
    + intros [Hs|(e' & He' & <-)]; [left; now right|].
      apply elem_of_cons in He' as [->|He']; [left; now left|].
      right. exists e'. split; [assumption|reflexivity].
Qed.

Lemma elem_of_numBinUnique (list : list Profile) (s : gset Z) (n : Z) :
  numBinUnique list = Some s ->
  n ∈ s <-> exists e, e ∈ list /\ GetNumberOfBins e = n.
Proof.
  intros Hs. apply numBinUnique_acc in Hs as [_ ->].
  rewrite elem_of_numBinUnique_acc. split; [|auto].
  intros [Hn|?]; [|assumption]. now apply elem_of_empty in Hn.
Qed.

(** C4.  When the list is empty, or every histogram of the list has a
    registered bin and two of them differ in their number of bins,
    [Merge] returns -1 and the target is the histogram it was: every
    field, the statistics, the overflow bins and the registered bins
    included. *)
Theorem Merge_refuses_and_keeps_target (this : Profile) (list : list Profile) :
  list = [] \/
  (Forall (fun e => fBins e <> []) list /\
   exists e1 e2, e1 ∈ list /\ e2 ∈ list /\ length (fBins e1) <> length (fBins e2)) ->
  Merge this list = Some (this, -1).
Proof.
  intros [->|(Hall & e1 & e2 & He1 & He2 & Hne)]; [reflexivity|].
  unfold Merge.
  destruct list as [|e list]; [now apply elem_of_nil in He1|]. cbn [length Nat.eqb].
  destruct (numBinUnique (e :: list)) as [s|] eqn:Hs.
  2:{ exfalso. pose proof (proj2 (numBinUnique_acc (e :: list) ∅ _) (conj Hall eq_refl)) as Hs'.
      unfold numBinUnique in Hs. congruence. }
  cbn [mbind option_bind].
  destruct (Nat.eqb_spec (size s) 1) as [Hsize|]; [|reflexivity].
  exfalso. apply Hne, Nat2Z.inj.
  apply (size_singleton_inv _ _ _ Hsize); apply (elem_of_numBinUnique _ _ _ Hs); eauto.
Qed.

End MergeFails.

(** ** Merge: the combination *)

#[local] Arguments TProfile2PolyBin.Merge : simpl never.
#[local] Arguments TProfile2PolyBin.Update : simpl never.
#[local] Arguments TProfile2PolyBin.Fill : simpl never.

Section MergeSucceeds.
Context {D : Type} `{Arith D} {Poly : Type} `{Geometry D Poly}.
Local Abbreviation Bin := (TProfile2PolyBin.t D Poly).
Local Abbreviation Profile := (TProfile2Poly.t D Poly).
Import TProfile2Poly.

Lemma numBinUnique_same (list : list Profile) (n : nat) :
  list <> [] -> (0 < n)%nat -> (forall e, e ∈ list -> length (fBins e) = n) ->
  numBinUnique list = Some {[ Z.of_nat n ]}.
Proof.
  intros Hne Hpos Hall.
  assert (Hbins : Forall (fun e : Profile => fBins e <> []) list).
  { apply Forall_forall. intros e He Hnull. specialize (Hall e He).
    rewrite Hnull in Hall. cbn in Hall. lia. }
  pose proof (proj2 (numBinUnique_acc list ∅ _) (conj Hbins eq_refl)) as Hs.
  fold (numBinUnique list) in Hs. rewrite Hs. f_equal.
  apply set_eq. intros m.
  rewrite (elem_of_numBinUnique _ _ m Hs), elem_of_singleton. split.
  - intros (e & He & <-). unfold GetNumberOfBins. now rewrite (Hall e He).
  - intros ->. destruct list as [|e list]; [contradiction|].
    exists e. split; [left|]. unfold GetNumberOfBins. f_equal. apply Hall. left.
Qed.

Lemma ShowAverage_Some (h : Profile) :
  fBins h <> [] -> SetContentToAverage h = Some (ShowAverage h).
Proof. intros Hb. unfold SetContentToAverage. now rewrite (GetSize_Some h Hb). Qed.

Lemma ShowError_Some (h : Profile) :
  fBins h <> [] -> SetContentToError h = Some (ShowError h).
Proof. intros Hb. unfold SetContentToError. now rewrite (GetSize_Some h Hb). Qed.

Lemma set_fBins_nonempty (bins : Datatypes.list Bin) (h : Profile) :
  (0 < length bins)%nat -> fBins (set_fBins bins h) <> [].
Proof. destruct h; unfold set_fBins; cbn. destruct bins; cbn; [lia|discriminate]. Qed.

Lemma At_of_nat {A : Type} (l : list A) (i : nat) : At l (Z.of_nat i) = l !! i.
Proof.
  unfold At. destruct (Z.ltb_spec (Z.of_nat i) 0); [lia|]. now rewrite Nat2Z.id.
Qed.

(** The first loop. *)
Lemma MergeGlobal_Some (this histo : Profile) :
  length (fOverflowBins this) = 9%nat -> length (fOverflowBins histo) = 9%nat ->
  MergeGlobal this histo = Some (MergedGlobal this histo).
Proof.
  intros Hthis Hhisto. unfold MergeGlobal, MergedGlobal.
  change (seqZ 0 kNOverflow) with [0; 1; 2; 3; 4; 5; 6; 7; 8].
  destruct this, histo; poly_simpl.
  repeat (destruct fOverflowBins0 as [|? fOverflowBins0]; [discriminate|]).
  repeat (destruct fOverflowBins1 as [|? fOverflowBins1]; [discriminate|]).
  destruct fOverflowBins0; [|discriminate]. destruct fOverflowBins1; [|discriminate].
  reflexivity.
Qed.

Lemma MergedGlobal_length (this histo : Profile) :
  length (fOverflowBins histo) = length (fOverflowBins this) ->
  length (fOverflowBins (MergedGlobal this histo)) = length (fOverflowBins this).
Proof.
  intros Hlen. destruct this; unfold MergedGlobal; poly_simpl.
  now apply length_zip_with_l_eq.
Qed.

Lemma MergeGlobal_loop (list : list Profile) (this : Profile) :
  length (fOverflowBins this) = 9%nat ->
  (forall e, e ∈ list -> length (fOverflowBins e) = 9%nat) ->
  foldlM MergeGlobal this list = Some (foldl MergedGlobal this list).
Proof.
  revert this; induction list as [|e list IH]; intros this Hthis Hall; simpl;
    [reflexivity|].
  rewrite MergeGlobal_Some; [|assumption|apply Hall; left]. cbn [mbind option_bind].
  apply IH.
  - rewrite MergedGlobal_length; [assumption|]. rewrite Hthis. apply Hall; left.
  - intros; apply Hall; now right.
Qed.

Lemma MergedGlobal_loop_total (f : Profile -> D) (list : list Profile) (this : Profile) :
  (forall this e, f (MergedGlobal this e) = dadd (f this) (f e)) ->
  f (foldl MergedGlobal this list) = total f this list.
Proof.
  intros Hf. unfold total.
  revert this; induction list as [|e list IH]; intros this; simpl; [reflexivity|].
  now rewrite IH, Hf.
Qed.

Lemma MergedGlobal_loop_frame (list : list Profile) (this : Profile) :
  fBins (foldl MergedGlobal this list) = fBins this /\
  geometry_of (foldl MergedGlobal this list) = geometry_of this.
Proof.
  revert this; induction list as [|e list IH]; intros this; simpl; [auto|].
  destruct (IH (MergedGlobal this e)) as [-> ->]. destruct this; auto.
Qed.

Lemma MergedGlobal_loop_overflow (list : list Profile) (this : Profile) (i : nat) (ovf : Bin) :
  (forall e, e ∈ list -> length (fOverflowBins e) = length (fOverflowBins this)) ->
  fOverflowBins this !! i = Some ovf ->
  fOverflowBins (foldl MergedGlobal this list) !! i =
    Some (foldl TProfile2PolyBin.Merge ovf (source_overflow list i)).
Proof.
  revert this ovf; induction list as [|e list IH]; intros this ovf Hall Hi; simpl;
    [assumption|].
  assert (He : length (fOverflowBins e) = length (fOverflowBins this)) by (apply Hall; left).
  destruct (lookup_lt_is_Some_2 (fOverflowBins e) i) as [src Hsrc].
  { rewrite He. eapply lookup_lt_Some, Hi. }
  unfold source_overflow. cbn [omap list_omap]. rewrite Hsrc. cbn [foldl].
  apply IH.
  - intros e' He'. rewrite MergedGlobal_length by assumption. apply Hall; now right.
  - destruct this; unfold MergedGlobal; poly_simpl.
    rewrite lookup_zip_with, Hi, Hsrc. reflexivity.
Qed.

(** The second loop. *)
Lemma MergeSrc_loop (list : list Profile) (i : nat) (dst : Bin) :
  (forall e, e ∈ list -> (i < length (fBins e))%nat) ->
  foldlM (MergeSrc (Z.of_nat i)) dst list =
    Some (foldl TProfile2PolyBin.Merge dst (source_bins list i)).
Proof.
  revert dst; induction list as [|e list IH]; intros dst Hall; [reflexivity|].
  destruct (lookup_lt_is_Some_2 (fBins e) i) as [src Hsrc]; [apply Hall; left|].
  assert (Hstep : MergeSrc (Z.of_nat i) dst e = Some (TProfile2PolyBin.Merge dst src)).
  { unfold MergeSrc. now rewrite At_of_nat, Hsrc. }
  unfold source_bins. cbn [foldlM omap list_omap].
  rewrite Hstep, Hsrc. cbn [mbind option_bind foldl].
  apply IH. intros; apply Hall; now right.
Qed.

Lemma source_bins_beyond (list : list Profile) (i : nat) :
  (forall e, e ∈ list -> (length (fBins e) <= i)%nat) -> source_bins list i = [].
Proof.
  induction list as [|e list IH]; intros Hall; [reflexivity|].
  unfold source_bins. cbn [omap list_omap].
  rewrite (lookup_ge_None_2 (fBins e) i) by (apply Hall; left).
  apply IH. intros; apply Hall; now right.
Qed.

Lemma MergeBin_loop (list : list Profile) (this : Profile) (n : nat) :
  (n <= length (fBins this))%nat ->
  (forall e, e ∈ list -> (n <= length (fBins e))%nat) ->
  foldlM (MergeBin list) this (seqZ 0 (Z.of_nat n)) =
    Some (set_fBins (imap (MergedBin list n) (fBins this)) this).
Proof.
  induction n as [|n IH]; intros Hthis Hall.
  - change (seqZ 0 (Z.of_nat 0)) with (@nil Z). cbn [foldlM]. f_equal.
    assert (Hid : imap (MergedBin list 0) (fBins this) = fBins this).
    { apply list_eq. intros i. rewrite list_lookup_imap.
      unfold MergedBin. cbn [Nat.ltb Nat.leb]. now destruct (fBins this !! i). }
    rewrite Hid. now destruct this.
  - rewrite Nat2Z.inj_succ, <- Z.add_1_r, seqZ_app by lia.
    rewrite foldlM_app, IH; [|lia|intros e He; specialize (Hall e He); lia].
    cbn [mbind option_bind]. change (seqZ (0 + Z.of_nat n) 1) with [0 + Z.of_nat n].
    rewrite Z.add_0_l. cbn [foldlM].
    destruct (lookup_lt_is_Some_2 (fBins this) n) as [bin Hbin]; [lia|].
    match goal with |- MergeBin list ?s _ ≫= _ = _ =>
      assert (Hstep : MergeBin list s (Z.of_nat n) =
                Some (set_fBins (<[n := TProfile2PolyBin.Update
                         (foldl TProfile2PolyBin.Merge bin (source_bins list n))]>
                         (fBins s)) s)) end.
    { unfold MergeBin. rewrite At_of_nat. destruct this; poly_simpl.
      rewrite list_lookup_imap, Hbin. cbn [fmap option_fmap option_map mbind option_bind].
      assert (Hnn : MergedBin list n n bin = bin)
        by (unfold MergedBin; now rewrite Nat.ltb_irrefl).
      rewrite Hnn.
      rewrite MergeSrc_loop by (intros e He; specialize (Hall e He); lia).
      cbn [mbind option_bind]. now rewrite Nat2Z.id. }
    rewrite Hstep. cbn [mbind option_bind]. destruct this; unfold set_fBins; poly_simpl.
    do 2 f_equal.
    apply list_eq. intros i.
    rewrite list_lookup_insert, length_imap, !list_lookup_imap.
    unfold MergedBin. destruct (decide (n = i)) as [<-|Hni].
    + rewrite decide_True by (split; [reflexivity|eapply lookup_lt_Some, Hbin]).
      rewrite Hbin. cbn [fmap option_fmap option_map].
      now rewrite (proj2 (Nat.ltb_lt n (S n))) by lia.
    + rewrite decide_False by tauto.
      destruct (fBins0 !! i); [|reflexivity]. cbn [fmap option_fmap option_map].
      destruct (Nat.ltb_spec i n), (Nat.ltb_spec i (S n)); try reflexivity; lia.
Qed.

Lemma ContentToAverage_Update (bin : Bin) :
  ContentToAverage (TProfile2PolyBin.Update bin) = ContentToAverage bin.
Proof.
  unfold ContentToAverage. now rewrite Update_idem.
Qed.

(** The two loops and the final pass together. *)
Lemma Merge_Some (this : Profile) (list : list Profile) (n : nat) :
  list <> [] -> (0 < n)%nat ->
  (forall e, e ∈ list -> length (fBins e) = n) ->
  (n <= length (fBins this))%nat ->
  length (fOverflowBins this) = 9%nat ->
  (forall e, e ∈ list -> length (fOverflowBins e) = 9%nat) ->
  Merge this list =
    Some (ShowAverage
            (set_fBins (imap (MergedBin list n) (fBins this))
               (foldl MergedGlobal this list)), 1).
Proof.
  intros Hne Hpos Hbins Hn Hovf Hovfs. unfold Merge.
  destruct list as [|e0 list0] eqn:Hlist; [contradiction|]. rewrite <- Hlist in *.
  assert (Hlen : (length list =? 0)%nat = false) by now rewrite Hlist.
  rewrite Hlen, (numBinUnique_same list n) by assumption.
  cbn [mbind option_bind].
  rewrite size_singleton, elements_singleton. cbn [Nat.eqb negb hd].
  rewrite MergeGlobal_loop by assumption. cbn [mbind option_bind].
  destruct (MergedGlobal_loop_frame list this) as [Hb _].
  rewrite MergeBin_loop.
  - cbn [mbind option_bind]. rewrite Hb.
    rewrite ShowAverage_Some; [reflexivity|].
    apply set_fBins_nonempty. rewrite length_imap. lia.
  - now rewrite Hb.
  - intros e He. now rewrite (Hbins e He).
Qed.

Lemma MergedGlobal_loop_length (list : list Profile) (this : Profile) :
  (forall e, e ∈ list -> length (fOverflowBins e) = length (fOverflowBins this)) ->
  length (fOverflowBins (foldl MergedGlobal this list)) = length (fOverflowBins this).
Proof.
  revert this; induction list as [|e list IH]; intros this Hall; [reflexivity|].
  cbn [foldl].
  assert (He : length (fOverflowBins (MergedGlobal this e)) = length (fOverflowBins this))
    by (apply MergedGlobal_length, Hall; left).
  rewrite IH; [assumption|].
  intros e' He'. rewrite He. apply Hall. now right.
Qed.

Lemma Merge_foldl_fPoly (l : Datatypes.list Bin) (b : Bin) :
  TProfile2PolyBin.fPoly (foldl TProfile2PolyBin.Merge b l) = TProfile2PolyBin.fPoly b.
Proof.
  revert b; induction l as [|a l IH]; intros b; [reflexivity|].
  cbn [foldl]. now rewrite IH.
Qed.

Lemma MergedGlobal_stats (this e : Profile) :
  fEntries (MergedGlobal this e) = dadd (fEntries this) (fEntries e) /\
  GetStats (MergedGlobal this e) =
    zip_with dadd (GetStats this) (GetStats e).
Proof. now destruct this. Qed.

Lemma Merge_foldl_moments (l : Datatypes.list Bin) (bin : Bin) :
  moments (foldl TProfile2PolyBin.Merge bin l) = combined_moments bin l /\
  rest_of_bin (foldl TProfile2PolyBin.Merge bin l) = rest_of_bin bin.
Proof.
  revert bin; induction l as [|s l IH]; intros bin; [now split|].
  cbn [foldl]. destruct (IH (TProfile2PolyBin.Merge bin s)) as [-> ->].
  now split.
Qed.

Lemma source_bins_length (list : list Profile) (n i : nat) :
  (forall e, e ∈ list -> length (fBins e) = n) -> (i < n)%nat ->
  length (source_bins list i) = length list.
Proof.
  intros Hall Hi. unfold source_bins.
  induction list as [|e list IH]; [reflexivity|]. cbn [omap list_omap].
  destruct (lookup_lt_is_Some_2 (fBins e) i) as [b Hb].
  { rewrite (Hall e); [assumption|left]. }
  rewrite Hb. cbn [length]. f_equal. apply IH. intros e' He'. apply Hall. now right.
Qed.

Lemma source_overflow_length (list : list Profile) (i : nat) :
  (forall e, e ∈ list -> length (fOverflowBins e) = 9%nat) -> (i < 9)%nat ->
  length (source_overflow list i) = length list.
Proof.
  intros Hall Hi. unfold source_overflow.
  induction list as [|e list IH]; [reflexivity|]. cbn [omap list_omap].
  destruct (lookup_lt_is_Some_2 (fOverflowBins e) i) as [b Hb].
  { rewrite (Hall e); [assumption|left]. }
  rewrite Hb. cbn [length]. f_equal. apply IH. intros e' He'. apply Hall. now right.
Qed.

(** C5.  When the list is not empty, its histograms have the same number
    [n] of bins, at least one, the target has at least as many, and all
    have their nine overflow bins, [Merge] returns 1 and leaves:
    [fEntries] and each of the nine statistics as that of the target plus
    those of the sources; in overflow bin [i] each of the four moment sums
    as that of the target's overflow bin [i] plus those of overflow bin
    [i] of every source, its other fields as they were; in registered bin
    [i] each of the four moment sums as that of the target's bin [i] plus
    those of bin [i] of every source, the bin then updated (average and
    error recomputed from these sums, changed flag set) and its content
    set to the average; and the axes, the partition and the polygons as
    they were. *)
Theorem Merge_combines (this : Profile) (list : list Profile) (n : nat) :
  list <> [] -> (0 < n)%nat ->
  Forall (fun e => length (fBins e) = n) list ->
  (n <= length (fBins this))%nat ->
  length (fOverflowBins this) = 9%nat ->
  Forall (fun e => length (fOverflowBins e) = 9%nat) list ->
  exists this',
    Merge this list = Some (this', 1) /\
    fEntries this' = total fEntries this list /\
    GetStats this' =
      (fun f => total f this list) <$>
        [fTsumw; fTsumw2; fTsumwx; fTsumwx2; fTsumwy; fTsumwy2; fTsumwxy; fTsumwz; fTsumwz2] /\
    (forall i ovf, fOverflowBins this !! i = Some ovf ->
       length (source_overflow list i) = length list /\
       exists ovf',
         fOverflowBins this' !! i = Some ovf' /\
         moments ovf' = combined_moments ovf (source_overflow list i) /\
         rest_of_bin ovf' = rest_of_bin ovf) /\
    length (fOverflowBins this') = 9%nat /\
    (forall i bin, fBins this !! i = Some bin ->
       ((i < n)%nat -> length (source_bins list i) = length list) /\
       ((n <= i)%nat -> source_bins list i = []) /\
       exists merged bin',
         moments merged = combined_moments bin (source_bins list i) /\
         rest_of_bin merged = rest_of_bin bin /\
         fBins this' !! i = Some bin' /\
         bin' = TProfile2PolyBin.SetContent
                  (TProfile2PolyBin.fAverage (TProfile2PolyBin.Update merged))
                  (TProfile2PolyBin.Update merged) /\
         moments bin' = combined_moments bin (source_bins list i) /\
         TProfile2PolyBin.fAverage bin' = spec_average merged /\
         TProfile2PolyBin.fContent bin' = TProfile2PolyBin.fAverage bin') /\
    length (fBins this') = length (fBins this) /\
    geometry_of this' = geometry_of this.
Proof.
  intros Hne Hpos Hbins Hn Hovf Hovfs.
  rewrite Forall_forall in Hbins, Hovfs.
  rewrite (Merge_Some this list n) by assumption.
  eexists; split; [reflexivity|].
  destruct (MergedGlobal_loop_frame list this) as [Hb Hg].
  set (g := foldl MergedGlobal this list) in *.
  assert (Hlen : forall e, e ∈ list -> length (fOverflowBins e) = length (fOverflowBins this))
    by (intros e He; rewrite Hovf; now apply Hovfs).
  split; [|split; [|split; [|split; [|split; [|split]]]]].
  - transitivity (fEntries g); [now destruct g|].
    apply MergedGlobal_loop_total. intros; apply MergedGlobal_stats.
  - transitivity (GetStats g); [now destruct g|].
    unfold GetStats. cbn [fmap list_fmap]. subst g.
    now rewrite <- !MergedGlobal_loop_total by (intros t0 e0; now destruct t0).
  - intros i ovf Hi. split.
    { apply source_overflow_length; [assumption|].
      rewrite <- Hovf. eapply lookup_lt_Some, Hi. }
    exists (foldl TProfile2PolyBin.Merge ovf (source_overflow list i)).
    split; [|apply Merge_foldl_moments].
    transitivity (fOverflowBins g !! i); [now destruct g|].
    now apply MergedGlobal_loop_overflow.
  - transitivity (length (fOverflowBins g)); [now destruct g|].
    subst g. rewrite MergedGlobal_loop_length; assumption.
  - intros i bin Hi.
    split; [intros Hin; now apply (source_bins_length list n)|].
    split.
    { intros Hin. apply source_bins_beyond. intros e He. now rewrite (Hbins e He). }
    set (merged := foldl TProfile2PolyBin.Merge bin (source_bins list i)).
    destruct (Merge_foldl_moments (source_bins list i) bin) as [Hm Hr]. fold merged in Hm, Hr.
    exists merged, (ContentToAverage merged).
    split; [assumption|]. split; [assumption|]. split; [|split; [reflexivity|]].
    { clearbody g.
      unfold ShowAverage. destruct g; poly_simpl. unfold set_fBins; poly_simpl.
      rewrite list_lookup_fmap, list_lookup_imap, Hi.
      cbn [fmap option_fmap option_map]. f_equal. unfold MergedBin.
      destruct (Nat.ltb_spec i n); [apply ContentToAverage_Update|].
      subst merged. rewrite source_bins_beyond; [reflexivity|].
      intros e He. rewrite (Hbins e He). assumption. }
    split; [rewrite <- Hm; reflexivity|]. split; reflexivity.
  - clearbody g.
    unfold ShowAverage. destruct g; poly_simpl. unfold set_fBins; poly_simpl.
    now rewrite length_fmap, length_imap.
  - rewrite <- Hg. clearbody g. unfold ShowAverage, geometry_of.
    destruct g; unfold set_fBins; poly_simpl. rewrite Hb. f_equal.
    rewrite <- list_fmap_compose. apply list_eq. intros i.
    rewrite !list_lookup_fmap, list_lookup_imap.
    destruct (fBins this !! i) as [b|]; [|reflexivity].
    cbn [fmap option_fmap option_map]. f_equal. unfold MergedBin, compose.
    rewrite ContentToAverage_fPoly.
    destruct (i <? n)%nat; [|reflexivity].
    rewrite Update_fPoly. apply Merge_foldl_fPoly.
Qed.

End MergeSucceeds.

(** ** Reachable histograms *)

Section MergeCases.
Context {D : Type} `{Arith D} {Poly : Type} `{Geometry D Poly}.
Local Abbreviation Bin := (TProfile2PolyBin.t D Poly).
Local Abbreviation Profile := (TProfile2Poly.t D Poly).
Import TProfile2Poly.

(** With more bins in the sources than in the target, the second loop of
    [Merge] goes through the null pointer [fBins->At(i)] returns. *)
Lemma MergeBin_loop_beyond (list : list Profile) (this : Profile) (n : nat) :
  (length (fBins this) < n)%nat ->
  (forall e, e ∈ list -> (n <= length (fBins e))%nat) ->
  foldlM (MergeBin list) this (seqZ 0 (Z.of_nat n)) = None.
Proof.
  intros Hn Hall. set (m := length (fBins this)) in *.
  replace (Z.of_nat n) with (Z.of_nat m + (Z.of_nat n - Z.of_nat m)) by lia.
  rewrite seqZ_app, foldlM_app by lia.
  rewrite MergeBin_loop; [|reflexivity|intros e He; specialize (Hall e He); lia].
  cbn [mbind option_bind]. rewrite seqZ_cons by lia. cbn [foldlM].
  match goal with |- ?step ≫= _ = None => assert (Hstep : step = None) end.
  { unfold MergeBin. rewrite Z.add_0_l, At_of_nat.
    destruct this; unfold set_fBins; poly_simpl.
    rewrite lookup_ge_None_2; [reflexivity|]. rewrite length_imap. subst m. cbn. lia. }
  now rewrite Hstep.
Qed.

(** What a call of [Merge] that returns has made: nothing, or the
    combination of the two loops and the final pass. *)
Lemma Merge_cases (this this' : Profile) (list : list Profile) (r : Z) :
  length (fOverflowBins this) = 9%nat ->
  (forall e, e ∈ list -> length (fOverflowBins e) = 9%nat) ->
  Merge this list = Some (this', r) ->
  this' = this \/
  exists n, this' = ShowAverage
                      (set_fBins (imap (MergedBin list n) (fBins this))
                         (foldl MergedGlobal this list)).
Proof.
  intros Hovf Hovfs HMerge.
  destruct list as [|e0 list0] eqn:Hlist; [left; now inversion HMerge|].
  rewrite <- Hlist in *.
  assert (Hne : list <> []) by now rewrite Hlist.
  assert (Hlen : (length list =? 0)%nat = false) by now rewrite Hlist.
  destruct (numBinUnique list) as [s|] eqn:Hs.
  2:{ unfold Merge in HMerge. rewrite Hlen, Hs in HMerge. discriminate. }
  destruct (Nat.eq_dec (size s) 1%nat) as [Hsize|Hsize].
  - set (n := length (fBins e0)).
    assert (Hall : forall e, e ∈ list -> length (fBins e) = n).
    { intros e He. apply Nat2Z.inj.
      apply (size_singleton_inv _ _ _ Hsize); apply (elem_of_numBinUnique _ _ _ Hs).
      - now exists e.
      - exists e0. split; [rewrite Hlist; left|reflexivity]. }
    assert (Hpos : (0 < n)%nat).
    { pose proof Hs as Hs'. apply numBinUnique_acc in Hs' as [Hbins _].
      rewrite Hlist in Hbins. inversion Hbins as [|? ? He0 _]; subst.
      subst n. destruct (fBins e0); [contradiction|cbn; lia]. }
    destruct (le_lt_dec n (length (fBins this))) as [Hn|Hn].
    + rewrite (Merge_Some this list n) in HMerge by assumption.
      right. exists n. now inversion HMerge.
    + exfalso. unfold Merge in HMerge.
      rewrite Hlen, (numBinUnique_same list n) in HMerge by assumption.
      cbn [mbind option_bind] in HMerge.
      rewrite size_singleton, elements_singleton in HMerge. cbn [Nat.eqb negb hd] in HMerge.
      rewrite MergeGlobal_loop in HMerge by assumption.
      cbn [mbind option_bind] in HMerge.
      rewrite MergeBin_loop_beyond in HMerge; [discriminate| |].
      * now rewrite (proj1 (MergedGlobal_loop_frame list this)).
      * intros e He. now rewrite (Hall e He).
  - left. unfold Merge in HMerge. rewrite Hlen, Hs in HMerge.
    cbn [mbind option_bind] in HMerge.
    destruct (Nat.eqb_spec (size s) 1%nat); [contradiction|].
    now inversion HMerge.
Qed.

(** [Merge] returns 1 only under the conditions of [Merge_Some]: a list
    that is not empty, of histograms with the same number of bins, at
    least one, and a target with at least as many. *)
Lemma Merge_success (this this' : Profile) (list : list Profile) :
  length (fOverflowBins this) = 9%nat ->
  (forall e, e ∈ list -> length (fOverflowBins e) = 9%nat) ->
  Merge this list = Some (this', 1) ->
  list <> [] /\
  exists n, (0 < n)%nat /\ Forall (fun e => length (fBins e) = n) list /\
            (n <= length (fBins this))%nat.
Proof.
  intros Hovf Hovfs HMerge.
  destruct list as [|e0 list0] eqn:Hlist; [now inversion HMerge|].
  rewrite <- Hlist in *.
  assert (Hne : list <> []) by now rewrite Hlist.
  split; [assumption|].
  assert (Hlen : (length list =? 0)%nat = false) by now rewrite Hlist.
  destruct (numBinUnique list) as [s|] eqn:Hs.
  2:{ unfold Merge in HMerge. rewrite Hlen, Hs in HMerge. discriminate. }
  destruct (Nat.eq_dec (size s) 1%nat) as [Hsize|Hsize].
  - set (n := length (fBins e0)).
    assert (Hall : forall e, e ∈ list -> length (fBins e) = n).
    { intros e He. apply Nat2Z.inj.
      apply (size_singleton_inv _ _ _ Hsize); apply (elem_of_numBinUnique _ _ _ Hs).
      - now exists e.
      - exists e0. split; [rewrite Hlist; left|reflexivity]. }
    assert (Hpos : (0 < n)%nat).
    { pose proof Hs as Hs'. apply numBinUnique_acc in Hs' as [Hbins _].
      rewrite Hlist in Hbins. inversion Hbins as [|? ? He0 _]; subst.
      subst n. destruct (fBins e0); [contradiction|cbn; lia]. }
    exists n. split; [assumption|]. split; [now apply Forall_forall|].
    destruct (le_lt_dec n (length (fBins this))) as [Hn|Hn]; [assumption|].
    exfalso. unfold Merge in HMerge.
    rewrite Hlen, (numBinUnique_same list n) in HMerge by assumption.
    cbn [mbind option_bind] in HMerge.
    rewrite size_singleton, elements_singleton in HMerge. cbn [Nat.eqb negb hd] in HMerge.
    rewrite MergeGlobal_loop in HMerge by assumption.
    cbn [mbind option_bind] in HMerge.
    rewrite MergeBin_loop_beyond in HMerge; [discriminate| |].
    + now rewrite (proj1 (MergedGlobal_loop_frame list this)).
    + intros e He. now rewrite (Hall e He).
  - exfalso. unfold Merge in HMerge. rewrite Hlen, Hs in HMerge.
    cbn [mbind option_bind] in HMerge.
    destruct (Nat.eqb_spec (size s) 1%nat); [contradiction|].
    now inversion HMerge.
Qed.

(** The final pass and the second loop keep what is outside the bins. *)
Lemma merged_outside_bins (list : list Profile) (this g : Profile) (n : nat) :
  fBins g = fBins this ->
  outside_bins (ShowAverage (set_fBins (imap (MergedBin list n) (fBins this)) g)) =
    outside_bins g.
Proof.
  intros Hb. unfold outside_bins, ShowAverage, geometry_of.
  destruct g; unfold set_fBins; poly_simpl. rewrite Hb. do 3 f_equal.
  rewrite <- list_fmap_compose. apply list_eq. intros i.
  rewrite !list_lookup_fmap, list_lookup_imap.
  destruct (fBins this !! i) as [b|]; [|reflexivity].
  cbn [fmap option_fmap option_map]. f_equal. unfold MergedBin, compose.
  rewrite ContentToAverage_fPoly.
  destruct (i <? n)%nat; [|reflexivity].
  rewrite Update_fPoly. apply Merge_foldl_fPoly.
Qed.

Lemma Fill_wf (h h' : Profile) (x y v w : D) (r : Z) :
  Fill h x y v w = Some (h', r) -> wf h -> wf h'.
Proof.
  intros (ovf & _ & Ho & _ & Hg)%Fill_outside_bins.
  apply wf_frame; [assumption|]. rewrite Ho. apply length_insert.
Qed.

End MergeCases.

Section ReachableBalance.
Context {D : Type} `{ExactAdd D} {Poly : Type} `{Geometry D Poly}.
Local Abbreviation Bin := (TProfile2PolyBin.t D Poly).
Local Abbreviation Profile := (TProfile2Poly.t D Poly).
Import TProfile2Poly.

Lemma dadd_interchange (a b c d : D) :
  dadd (dadd a b) (dadd c d) = dadd (dadd a c) (dadd b d).
Proof.
  rewrite <- !dadd_assoc. f_equal. rewrite !dadd_assoc. f_equal. apply dadd_comm.
Qed.

Lemma SumW_zip_with_Merge (a b : Datatypes.list Bin) :
  length a = length b ->
  SumW (zip_with TProfile2PolyBin.Merge a b) = dadd (SumW a) (SumW b).
Proof.
  unfold SumW.
  revert b; induction a as [|x a IH]; intros [|y b]; try discriminate;
    cbn [zip_with foldr].
  - intros _. symmetry. apply dadd_0_l.
  - intros [= Hlen]. rewrite (IH b Hlen), Merge_fSumw. apply dadd_interchange.
Qed.

Lemma MergedGlobal_balanced (this e : Profile) :
  length (fOverflowBins this) = length (fOverflowBins e) ->
  SumW (fOverflowBins this) = fTsumw this -> SumW (fOverflowBins e) = fTsumw e ->
  SumW (fOverflowBins (MergedGlobal this e)) = fTsumw (MergedGlobal this e).
Proof.
  intros Hlen Hthis He. destruct this; unfold MergedGlobal; poly_simpl.
  rewrite SumW_zip_with_Merge by assumption. now rewrite Hthis, He.
Qed.

Lemma MergedGlobal_loop_balanced (list : list Profile) (this : Profile) :
  length (fOverflowBins this) = 9%nat ->
  SumW (fOverflowBins this) = fTsumw this ->
  (forall e, e ∈ list ->
     length (fOverflowBins e) = 9%nat /\ SumW (fOverflowBins e) = fTsumw e) ->
  SumW (fOverflowBins (foldl MergedGlobal this list)) = fTsumw (foldl MergedGlobal this list).
Proof.
  revert this; induction list as [|e list IH]; intros this Hlen Hbal Hall; [assumption|].
  cbn [foldl]. destruct (Hall e) as [Hlene Hbale]; [left|].
  apply IH.
  - rewrite MergedGlobal_length; congruence.
  - apply MergedGlobal_balanced; congruence.
  - intros e' He'. apply Hall. now right.
Qed.

(** C2 (as amended).  With exact addition, every histogram that calls of
    [Fill] and [Merge] make from well-formed histograms in which nothing
    was filled (the sources of a merge being such histograms too) is
    well-formed, and its global Σw equals the sum of [fSumw] over its nine
    overflow bins.  The registered bins are not part of the sum: a sample
    inside the domain is counted in the centre overflow bin already. *)
Theorem reachable_global_sumw (h : Profile) :
  reachable h ->
  wf h /\ fTsumw h = SumW (fOverflowBins h).
Proof.
  induction 1 as [h Hwf Hfresh|h x y v w h' r _ [Hwf Hbal] HFill
                 |h list h' r _ [Hwf Hbal] _ IHlist HMerge].
  - split; [assumption|]. symmetry. now apply fresh_balanced.
  - split; [eapply Fill_wf; eassumption|].
    symmetry. eapply Fill_balanced; [eassumption|now symmetry].
  - assert (Hovf : length (fOverflowBins h) = 9%nat) by apply Hwf.
    assert (Hovfs : forall e, e ∈ list -> length (fOverflowBins e) = 9%nat)
      by (intros e He; apply (IHlist e He)).
    destruct (Merge_cases _ _ _ _ Hovf Hovfs HMerge) as [->|[n ->]]; [now split|].
    destruct (MergedGlobal_loop_frame list h) as [Hb Hg].
    pose proof (merged_outside_bins list h _ n Hb) as Hout.
    set (h' := ShowAverage _) in *.
    assert (Hg' : geometry_of h' = geometry_of (foldl MergedGlobal h list))
      by exact (f_equal (fun o => fst (fst o)) Hout).
    assert (Ho' : fOverflowBins h' = fOverflowBins (foldl MergedGlobal h list))
      by exact (f_equal (fun o => snd (fst o)) Hout).
    assert (Hs' : GetStats h' = GetStats (foldl MergedGlobal h list))
      by exact (f_equal snd Hout).
    split.
    + apply (wf_frame h); [congruence| |assumption].
      rewrite Ho', MergedGlobal_loop_length; [reflexivity|].
      intros e He. rewrite Hovf. now apply Hovfs.
    + assert (Ht : fTsumw h' = fTsumw (foldl MergedGlobal h list)).
      { unfold GetStats in Hs'. now inversion Hs'. }
      rewrite Ht, Ho'. symmetry. apply MergedGlobal_loop_balanced; [assumption|now symmetry|].
      intros e He. destruct (IHlist e He) as [Hwfe Hbale].
      split; [apply Hwfe|now symmetry].
Qed.

End ReachableBalance.

(** ** The scenarios of the specification *)

Section Squares.
Context {D : Type} `{Arith D} (ten five : D).
Import TProfile2Poly.

Lemma square_wf : wf (square ten five).
Proof.
  unfold wf, square; cbn. repeat split; try lia; repeat constructor; eauto.
Qed.

Lemma square_fresh : fresh (square ten five).
Proof.
  unfold fresh, square; cbn. repeat split; repeat constructor.
Qed.

Lemma square_polygons : PolygonsInDomain (square ten five).
Proof.
  intros bin poly x y Hbin Hpoly Hin. unfold square in Hbin; cbn in Hbin.
  apply list_elem_of_singleton in Hbin as ->. cbn in Hpoly. injection Hpoly as <-.
  cbn in Hin. unfold InDomain, square; cbn.
  destruct (dgt d0 x), (dgt x ten), (dgt d0 y), (dgt y ten); try discriminate; auto.
Qed.

End Squares.

Lemma square64_proper : ProperDomain square64.
Proof. split; reflexivity. Qed.

(** C1 on the square histogram: a sample at its centre. *)
Lemma Fill_returns_region_witness :
  exists h', TProfile2Poly.Fill square64 5%float 5%float 10%float 1%float = Some (h', -5).
Proof.
  destruct (Fill_returns_region square64 5%float 5%float 10%float 1%float
              (square_wf _ _) eq_refl square64_proper)
    as (h' & r & HFill & _ & Hin & _).
  exists h'. rewrite <- Hin by reflexivity. exact HFill.
Defined.

(** C9 on the square histogram: a sample below and left of the domain. *)
Lemma Fill_bottom_left_witness :
  exists h',
    TProfile2Poly.Fill square64 (-1)%float (-1)%float 5%float 1%float = Some (h', -7) /\
    TProfile2Poly.fEntries h' = TProfile2Poly.fEntries square64.
Proof.
  destruct (Fill_bottom_left_and_middle_column square64 (-1)%float (-1)%float 5%float 1%float
              (square_wf _ _) eq_refl square64_proper (square_polygons _ _))
    as [Hcorner _].
  destruct (Hcorner eq_refl eq_refl)
    as (h' & ovf & HFill & _ & _ & _ & _ & _ & Hentries & _).
  exists h'. split; assumption.
Defined.

(** C10 on the square histogram over the real numbers: one sample inside
    and one outside the domain. *)
Lemma Fill_one_overflow_slot_witness :
  exists hn,
    TProfile2Poly.Fills squareR [(5, 5, 10, 1)%R; (-1, -1, 5, 1)%R] = Some hn /\
    TProfile2Poly.SumW (TProfile2Poly.fOverflowBins hn) = TProfile2Poly.fTsumw hn.
Proof.
  exact (proj2 (Fill_one_overflow_slot squareR 5%R 5%R 10%R 1%R
                  [(5, 5, 10, 1)%R; (-1, -1, 5, 1)%R] (square_wf _ _) eq_refl)
           real_exact (square_fresh _ _)).
Defined.

(** C10, counterexample.  On the square histogram on binary64, in which
    nothing was filled, a sample of weight 2^53 in the middle and two of
    weight 1 outside leave the global Σw at 2^53, where each 1 is rounded
    away, and the nine overflow sums at 2^53 + 2.  A sample on the border
    [x = xmin] goes to slot 3, not to the centre, and on a histogram
    without a registered bin [Fill] has no result. *)
Lemma Fill_sums_round_apart :
  TProfile2Poly.fresh square64 /\
  (exists hn,
     TProfile2Poly.Fills square64 heavy_samples = Some hn /\
     TProfile2Poly.fTsumw hn = 9007199254740992%float /\
     TProfile2Poly.SumW (TProfile2Poly.fOverflowBins hn) = 9007199254740994%float /\
     TProfile2Poly.SumW (TProfile2Poly.fOverflowBins hn) <> TProfile2Poly.fTsumw hn) /\
  snd <$> TProfile2Poly.Fill square64 0%float 5%float 10%float 1%float = Some (-4) /\
  TProfile2Poly.OverflowIdxToArrayIdx (-4) = 3 /\
  TProfile2Poly.Fill no_bins64 5%float 5%float 10%float 1%float = None.
Proof.
  split; [apply square_fresh|]. split.
  - exists (default square64 (TProfile2Poly.Fills square64 heavy_samples)).
    split; [vm_compute; reflexivity|]. split; [vm_compute; reflexivity|].
    split; [vm_compute; reflexivity|].
    apply float_neq; vm_compute; reflexivity.
  - repeat split; vm_compute; reflexivity.
Qed.

(** C4: sources with one and with two bins, and no source at all. *)
Lemma Merge_refuses_witness :
  TProfile2Poly.Merge filled64 [square64; halves64] = Some (filled64, -1) /\
  TProfile2Poly.Merge filled64 [] = Some (filled64, -1).
Proof.
  split.
  - apply Merge_refuses_and_keeps_target. right. split.
    + repeat constructor; discriminate.
    + exists square64, halves64.
      split; [left|]. split; [right; left|]. cbn. lia.
  - apply Merge_refuses_and_keeps_target. now left.
Defined.

(** C4, counterexample.  Two sources that differ in their number of
    bins, one of them without any: [Merge] reads the size through the
    null [fBins] of that source and does not return. *)
Lemma Merge_bin_less_source_has_no_result :
  length (TProfile2Poly.fBins square64) <> length (TProfile2Poly.fBins no_bins64) /\
  TProfile2Poly.Merge filled64 [square64; no_bins64] = None.
Proof.
  split; [cbn; lia|].
  unfold TProfile2Poly.Merge. cbn [length Nat.eqb].
  rewrite (numBinUnique_None [square64; no_bins64] no_bins64); [reflexivity| |reflexivity].
  right; left.
Qed.

(** C5: two filled square histograms merged into an empty one. *)
Lemma Merge_combines_witness :
  exists this',
    TProfile2Poly.Merge square64 [filled64; filled64] = Some (this', 1) /\
    TProfile2Poly.fEntries this' =
      total TProfile2Poly.fEntries square64 [filled64; filled64].
Proof.
  destruct (Merge_combines square64 [filled64; filled64] 1)
    as (this' & HMerge & Hentries & _).
  - discriminate.
  - lia.
  - repeat constructor.
  - cbn. lia.
  - reflexivity.
  - repeat constructor.
  - exists this'. split; assumption.
Defined.

(** The scenario of two histograms, each filled once with value 10 and
    weight 1, merged into an empty one over the same single bin: the bin
    has average 10 and sum of weights 2, its content is the average, and
    [fEntries] is the sum of those of the sources. *)
Example Merge_two_filled :
  exists this' bin,
    TProfile2Poly.Merge square64 [filled64; filled64] = Some (this', 1) /\
    TProfile2Poly.fBins this' = [bin] /\
    TProfile2PolyBin.fAverage bin = 10%float /\
    TProfile2PolyBin.fSumw bin = 2%float /\
    TProfile2PolyBin.fContent bin = 10%float /\
    TProfile2Poly.fEntries this' = 2%float.
Proof.
  do 2 eexists. split; [vm_compute; reflexivity|]. repeat split.
Qed.

(** C1, counterexample.  The scenario of the specification: on the square
    domain with its one bin, (5, 5) lies within the domain, and both
    [Fill(5,5,10,1)] and the following [Fill(5,5,20,1)] return -5, not 0. *)
Lemma Fill_inside_returns_minus_5 :
  InDomain square64 5%float 5%float /\
  TProfile2Poly.Fill square64 5%float 5%float 10%float 1%float = Some (filled64, -5) /\
  snd <$> TProfile2Poly.Fill filled64 5%float 5%float 20%float 1%float = Some (-5) /\
  snd <$> TProfile2Poly.Fill square64 5%float 5%float 10%float 1%float <> Some 0.
Proof.
  split; [repeat split|]. split; [vm_compute; reflexivity|].
  split; [vm_compute; reflexivity|]. vm_compute. discriminate.
Qed.

(** C9, counterexample.  A sample on the lower border of the x axis,
    [x = xmin = 0], satisfies [xmin ≤ x ≤ xmax] and is classified into the
    left column: region -4, column 0. *)
Lemma Fill_on_border_is_left_column :
  dgt (GetXmin (TProfile2Poly.fXaxis square64)) 0%float = false /\
  dgt 0%float (GetXmax (TProfile2Poly.fXaxis square64)) = false /\
  snd <$> TProfile2Poly.Fill square64 0%float 5%float 10%float 1%float = Some (-4) /\
  Column (-4) = 0.
Proof.
  repeat split; vm_compute; reflexivity.
Qed.

(** C2 on the square histogram over the real numbers, after one call of
    [Fill]. *)
Lemma reachable_global_sumw_witness :
  exists h' r,
    TProfile2Poly.Fill squareR 5%R 5%R 10%R 1%R = Some (h', r) /\
    TProfile2Poly.fTsumw h' = TProfile2Poly.SumW (TProfile2Poly.fOverflowBins h').
Proof.
  destruct (Fill_total squareR 5%R 5%R 10%R 1%R (square_wf _ _) eq_refl)
    as (h' & HFill & _).
  exists h', (TProfile2Poly.GetOverflowRegionFromCoordinates squareR 5%R 5%R).
  split; [exact HFill|].
  apply (reachable_global_sumw h').
  eapply reach_Fill; [|exact HFill].
  apply reach_new; [apply square_wf|apply square_fresh].
Defined.

(** C2, counterexample.  After [Fill(5,5,10,1)] on the square histogram
    the global Σw is 1, while the registered bin and the centre overflow
    bin each hold the weight: the sum of [fSumw] over all bins is 2. *)
Lemma interior_weight_is_counted_twice :
  reachable filled64 /\
  TProfile2Poly.fTsumw filled64 = 1%float /\
  TProfile2Poly.SumW (TProfile2Poly.fBins filled64) = 1%float /\
  TProfile2Poly.SumW (TProfile2Poly.fOverflowBins filled64) = 1%float /\
  TProfile2Poly.fTsumw filled64 <>
    dadd (TProfile2Poly.SumW (TProfile2Poly.fBins filled64))
         (TProfile2Poly.SumW (TProfile2Poly.fOverflowBins filled64)).
Proof.
  split.
  { apply (reach_Fill square64 5%float 5%float 10%float 1%float filled64 (-5)).
    - apply reach_new; [apply square_wf|apply square_fresh].
    - vm_compute; reflexivity. }
  repeat split; try (vm_compute; reflexivity).
  apply float_neq; vm_compute; reflexivity.
Qed.

(** ** The accessors by bin number *)

Section Accessors.
Context {D : Type} `{Arith D} {Poly : Type}.
Local Abbreviation Profile := (TProfile2Poly.t D Poly).
Import TProfile2Poly.

(** What the six accessors do.  For a bin number from 1 to the number of
    registered bins all six read the registered bin [b - 1].  For a number
    from -9 to -1 five of them read overflow bin [-b - 1];
    [GetBinEffectiveEntries] reads slot [-b - 1] of the array [fOverflow]
    of the base class instead.  For any other number all six return 0. *)
Lemma accessors_by_bin_number (h : Profile) (b : Z) :
  (0 < b <= GetNumberOfBins h ->
   exists bin,
     fBins h !! Z.to_nat (b - 1) = Some bin /\
     GetBinEntries h b = Some (TProfile2PolyBin.fSumw bin) /\
     GetBinEntriesW2 h b = Some (TProfile2PolyBin.fSumw2 bin) /\
     GetBinEntriesVW h b = Some (TProfile2PolyBin.fSumvw bin) /\
     GetBinEntriesWV2 h b = Some (TProfile2PolyBin.fSumwv2 bin) /\
     GetBinError h b = Some (TProfile2PolyBin.fError bin) /\
     GetBinEffectiveEntries h b = Some (spec_effectiveEntries bin)) /\
  (-9 <= b < 0 -> length (fOverflowBins h) = 9%nat ->
   exists ovf,
     fOverflowBins h !! Z.to_nat (- b - 1) = Some ovf /\
     GetBinEntries h b = Some (TProfile2PolyBin.fSumw ovf) /\
     GetBinEntriesW2 h b = Some (TProfile2PolyBin.fSumw2 ovf) /\
     GetBinEntriesVW h b = Some (TProfile2PolyBin.fSumvw ovf) /\
     GetBinEntriesWV2 h b = Some (TProfile2PolyBin.fSumwv2 ovf) /\
     GetBinError h b = Some (TProfile2PolyBin.fError ovf) /\
     GetBinEffectiveEntries h b = fOverflow h !! Z.to_nat (- b - 1)) /\
  (b = 0 \/ GetNumberOfBins h < b \/ b < -9 ->
   GetBinEntries h b = Some d0 /\ GetBinEntriesW2 h b = Some d0 /\
   GetBinEntriesVW h b = Some d0 /\ GetBinEntriesWV2 h b = Some d0 /\
   GetBinError h b = Some d0 /\ GetBinEffectiveEntries h b = Some d0).
Proof.
  unfold GetBinEntries, GetBinEntriesW2, GetBinEntriesVW, GetBinEntriesWV2,
    GetBinError, GetBinEffectiveEntries.
  split; [|split].
  - intros Hb.
    destruct (At_lt (fBins h) (b - 1)) as [bin Hbin]; [unfold GetNumberOfBins in Hb; lia|].
    exists bin. rewrite Hbin.
    apply At_Some in Hbin as [_ Hbin]. split; [exact Hbin|].
    destruct (Z.gtb_spec b (GetNumberOfBins h)); [lia|].
    destruct (Z.eqb_spec b 0); [lia|].
    destruct (Z.ltb_spec b (- kNOverflow)); [unfold kNOverflow in *; lia|].
    destruct (Z.ltb_spec b 0); [lia|].
    cbn. repeat split.
  - intros Hb Hlen.
    destruct (At_lt (fOverflowBins h) (- b - 1)) as [ovf Hovf]; [lia|].
    exists ovf. rewrite Hovf.
    apply At_Some in Hovf as [_ Hovf]. split; [exact Hovf|].
    destruct (Z.gtb_spec b (GetNumberOfBins h)); [unfold GetNumberOfBins in *; lia|].
    destruct (Z.eqb_spec b 0); [lia|].
    destruct (Z.ltb_spec b (- kNOverflow)); [unfold kNOverflow in *; lia|].
    destruct (Z.ltb_spec b 0); [|lia].
    cbn. repeat split. unfold At. destruct (Z.ltb_spec (- b - 1) 0); [lia|reflexivity].
  - intros Hb.
    destruct (Z.gtb_spec b (GetNumberOfBins h)); [cbn; repeat split|].
    destruct (Z.eqb_spec b 0); [cbn; repeat split|].
    destruct (Z.ltb_spec b (- kNOverflow)); [cbn; repeat split|].
    unfold kNOverflow in *. lia.
Qed.

End Accessors.

(** C8, the accessor that differs.  After [Fill(-1, -1, 5, 2)] on the
    square histogram, overflow bin 6 (bin number -7) holds weight 2,
    squared weight 4 and so 1 effective entry.  [GetBinEntries(-7)] and
    [GetBinEntriesW2(-7)] read that bin; [GetBinEffectiveEntries(-7)]
    returns 0, read from [fOverflow], an array this class never writes. *)
Lemma GetBinEffectiveEntries_reads_fOverflow :
  TProfile2Poly.Fill square64 (-1)%float (-1)%float 5%float 2%float = Some (outside64, -7) /\
  TProfile2Poly.GetBinEntries outside64 (-7) = Some 2%float /\
  TProfile2Poly.GetBinEntriesW2 outside64 (-7) = Some 4%float /\
  TProfile2PolyBin.GetEffectiveEntries <$> At (TProfile2Poly.fOverflowBins outside64) 6
    = Some 1%float /\
  TProfile2Poly.GetBinEffectiveEntries outside64 (-7) = Some 0%float.
Proof.
  repeat split; vm_compute; reflexivity.
Qed.

(** * Further properties of the code *)

(** ** The accumulator: derived values *)

Section CoverageBin.
Context {D : Type} `{Arith D} {Poly : Type}.
Local Abbreviation Bin := (TProfile2PolyBin.t D Poly).
Import TProfile2PolyBin.

Lemma Update_SetContent (c : D) (b : Bin) :
  Update (SetContent c b) = SetContent c (Update b).
Proof. reflexivity. Qed.

(** X1.  [Update] is idempotent: a second call in a row changes nothing.
    In particular the bin [Fill] leaves is already updated, so the call of
    [bin->Update()] that follows [bin->Fill(value, weight)] in
    [TProfile2Poly::Fill] changes nothing. *)
Theorem Update_twice_is_once (value weight : D) (b : Bin) :
  Update (Update b) = Update b /\
  Update (Fill value weight b) = Fill value weight b.
Proof.
  split; [apply Update_idem|]. unfold Fill. apply Update_idem.
Qed.

End CoverageBin.

Section CoverageMean.
Context {Poly : Type}.
Import TProfile2PolyBin.

Lemma FillUnit_snoc (b : TProfile2PolyBin.t R Poly) (values : list R) (v : R) :
  FillUnit b (values ++ [v]) = Fill v d1 (FillUnit b values).
Proof. unfold FillUnit. now rewrite foldl_app. Qed.

Lemma FillUnit_sums (values : list R) (b : TProfile2PolyBin.t R Poly) :
  fSumw (FillUnit b values) = (fSumw b + INR (length values))%R /\
  fSumvw (FillUnit b values) = (fSumvw b + fold_right Rplus 0%R values)%R.
Proof.
  revert b; induction values as [|v values IH]; intros b.
  - unfold FillUnit. cbn [foldl fold_right length]. change (INR 0) with 0%R.
    split; ring.
  - destruct (IH (Fill v d1 b)) as [IHw IHvw].
    change (FillUnit b (v :: values)) with (FillUnit (Fill v d1 b) values).
    rewrite IHw, IHvw.
    change (length (v :: values)) with (S (length values)). rewrite S_INR.
    cbn [fold_right].
    change (fSumw (Fill v d1 b)) with (fSumw b + 1)%R.
    change (fSumvw (Fill v d1 b)) with (fSumvw b + v * 1)%R.
    split; ring.
Qed.

Lemma sum_snoc (values : list R) (v : R) :
  fold_right Rplus 0%R (values ++ [v]) = (fold_right Rplus 0 values + v)%R.
Proof.
  induction values as [|a values IH]; cbn [app fold_right]; [ring|].
  rewrite IH. ring.
Qed.

Lemma Fill_average_R (b : TProfile2PolyBin.t R Poly) (v : R) :
  (fSumw b + 1 <> 0)%R ->
  fAverage (Fill v d1 b) = ((fSumvw b + v * 1) / (fSumw b + 1))%R.
Proof.
  intros Hnz. destruct b as [p c ch w vw w2 wv2 e a m].
  cbv [Fill AddSums Update UpdateError UpdateAverage SetChanged
       fPoly fContent fChanged fSumw fSumvw fSumw2 fSumwv2 fError fAverage fErrorMode] in *.
  cbn. now destruct (Req_dec_T (w + 1) 0).
Qed.

(** X2.  Over the real numbers: a new bin filled with the values of a
    non-empty list, each with weight 1, has as [sumWeight] the number of
    values and as average their arithmetic mean. *)
Theorem unit_weight_average_is_mean (poly : option Poly) (values : list R) :
  values <> [] ->
  fSumw (FillUnit (new poly) values) = INR (length values) /\
  fAverage (FillUnit (new poly) values) =
    (fold_right Rplus 0 values / INR (length values))%R.
Proof.
  intros Hne.
  destruct (FillUnit_sums values (new poly)) as [Hw _].
  change (fSumw (new poly)) with 0%R in Hw. rewrite Rplus_0_l in Hw.
  split; [exact Hw|].
  destruct (exists_last Hne) as (values' & v & ->).
  destruct (FillUnit_sums values' (new poly)) as [Hw' Hvw'].
  change (fSumw (new poly)) with 0%R in Hw'. rewrite Rplus_0_l in Hw'.
  change (fSumvw (new poly)) with 0%R in Hvw'. rewrite Rplus_0_l in Hvw'.
  assert (Hlen : INR (length (values' ++ [v])) = (INR (length values') + 1)%R).
  { rewrite length_app, plus_INR. reflexivity. }
  rewrite FillUnit_snoc, Fill_average_R.
  - rewrite Hw', Hvw', sum_snoc, Hlen. f_equal. ring.
  - rewrite Hw', <- Hlen. apply not_0_INR. rewrite length_app. cbn. lia.
Qed.

End CoverageMean.

(** X2 on the values 10 and 20 of the specification's scenario: the
    average is 15. *)
Lemma unit_weight_average_witness :
  TProfile2PolyBin.fAverage (FillUnit (TProfile2PolyBin.new (@None unit)) [10%R; 20%R]) = 15%R.
Proof.
  destruct (unit_weight_average_is_mean (@None unit) [10%R; 20%R]) as [_ Hmean];
    [discriminate|].
  rewrite Hmean. cbn. lra.
Defined.

(** ** The histogram: display, error mode and registration *)

Section CoverageDisplay.
Context {D : Type} `{Arith D} {Poly : Type}.
Local Abbreviation Bin := (TProfile2PolyBin.t D Poly).
Local Abbreviation Profile := (TProfile2Poly.t D Poly).
Import TProfile2Poly.

Lemma ContentToAverage_after (c : D) (b : Bin) :
  ContentToAverage (TProfile2PolyBin.SetContent c (TProfile2PolyBin.Update b)) =
    ContentToAverage b.
Proof.
  unfold ContentToAverage. now rewrite Update_SetContent, Update_idem.
Qed.

Lemma ContentToError_after (c : D) (b : Bin) :
  ContentToError (TProfile2PolyBin.SetContent c (TProfile2PolyBin.Update b)) =
    ContentToError b.
Proof.
  unfold ContentToError. now rewrite Update_SetContent, Update_idem.
Qed.

Lemma set_fBins_twice (l l' : Datatypes.list Bin) (h : Profile) :
  set_fBins l (set_fBins l' h) = set_fBins l h.
Proof. now destruct h. Qed.

Lemma fBins_set_fBins (l : Datatypes.list Bin) (h : Profile) : fBins (set_fBins l h) = l.
Proof. now destruct h. Qed.

(** The two loops over the bins: each is idempotent and the last one
    wins. *)
Lemma Show_last_wins (h : Profile) :
  ShowAverage (ShowError h) = ShowAverage h /\
  ShowError (ShowAverage h) = ShowError h /\
  ShowAverage (ShowAverage h) = ShowAverage h /\
  ShowError (ShowError h) = ShowError h /\
  (forall i bin, fBins h !! i = Some bin ->
     exists a e,
       fBins (ShowAverage h) !! i = Some a /\
       fBins (ShowError h) !! i = Some e /\
       TProfile2PolyBin.fContent a = TProfile2PolyBin.fAverage a /\
       TProfile2PolyBin.fContent e = TProfile2PolyBin.fError e /\
       TProfile2PolyBin.fAverage a = spec_average bin /\
       TProfile2PolyBin.fAverage e = TProfile2PolyBin.fAverage a /\
       TProfile2PolyBin.fError e = TProfile2PolyBin.fError a /\
       moments a = moments bin /\ moments e = moments bin) /\
  fOverflowBins (ShowAverage h) = fOverflowBins h /\
  fOverflowBins (ShowError h) = fOverflowBins h.
Proof.
  unfold ShowAverage, ShowError.
  rewrite !fBins_set_fBins, !set_fBins_twice, <- !list_fmap_compose.
  split.
  { f_equal. apply list_fmap_ext. intros _ b _. apply ContentToAverage_after. }
  split.
  { f_equal. apply list_fmap_ext. intros _ b _. apply ContentToError_after. }
  split.
  { f_equal. apply list_fmap_ext. intros _ b _. apply ContentToAverage_after. }
  split.
  { f_equal. apply list_fmap_ext. intros _ b _. apply ContentToError_after. }
  split; [|split; now destruct h].
  intros i bin Hi. exists (ContentToAverage bin), (ContentToError bin).
  rewrite !list_lookup_fmap, Hi. repeat split.
Qed.

Lemma Show_nonempty (h : Profile) :
  fBins h <> [] -> fBins (ShowAverage h) <> [] /\ fBins (ShowError h) <> [].
Proof.
  unfold ShowAverage, ShowError. rewrite !fBins_set_fBins.
  destruct (fBins h); [contradiction|]. split; discriminate.
Qed.

(** X4.  The two display passes on a histogram with a registered bin:
    both return, each is idempotent and the last call wins, whatever was
    displayed before.  After [SetContentToAverage] every registered bin
    displays its average, after [SetContentToError] its error; the moment
    sums of the bins and the overflow bins are left alone by both. *)
Theorem display_last_call_wins (h : Profile) :
  fBins h <> [] ->
  exists ha he,
    SetContentToAverage h = Some ha /\
    SetContentToError h = Some he /\
    SetContentToAverage he = Some ha /\
    SetContentToError ha = Some he /\
    SetContentToAverage ha = Some ha /\
    SetContentToError he = Some he /\
    (forall i bin, fBins h !! i = Some bin ->
       exists a e,
         fBins ha !! i = Some a /\
         fBins he !! i = Some e /\
         TProfile2PolyBin.fContent a = TProfile2PolyBin.fAverage a /\
         TProfile2PolyBin.fContent e = TProfile2PolyBin.fError e /\
         TProfile2PolyBin.fAverage a = spec_average bin /\
         TProfile2PolyBin.fAverage e = TProfile2PolyBin.fAverage a /\
         TProfile2PolyBin.fError e = TProfile2PolyBin.fError a /\
         moments a = moments bin /\ moments e = moments bin) /\
    fOverflowBins ha = fOverflowBins h /\
    fOverflowBins he = fOverflowBins h.
Proof.
  intros Hb. destruct (Show_nonempty h Hb) as [Ha He].
  destruct (Show_last_wins h) as (Hae & Hea & Haa & Hee & Hbins & Hoa & Hoe).
  exists (ShowAverage h), (ShowError h).
  split; [now apply ShowAverage_Some|].
  split; [now apply ShowError_Some|].
  split; [rewrite ShowAverage_Some by assumption; now rewrite Hae|].
  split; [rewrite ShowError_Some by assumption; now rewrite Hea|].
  split; [rewrite ShowAverage_Some by assumption; now rewrite Haa|].
  split; [rewrite ShowError_Some by assumption; now rewrite Hee|].
  split; [exact Hbins|]. split; assumption.
Qed.

Lemma At_fmap {A B : Type} (f : A -> B) (l : Datatypes.list A) (i : Z) :
  At (f <$> l) i = f <$> At l i.
Proof.
  unfold At. destruct (i <? 0); [reflexivity|]. apply list_lookup_fmap.
Qed.

(** X5.  [SetErrorOption] stores the mode in the histogram and in every
    registered bin, not in the overflow bins, and recomputes nothing: the
    error [GetBinError] reports for any bin number, and the sums the other
    accessors report, are those of before.  The error of the new mode
    appears with the next update: after [SetContentToError], which
    returns on a histogram with a bin, a registered bin displays the
    error of the specification's formula for the new mode. *)
Theorem SetErrorOption_recomputes_nothing (type : EErrorType) (h : Profile) (b : Z) :
  fErrorMode (SetErrorOption type h) = type /\
  Forall (fun bin => TProfile2PolyBin.fErrorMode bin = type) (fBins (SetErrorOption type h)) /\
  fOverflowBins (SetErrorOption type h) = fOverflowBins h /\
  GetBinError (SetErrorOption type h) b = GetBinError h b /\
  GetBinEntries (SetErrorOption type h) b = GetBinEntries h b /\
  GetBinEntriesW2 (SetErrorOption type h) b = GetBinEntriesW2 h b /\
  GetBinEntriesVW (SetErrorOption type h) b = GetBinEntriesVW h b /\
  GetBinEntriesWV2 (SetErrorOption type h) b = GetBinEntriesWV2 h b /\
  (forall i bin, fBins h !! i = Some bin ->
     exists h' bin',
       SetContentToError (SetErrorOption type h) = Some h' /\
       fBins h' !! i = Some bin' /\
       TProfile2PolyBin.fContent bin' = TProfile2PolyBin.fError bin' /\
       TProfile2PolyBin.fError bin' =
         (if dne (TProfile2PolyBin.fSumw bin) d0
          then spec_error (TProfile2PolyBin.SetErrorOption type bin)
          else error_without_weight (TProfile2PolyBin.SetErrorOption type bin))).
Proof.
  unfold SetErrorOption.
  assert (Hb : fBins (set_fBins (TProfile2PolyBin.SetErrorOption type <$>
                                   fBins (set_fErrorMode type h)) (set_fErrorMode type h)) =
               TProfile2PolyBin.SetErrorOption type <$> fBins h) by now destruct h.
  assert (Ho : fOverflowBins (set_fBins (TProfile2PolyBin.SetErrorOption type <$>
                                   fBins (set_fErrorMode type h)) (set_fErrorMode type h)) =
               fOverflowBins h) by now destruct h.
  split; [now destruct h|]. split.
  { rewrite Hb. apply Forall_fmap, Forall_forall. reflexivity. }
  split; [exact Ho|].
  unfold GetBinError, GetBinEntries, GetBinEntriesW2, GetBinEntriesVW, GetBinEntriesWV2,
    GetNumberOfBins.
  rewrite Hb, Ho, length_fmap, At_fmap.
  repeat split; try (destruct (At (fBins h) (b - 1)); reflexivity).
  intros i bin Hi.
  eexists; exists (ContentToError (TProfile2PolyBin.SetErrorOption type bin)).
  split.
  { apply ShowError_Some. rewrite Hb. destruct (fBins h); [discriminate Hi|discriminate]. }
  unfold ShowError. rewrite fBins_set_fBins, Hb.
  rewrite !list_lookup_fmap, Hi. split; [reflexivity|]. split; [reflexivity|].
  destruct bin as [p c ch w vw w2 wv2 e a m].
  cbv [ContentToError TProfile2PolyBin.SetContent TProfile2PolyBin.SetErrorOption
       TProfile2PolyBin.Update TProfile2PolyBin.UpdateError TProfile2PolyBin.UpdateAverage
       TProfile2PolyBin.SetChanged TProfile2PolyBin.GetEffectiveEntries
       spec_error error_without_weight spec_variance spec_average spec_effectiveEntries
       TProfile2PolyBin.fPoly TProfile2PolyBin.fContent TProfile2PolyBin.fChanged
       TProfile2PolyBin.fSumw TProfile2PolyBin.fSumvw TProfile2PolyBin.fSumw2
       TProfile2PolyBin.fSumwv2 TProfile2PolyBin.fError TProfile2PolyBin.fAverage
       TProfile2PolyBin.fErrorMode].
  destruct (dne w d0), type; reflexivity.
Qed.


End CoverageDisplay.

(** X4 on the square histogram after one call of [Fill]. *)
Lemma display_last_call_wins_witness :
  exists ha he,
    TProfile2Poly.SetContentToAverage filled64 = Some ha /\
    TProfile2Poly.SetContentToError filled64 = Some he /\
    TProfile2Poly.SetContentToAverage he = Some ha /\
    TProfile2Poly.SetContentToError ha = Some he.
Proof.
  destruct (display_last_call_wins filled64) as (ha & he & H1 & H2 & H3 & H4 & _).
  - vm_compute. discriminate.
  - exists ha, he. repeat split; assumption.
Defined.


(** ** Fill: the registered bins, the statistics, the returned number *)

Section CoverageFill.
Context {D : Type} `{Arith D} {Poly : Type} `{Geometry D Poly}.
Local Abbreviation Bin := (TProfile2PolyBin.t D Poly).
Local Abbreviation Profile := (TProfile2Poly.t D Poly).
Import TProfile2Poly.

Lemma Contains_frame (s s' : Profile) (x y : D) (k : nat) :
  TProfile2PolyBin.fPoly <$> fBins s' = TProfile2PolyBin.fPoly <$> fBins s ->
  Contains s' x y k = Contains s x y k.
Proof.
  intros Hp. apply (f_equal (fun l => l !! k)) in Hp.
  rewrite !list_lookup_fmap in Hp. unfold Contains.
  destruct (fBins s' !! k) as [b'|], (fBins s !! k) as [b|]; try discriminate;
    [|reflexivity].
  injection Hp as ->. reflexivity.
Qed.

(** The loop of [Fill] over a cell that lists no bin twice. *)
Lemma FillCell_bins (x y v w : D) (cell : Datatypes.list nat) :
  NoDup cell ->
  forall s s' : Profile,
    foldlM (FillBin x y v w) s cell = Some s' ->
    (forall k bin, fBins s !! k = Some bin ->
       fBins s' !! k =
         Some (if bool_decide (k ∈ cell) && Contains s x y k
               then ContentToAverage (TProfile2PolyBin.Fill v w bin) else bin)) /\
    fEntries s' =
      foldl (fun e _ => dadd e d1) (fEntries s) (List.filter (Contains s x y) cell).
Proof.
  induction 1 as [|j rest Hj Hrest IH]; intros s s'; cbn [foldlM].
  - intros [= <-]. split; [|reflexivity]. intros k bin Hk.
    now rewrite bool_decide_eq_false_2 by apply not_elem_of_nil.
  - destruct (FillBin x y v w s j) as [s1|] eqn:Hstep; cbn [mbind option_bind];
      [|discriminate].
    intros Hfold. destruct (IH s1 s' Hfold) as [IHbins IHentries].
    pose proof (FillBin_frame _ _ _ _ _ _ _ Hstep) as Hframe.
    assert (Hp : TProfile2PolyBin.fPoly <$> fBins s1 = TProfile2PolyBin.fPoly <$> fBins s).
    { apply (f_equal (fun o => fst (fst o))) in Hframe.
      unfold outside_bins, geometry_of in Hframe. cbn [fst] in Hframe.
      now inversion Hframe. }
    apply FillBin_Some in Hstep as (binj & polyj & Hbinj & Hpolyj & Hs1).
    assert (Hcj : Contains s x y j = inside polyj x y)
      by (unfold Contains; now rewrite Hbinj, Hpolyj).
    split.
    + intros k bin Hk. destruct (decide (k = j)) as [->|Hkj].
      * rewrite Hbinj in Hk. injection Hk as <-.
        rewrite bool_decide_eq_true_2 by left. rewrite Hcj. cbn [andb].
        assert (H1 : fBins s1 !! j =
                     Some (if inside polyj x y
                           then ContentToAverage (TProfile2PolyBin.Fill v w binj)
                           else binj)).
        { rewrite Hs1. destruct (inside polyj x y); [|assumption].
          rewrite fBins_set_fBins. destruct s; poly_simpl.
          apply list_lookup_insert_eq. eapply lookup_lt_Some, Hbinj. }
        rewrite (IHbins _ _ H1), bool_decide_eq_false_2 by assumption. reflexivity.
      * assert (H1 : fBins s1 !! k = Some bin).
        { rewrite Hs1. destruct (inside polyj x y); [|assumption].
          rewrite fBins_set_fBins. destruct s; poly_simpl.
          rewrite list_lookup_insert_ne by congruence. assumption. }
        rewrite (IHbins _ _ H1), (Contains_frame s s1) by assumption.
        assert (Hin : bool_decide (k ∈ j :: rest) = bool_decide (k ∈ rest)).
        { apply bool_decide_ext. rewrite elem_of_cons. tauto. }
        now rewrite Hin.
    + rewrite IHentries. cbn [List.filter]. rewrite Hcj.
      assert (He : fEntries s1 = if inside polyj x y then dadd (fEntries s) d1 else fEntries s).
      { rewrite Hs1. destruct (inside polyj x y); [now destruct s|reflexivity]. }
      rewrite He.
      assert (Hf : List.filter (Contains s1 x y) rest = List.filter (Contains s x y) rest).
      { apply List.filter_ext. intros k. now apply Contains_frame. }
      rewrite Hf. now destruct (inside polyj x y).
Qed.

(** X7.  What [Fill] does to the registered bins, on a partition whose
    cells list no bin twice.  There is one cell of the partition such
    that every bin listed in it whose polygon contains the sample is
    replaced by that bin filled with the sample, updated, with its average
    as content; every other bin is left as it was, and [fEntries] grows by
    1 for each bin replaced. *)
Theorem Fill_registered_bins (h h' : Profile) (x y value weight : D) (r : Z) :
  Forall NoDup (fCells h) ->
  Fill h x y value weight = Some (h', r) ->
  exists cell,
    cell ∈ fCells h /\
    (forall k bin, fBins h !! k = Some bin ->
       fBins h' !! k =
         Some (if bool_decide (k ∈ cell) && Contains h x y k
               then ContentToAverage (TProfile2PolyBin.Fill value weight bin) else bin)) /\
    fEntries h' =
      foldl (fun e _ => dadd e d1) (fEntries h) (List.filter (Contains h x y) cell).
Proof.
  intros Hnodup (_ & ovf & cell & _ & Hcell & Hfold)%Fill_Some.
  exists cell. split; [assumption|].
  rewrite Forall_forall in Hnodup.
  destruct (FillCell_bins x y value weight cell (Hnodup _ Hcell) _ _ Hfold)
    as [Hbins Hentries].
  set (h1 := AddStats _ _ _ _ _) in *.
  assert (Hb1 : fBins h1 = fBins h) by now destruct h.
  assert (He1 : fEntries h1 = fEntries h) by now destruct h.
  assert (Hc1 : forall k, Contains h1 x y k = Contains h x y k)
    by (intros k; apply Contains_frame; now rewrite Hb1).
  split.
  - intros k bin Hk. rewrite <- Hb1 in Hk. rewrite (Hbins k bin Hk), Hc1. reflexivity.
  - rewrite Hentries, He1. reflexivity.
Qed.

(** X9.  Every call of [Fill] that returns adds the contributions of the
    sample to all nine statistics that [GetStats] exports (w, w², w·x,
    w·x², w·y, w·y², w·x·y, w·v, w·v², in that order), wherever the
    sample lies; it changes neither the axes, the partition, the
    polygons nor the number of bins, and a well-formed histogram stays
    well-formed. *)
Theorem Fill_adds_to_all_statistics (h h' : Profile) (x y value weight : D) (r : Z) :
  Fill h x y value weight = Some (h', r) ->
  GetStats h' = zip_with dadd (GetStats h) (SampleStats x y value weight) /\
  geometry_of h' = geometry_of h /\
  length (fBins h') = length (fBins h) /\
  length (fOverflowBins h') = length (fOverflowBins h) /\
  (wf h -> wf h').
Proof.
  intros HFill.
  destruct (Fill_outside_bins _ _ _ _ _ _ _ HFill) as (ovf & _ & Ho & Hs & Hg).
  split; [rewrite Hs; now destruct h|]. split; [exact Hg|]. split.
  { rewrite <- (length_fmap TProfile2PolyBin.fPoly (fBins h')),
      <- (length_fmap TProfile2PolyBin.fPoly (fBins h)).
    unfold geometry_of in Hg. now inversion Hg. }
  split; [rewrite Ho; apply length_insert|].
  eapply Fill_wf, HFill.
Qed.

(** X10.  The number [Fill] returns is a bin number of the accessors: on
    a well-formed histogram with a registered bin it lies between -9 and
    -1, and [GetBinEntries], [GetBinEntriesW2], [GetBinEntriesVW] and
    [GetBinEntriesWV2] read under it, before the call the sums of the
    overflow bin of the sample's region, after the call those sums grown
    by the sample. *)
Theorem Fill_result_is_a_bin_number (h : Profile) (x y value weight : D) :
  wf h -> kNOverflow < fNcells h ->
  exists h' r ovf,
    Fill h x y value weight = Some (h', r) /\ -9 <= r <= -1 /\
    fOverflowBins h !! Z.to_nat (- r - 1) = Some ovf /\
    GetBinEntries h r = Some (TProfile2PolyBin.fSumw ovf) /\
    GetBinEntries h' r = Some (dadd (TProfile2PolyBin.fSumw ovf) weight) /\
    GetBinEntriesW2 h' r =
      Some (dadd (TProfile2PolyBin.fSumw2 ovf) (dmul weight weight)) /\
    GetBinEntriesVW h' r =
      Some (dadd (TProfile2PolyBin.fSumvw ovf) (dmul value weight)) /\
    GetBinEntriesWV2 h' r =
      Some (dadd (TProfile2PolyBin.fSumwv2 ovf) (dmul (dmul weight value) value)).
Proof.
  intros Hwf Hn.
  destruct (Fill_total h x y value weight Hwf Hn) as (h' & HFill & _).
  pose proof (region_range h x y Hn) as Hr.
  destruct (Fill_outside_bins _ _ _ _ _ _ _ HFill) as (ovf & Hovf & Ho & _).
  set (r := GetOverflowRegionFromCoordinates h x y) in *.
  exists h', r, ovf. split; [exact HFill|]. split; [exact Hr|].
  assert (Hovf' : At (fOverflowBins h') (- r - 1) =
                  Some (TProfile2PolyBin.Fill value weight ovf)).
  { apply At_Some. split; [lia|]. rewrite Ho.
    apply list_lookup_insert_eq. apply At_Some in Hovf as [_ Hovf].
    eapply lookup_lt_Some, Hovf. }
  unfold GetBinEntries, GetBinEntriesW2, GetBinEntriesVW, GetBinEntriesWV2, GetNumberOfBins.
  destruct (Z.gtb_spec r (Z.of_nat (length (fBins h)))); [lia|].
  destruct (Z.gtb_spec r (Z.of_nat (length (fBins h')))); [lia|].
  destruct (Z.eqb_spec r 0); [lia|].
  destruct (Z.ltb_spec r (- kNOverflow)); [unfold kNOverflow in *; lia|].
  destruct (Z.ltb_spec r 0); [|lia].
  cbn [orb]. rewrite Hovf, Hovf'.
  apply At_Some in Hovf as [_ Hovf]. repeat split. exact Hovf.
Qed.

(** X11.  On a histogram without a registered bin ([fNcells] not above
    [kNOverflow]) the region number is 0 for every sample, the overflow
    slot computed from it is -1, and [Fill] goes outside the array of
    overflow bins: it has no result. *)
Theorem Fill_without_registered_bin (h : Profile) (x y value weight : D) :
  fNcells h <= kNOverflow ->
  GetOverflowRegionFromCoordinates h x y = 0 /\
  OverflowIdxToArrayIdx (GetOverflowRegionFromCoordinates h x y) = -1 /\
  Fill h x y value weight = None.
Proof.
  intros Hn.
  assert (Hr : GetOverflowRegionFromCoordinates h x y = 0).
  { unfold GetOverflowRegionFromCoordinates.
    destruct (Z.leb_spec (fNcells h) kNOverflow); [reflexivity|lia]. }
  split; [exact Hr|]. split; [now rewrite Hr|].
  unfold Fill. cbv zeta. rewrite Hr. reflexivity.
Qed.

End CoverageFill.

Lemma square64_cells_NoDup : Forall NoDup (TProfile2Poly.fCells square64).
Proof.
  unfold square64, square; cbn. repeat (constructor; [apply NoDup_singleton|]).
  constructor.
Qed.

Lemma square64_Fill_centre :
  TProfile2Poly.Fill square64 5%float 5%float 10%float 1%float = Some (filled64, -5).
Proof. vm_compute. reflexivity. Qed.

(** X7 on the square histogram: the sample (5, 5). *)
Lemma Fill_registered_bins_witness :
  exists cell,
    cell ∈ TProfile2Poly.fCells square64 /\
    TProfile2Poly.fEntries filled64 =
      foldl (fun e _ => dadd e d1) (TProfile2Poly.fEntries square64)
        (List.filter (Contains square64 5%float 5%float) cell).
Proof.
  destruct (Fill_registered_bins square64 filled64 5%float 5%float 10%float 1%float (-5)
              square64_cells_NoDup square64_Fill_centre)
    as (cell & Hcell & _ & Hentries).
  exists cell. split; assumption.
Defined.

(** X9 on the square histogram: the sample (5, 5) with value 10. *)
Lemma Fill_adds_to_all_statistics_witness :
  TProfile2Poly.GetStats filled64 =
    zip_with dadd (TProfile2Poly.GetStats square64)
      (SampleStats 5%float 5%float 10%float 1%float).
Proof.
  exact (proj1 (Fill_adds_to_all_statistics square64 filled64 5%float 5%float 10%float
                  1%float (-5) square64_Fill_centre)).
Defined.

(** X10 on the square histogram: a sample below and left of the domain,
    with weight 2. *)
Lemma Fill_result_is_a_bin_number_witness :
  exists h' r (ovf : TProfile2PolyBin.t float (Rect float)),
    TProfile2Poly.Fill square64 (-1)%float (-1)%float 5%float 2%float = Some (h', r) /\
    TProfile2Poly.GetBinEntries h' r = Some (dadd (TProfile2PolyBin.fSumw ovf) 2%float).
Proof.
  destruct (Fill_result_is_a_bin_number square64 (-1)%float (-1)%float 5%float 2%float
              (square_wf _ _) eq_refl)
    as (h' & r & ovf & HFill & _ & _ & _ & Hafter & _).
  exists h', r, ovf. split; assumption.
Defined.

(** X11 on the square domain before any bin is registered. *)
Lemma Fill_without_registered_bin_witness :
  TProfile2Poly.Fill no_bins64 5%float 5%float 10%float 1%float = None.
Proof.
  apply (Fill_without_registered_bin no_bins64 5%float 5%float 10%float 1%float).
  unfold no_bins64, kNOverflow. cbn. lia.
Defined.

(** ** Fill on binary64: a coordinate that is not a number *)

Section CoverageNaN.
Context {Poly : Type}.
Import TProfile2Poly.

Lemma nan_is_not_above (a b : float) :
  PrimFloat.is_nan a = true -> dgt a b = false /\ dgt b a = false.
Proof.
  intros Hnan. cbn. rewrite !ltb_spec.
  assert (Ha : Prim2SF a = S754_nan) by (unfold Prim2SF; now rewrite Hnan).
  rewrite Ha. unfold SFltb, SFcompare. split; [now destruct (Prim2SF b)|reflexivity].
Qed.

(** X12.  On binary64 a comparison with a NaN is false, so a sample whose
    x is not a number is classified into the left column of the grid, one
    whose y is not a number into the bottom row, and one with both into
    the bottom left region, -7. *)
Theorem NaN_is_classified_bottom_left (h : TProfile2Poly.t float Poly) (x y : float) :
  kNOverflow < fNcells h ->
  (PrimFloat.is_nan x = true -> Column (GetOverflowRegionFromCoordinates h x y) = 0) /\
  (PrimFloat.is_nan y = true -> Row (GetOverflowRegionFromCoordinates h x y) = 2) /\
  (PrimFloat.is_nan x = true -> PrimFloat.is_nan y = true ->
   GetOverflowRegionFromCoordinates h x y = -7).
Proof.
  intros Hn. split; [|split].
  - intros Hx. rewrite region_Column by assumption.
    destruct (nan_is_not_above x (GetXmax (fXaxis h)) Hx) as [-> _].
    now destruct (nan_is_not_above x (GetXmin (fXaxis h)) Hx) as [-> _].
  - intros Hy. rewrite region_Row by assumption.
    destruct (nan_is_not_above y (GetXmax (fYaxis h)) Hy) as [-> _].
    now destruct (nan_is_not_above y (GetXmin (fYaxis h)) Hy) as [-> _].
  - intros Hx Hy. rewrite region_registered by assumption.
    destruct (nan_is_not_above x (GetXmax (fXaxis h)) Hx) as [-> _].
    destruct (nan_is_not_above x (GetXmin (fXaxis h)) Hx) as [-> _].
    destruct (nan_is_not_above y (GetXmax (fYaxis h)) Hy) as [-> _].
    now destruct (nan_is_not_above y (GetXmin (fYaxis h)) Hy) as [-> _].
Qed.

End CoverageNaN.

(** X12 on the square histogram. *)
Lemma NaN_is_classified_witness :
  TProfile2Poly.GetOverflowRegionFromCoordinates square64 PrimFloat.nan PrimFloat.nan = -7.
Proof.
  exact (proj2 (proj2 (NaN_is_classified_bottom_left square64 PrimFloat.nan PrimFloat.nan
                         eq_refl)) eq_refl eq_refl).
Defined.

(** ** What every reachable histogram displays *)

Section CoverageReachable.
Context {D : Type} `{Arith D} {Poly : Type} `{Geometry D Poly}.
Local Abbreviation Bin := (TProfile2PolyBin.t D Poly).
Local Abbreviation Profile := (TProfile2Poly.t D Poly).
Import TProfile2Poly.

Lemma Merge_wf (this this' : Profile) (list : list Profile) (r : Z) :
  wf this -> (forall e, e ∈ list -> wf e) ->
  Merge this list = Some (this', r) -> wf this'.
Proof.
  intros Hwf Hwfs HMerge.
  assert (Hovf : length (fOverflowBins this) = 9%nat) by apply Hwf.
  assert (Hovfs : forall e, e ∈ list -> length (fOverflowBins e) = 9%nat)
    by (intros e He; apply (Hwfs e He)).
  destruct (Merge_cases _ _ _ _ Hovf Hovfs HMerge) as [->|[n ->]]; [assumption|].
  destruct (MergedGlobal_loop_frame list this) as [Hb Hg].
  pose proof (merged_outside_bins list this _ n Hb) as Hout.
  apply (wf_frame this); [| |assumption].
  - rewrite <- Hg. exact (f_equal (fun o => fst (fst o)) Hout).
  - rewrite (f_equal (fun o => snd (fst o)) Hout : fOverflowBins _ = _).
    apply MergedGlobal_loop_length.
    intros e He. rewrite Hovf. now apply Hovfs.
Qed.

Lemma reachable_wf (h : Profile) : reachable h -> wf h.
Proof.
  induction 1 as [h Hwf _|h x y v w h' r _ Hwf HFill|h list h' r _ Hwf _ IHlist HMerge].
  - assumption.
  - eapply Fill_wf; eassumption.
  - eapply Merge_wf; eassumption.
Qed.

Lemma zip_with_Merge_content (c : D) (a b : Datatypes.list Bin) :
  Forall (fun bin => TProfile2PolyBin.fContent bin = c) a ->
  Forall (fun bin => TProfile2PolyBin.fContent bin = c) (zip_with TProfile2PolyBin.Merge a b).
Proof.
  intros Ha. revert b. induction Ha as [|x a Hx _ IH]; intros [|y b]; cbn [zip_with];
    constructor; [exact Hx|apply IH].
Qed.

Lemma MergedGlobal_loop_content (c : D) (list : list Profile) (this : Profile) :
  Forall (fun bin => TProfile2PolyBin.fContent bin = c) (fOverflowBins this) ->
  Forall (fun bin => TProfile2PolyBin.fContent bin = c)
    (fOverflowBins (foldl MergedGlobal this list)).
Proof.
  revert this; induction list as [|e list IH]; intros this Hthis; [assumption|].
  cbn [foldl]. apply IH. destruct this; unfold MergedGlobal; poly_simpl.
  now apply zip_with_Merge_content.
Qed.

(** X3.  In every histogram that calls of [Fill] and [Merge] make from
    well-formed histograms in which nothing was filled, every registered
    bin displays its average (its content equals its average), and no
    overflow bin displays anything (its content is 0). *)
Theorem reachable_bins_display_average (h : Profile) :
  reachable h ->
  Forall (fun bin => TProfile2PolyBin.fContent bin = TProfile2PolyBin.fAverage bin) (fBins h) /\
  Forall (fun bin => TProfile2PolyBin.fContent bin = d0) (fOverflowBins h).
Proof.
  induction 1 as [h Hwf Hfresh|h x y v w h' r Hreach [IHb IHo] HFill
                 |h list h' r Hreach [IHb IHo] Hlist IHlist HMerge].
  - destruct Hfresh as (_ & _ & -> & Hbins). split.
    + eapply Forall_impl; [exact Hbins|]. cbn. intros bin ->. reflexivity.
    + apply Forall_replicate. reflexivity.
  - destruct (Fill_Some _ _ _ _ _ _ _ HFill) as (_ & ovf & cell & Hovf & _ & Hfold).
    apply At_Some in Hovf as [_ Hovf].
    revert Hfold.
    apply (foldlM_invariant
             (fun s => Forall (fun bin => TProfile2PolyBin.fContent bin =
                                          TProfile2PolyBin.fAverage bin) (fBins s) /\
                       Forall (fun bin => TProfile2PolyBin.fContent bin = d0)
                         (fOverflowBins s))).
    + intros s k s' _ [Hsb Hso] (bin & poly & Hbin & _ & ->)%FillBin_Some.
      destruct (inside poly x y); [|now split].
      split; [|now destruct s].
      rewrite fBins_set_fBins. destruct s; poly_simpl.
      apply Forall_insert; [assumption|reflexivity].
    + split; [now destruct h|]. destruct h; poly_simpl.
      apply Forall_insert; [assumption|].
      rewrite Forall_lookup in IHo. exact (IHo _ _ Hovf).
  - assert (Hwf : wf h) by now apply reachable_wf.
    assert (Hovf : length (fOverflowBins h) = 9%nat) by apply Hwf.
    assert (Hovfs : forall e, e ∈ list -> length (fOverflowBins e) = 9%nat)
      by (intros e He; apply (reachable_wf e (Hlist e He))).
    destruct (Merge_cases _ _ _ _ Hovf Hovfs HMerge) as [->|[n ->]]; [now split|].
    destruct (MergedGlobal_loop_frame list h) as [Hb _].
    pose proof (merged_outside_bins list h _ n Hb) as Hout.
    split.
    + unfold ShowAverage. rewrite !fBins_set_fBins.
      apply Forall_fmap, Forall_forall. reflexivity.
    + rewrite (f_equal (fun o => snd (fst o)) Hout : fOverflowBins _ = _).
      now apply MergedGlobal_loop_content.
Qed.

End CoverageReachable.

Lemma filled64_reachable : reachable filled64.
Proof.
  apply (reach_Fill square64 5%float 5%float 10%float 1%float filled64 (-5)).
  - apply reach_new; [apply square_wf|apply square_fresh].
  - exact square64_Fill_centre.
Qed.

(** X3 on the square histogram after one call of [Fill]. *)
Lemma reachable_bins_display_average_witness :
  Forall (fun bin => TProfile2PolyBin.fContent bin = TProfile2PolyBin.fAverage bin)
    (TProfile2Poly.fBins filled64).
Proof.
  exact (proj1 (reachable_bins_display_average filled64 filled64_reachable)).
Defined.

(** ** Merge: batches and order of the sources *)

Section CoverageMerge.
Context {D : Type} `{Arith D} {Poly : Type} `{Geometry D Poly}.
Local Abbreviation Bin := (TProfile2PolyBin.t D Poly).
Local Abbreviation Profile := (TProfile2Poly.t D Poly).
Import TProfile2Poly.

Lemma Merged_Some (this : Profile) (list : list Profile) (n : nat) :
  list <> [] -> (0 < n)%nat ->
  Forall (fun e => length (fBins e) = n) list ->
  (n <= length (fBins this))%nat ->
  length (fOverflowBins this) = 9%nat ->
  Forall (fun e => length (fOverflowBins e) = 9%nat) list ->
  Merge this list = Some (Merged this list n, 1).
Proof.
  intros Hne Hpos Hbins Hn Hovf Hovfs. rewrite Forall_forall in Hbins, Hovfs.
  now apply Merge_Some.
Qed.

Lemma stats_part_Merged (this : Profile) (list : list Profile) (n : nat) :
  stats_part (Merged this list n) = stats_part (foldl MergedGlobal this list).
Proof. unfold Merged. now destruct (foldl MergedGlobal this list). Qed.

Lemma MergedGlobal_congr (a b e : Profile) :
  stats_part a = stats_part b ->
  stats_part (MergedGlobal a e) = stats_part (MergedGlobal b e).
Proof.
  destruct a, b. unfold stats_part, MergedGlobal; poly_simpl.
  intros Hs. now inversion Hs.
Qed.

Lemma MergedGlobal_loop_congr (list : list Profile) (a b : Profile) :
  stats_part a = stats_part b ->
  stats_part (foldl MergedGlobal a list) = stats_part (foldl MergedGlobal b list).
Proof.
  revert a b; induction list as [|e list IH]; intros a b Hab; [assumption|].
  cbn [foldl]. now apply IH, MergedGlobal_congr.
Qed.

Lemma Merged_lookup (this : Profile) (list : list Profile) (n i : nat) (bin : Bin) :
  fBins this !! i = Some bin ->
  fBins (Merged this list n) !! i = Some (ContentToAverage (MergedBin list n i bin)).
Proof.
  intros Hi. unfold Merged, ShowAverage.
  rewrite !fBins_set_fBins, list_lookup_fmap, list_lookup_imap, Hi. reflexivity.
Qed.

Lemma Merged_frame (this : Profile) (list : list Profile) (n : nat) :
  geometry_of (Merged this list n) = geometry_of this /\
  length (fBins (Merged this list n)) = length (fBins this).
Proof.
  destruct (MergedGlobal_loop_frame list this) as [Hb Hg].
  pose proof (merged_outside_bins list this _ n Hb) as Hout.
  split.
  - rewrite <- Hg. exact (f_equal (fun o => fst (fst o)) Hout).
  - unfold Merged, ShowAverage.
    now rewrite !fBins_set_fBins, length_fmap, length_imap.
Qed.

Lemma moments_Merge_congr (a a' s : Bin) :
  moments a = moments a' ->
  moments (TProfile2PolyBin.Merge a s) = moments (TProfile2PolyBin.Merge a' s).
Proof.
  destruct a, a'. unfold moments; cbn. intros Hm. now inversion Hm.
Qed.

Lemma moments_foldl_Merge_congr (l : Datatypes.list Bin) (a a' : Bin) :
  moments a = moments a' ->
  moments (foldl TProfile2PolyBin.Merge a l) = moments (foldl TProfile2PolyBin.Merge a' l).
Proof.
  revert a a'; induction l as [|s l IH]; intros a a' Hm; [assumption|].
  cbn [foldl]. now apply IH, moments_Merge_congr.
Qed.

Lemma source_bins_app (l1 l2 : list Profile) (i : nat) :
  source_bins (l1 ++ l2) i = source_bins l1 i ++ source_bins l2 i.
Proof. unfold source_bins. apply omap_app. Qed.

(** X8.  Merging the sources in two batches gives the same statistics as
    merging them at once: when all sources have [n] bins, at least one,
    and the target at least [n], the three calls of [Merge] return 1, and
    the histogram
    merged with [l1] and then with [l2] has the same [fEntries], the same
    nine statistics, the same overflow bins, the same axes, partition and
    polygons, and in every registered bin the same four moment sums as
    the histogram merged with [l1 ++ l2]. *)
Theorem Merge_in_two_batches (this : Profile) (l1 l2 : list Profile) (n : nat) :
  l1 <> [] -> l2 <> [] -> (0 < n)%nat ->
  Forall (fun e => length (fBins e) = n) (l1 ++ l2) ->
  (n <= length (fBins this))%nat ->
  length (fOverflowBins this) = 9%nat ->
  Forall (fun e => length (fOverflowBins e) = 9%nat) (l1 ++ l2) ->
  exists h1 h2 h12,
    Merge this l1 = Some (h1, 1) /\
    Merge h1 l2 = Some (h2, 1) /\
    Merge this (l1 ++ l2) = Some (h12, 1) /\
    fEntries h2 = fEntries h12 /\
    GetStats h2 = GetStats h12 /\
    fOverflowBins h2 = fOverflowBins h12 /\
    geometry_of h2 = geometry_of h12 /\
    length (fBins h2) = length (fBins h12) /\
    (forall i b2 b12, fBins h2 !! i = Some b2 -> fBins h12 !! i = Some b12 ->
       moments b2 = moments b12).
Proof.
  intros Hne1 Hne2 Hpos Hbins Hn Hovf Hovfs.
  apply Forall_app in Hbins as [Hbins1 Hbins2].
  apply Forall_app in Hovfs as [Hovfs1 Hovfs2].
  set (h1 := Merged this l1 n). set (h2 := Merged h1 l2 n).
  set (h12 := Merged this (l1 ++ l2) n).
  destruct (Merged_frame this l1 n) as [Hg1 Hlen1].
  destruct (Merged_frame h1 l2 n) as [Hg2 Hlen2].
  destruct (Merged_frame this (l1 ++ l2) n) as [Hg12 Hlen12].
  assert (Hs1 : stats_part h1 = stats_part (foldl MergedGlobal this l1))
    by apply stats_part_Merged.
  assert (Hovf1 : length (fOverflowBins h1) = 9%nat).
  { assert (Ho : fOverflowBins h1 = fOverflowBins (foldl MergedGlobal this l1))
      by exact (f_equal snd Hs1).
    rewrite Ho, MergedGlobal_loop_length; [assumption|].
    intros e He. rewrite Hovf. rewrite Forall_forall in Hovfs1. now apply Hovfs1. }
  assert (Hs : stats_part h2 = stats_part h12).
  { unfold h2, h12. rewrite !stats_part_Merged, foldl_app.
    now apply MergedGlobal_loop_congr. }
  exists h1, h2, h12.
  split; [now apply Merged_Some|].
  split; [apply Merged_Some; try assumption; unfold h1; rewrite Hlen1; exact Hn|].
  split.
  { apply Merged_Some; try assumption.
    - now destruct l1.
    - now apply Forall_app.
    - now apply Forall_app. }
  split; [exact (f_equal (fun s => fst (fst s)) Hs)|].
  split; [exact (f_equal (fun s => snd (fst s)) Hs)|].
  split; [exact (f_equal snd Hs)|].
  split; [unfold h2, h12; rewrite Hg2; unfold h1; now rewrite Hg1, Hg12|].
  split; [unfold h2, h12; rewrite Hlen2; unfold h1; now rewrite Hlen1, Hlen12|].
  intros i b2 b12 H2 H12.
  destruct (lookup_lt_is_Some_2 (fBins this) i) as [b Hb].
  { rewrite <- Hlen12. eapply lookup_lt_Some, H12. }
  unfold h12 in H12. rewrite (Merged_lookup _ _ _ _ _ Hb) in H12. injection H12 as <-.
  pose proof (Merged_lookup this l1 n i b Hb) as Hb1. fold h1 in Hb1.
  unfold h2 in H2. rewrite (Merged_lookup _ _ _ _ _ Hb1) in H2. injection H2 as <-.
  change (moments (MergedBin l2 n i (ContentToAverage (MergedBin l1 n i b))) =
          moments (MergedBin (l1 ++ l2) n i b)).
  unfold MergedBin. destruct (i <? n)%nat; [|reflexivity].
  change (moments (foldl TProfile2PolyBin.Merge
                     (ContentToAverage
                        (TProfile2PolyBin.Update
                           (foldl TProfile2PolyBin.Merge b (source_bins l1 i))))
                     (source_bins l2 i)) =
          moments (foldl TProfile2PolyBin.Merge b (source_bins (l1 ++ l2) i))).
  rewrite source_bins_app, foldl_app.
  now apply moments_foldl_Merge_congr.
Qed.

End CoverageMerge.

(** X8: two filled square histograms merged into an empty one, one after
    the other and together. *)
Lemma Merge_in_two_batches_witness :
  exists h1 h2 h12,
    TProfile2Poly.Merge square64 [filled64] = Some (h1, 1) /\
    TProfile2Poly.Merge h1 [filled64] = Some (h2, 1) /\
    TProfile2Poly.Merge square64 [filled64; filled64] = Some (h12, 1) /\
    TProfile2Poly.GetStats h2 = TProfile2Poly.GetStats h12.
Proof.
  destruct (Merge_in_two_batches square64 [filled64] [filled64] 1)
    as (h1 & h2 & h12 & H1 & H2 & H12 & _ & Hstats & _).
  - discriminate.
  - discriminate.
  - lia.
  - repeat constructor.
  - cbn. lia.
  - reflexivity.
  - repeat constructor.
  - exists h1, h2, h12. repeat split; assumption.
Defined.

Section CoverageMergeOrder.
Context {D : Type} `{ExactAdd D} {Poly : Type} `{Geometry D Poly}.
Local Abbreviation Bin := (TProfile2PolyBin.t D Poly).
Local Abbreviation Profile := (TProfile2Poly.t D Poly).
Import TProfile2Poly.

Lemma zip_with_Merge_swap (o ox oy : Datatypes.list Bin) :
  zip_with TProfile2PolyBin.Merge (zip_with TProfile2PolyBin.Merge o ox) oy =
  zip_with TProfile2PolyBin.Merge (zip_with TProfile2PolyBin.Merge o oy) ox.
Proof.
  revert ox oy; induction o as [|a o IH]; intros [|x ox] [|y oy]; try reflexivity.
  cbn [zip_with]. now rewrite Merge_swap, IH.
Qed.

Lemma MergedGlobal_swap (a x y : Profile) :
  MergedGlobal (MergedGlobal a x) y = MergedGlobal (MergedGlobal a y) x.
Proof.
  destruct a. unfold MergedGlobal, AddStatsOf, set_fOverflowBins; poly_simpl.
  rewrite (zip_with_Merge_swap _ (fOverflowBins x)).
  rewrite (dadd_swap _ (fEntries x)), (dadd_swap _ (fTsumw x)),
    (dadd_swap _ (fTsumw2 x)), (dadd_swap _ (fTsumwx x)), (dadd_swap _ (fTsumwx2 x)),
    (dadd_swap _ (fTsumwy x)), (dadd_swap _ (fTsumwy2 x)), (dadd_swap _ (fTsumwxy x)),
    (dadd_swap _ (fTsumwz x)), (dadd_swap _ (fTsumwz2 x)).
  reflexivity.
Qed.

Lemma MergedGlobal_loop_perm (l l' : list Profile) :
  l ≡ₚ l' -> forall a : Profile, foldl MergedGlobal a l = foldl MergedGlobal a l'.
Proof.
  induction 1 as [|x l l' _ IH|x y l|l1 l2 l3 _ IH1 _ IH2]; intros a; simpl.
  - reflexivity.
  - apply IH.
  - now rewrite MergedGlobal_swap.
  - now rewrite IH1.
Qed.

Lemma Merged_perm (this : Profile) (l l' : list Profile) (n : nat) :
  l ≡ₚ l' -> Merged this l n = Merged this l' n.
Proof.
  intros Hperm. unfold Merged.
  rewrite (MergedGlobal_loop_perm l l' Hperm). do 2 f_equal.
  apply imap_ext. intros i bin _. unfold MergedBin.
  destruct (i <? n)%nat; [|reflexivity]. f_equal.
  apply Merge_foldl_perm. unfold source_bins. now rewrite Hperm.
Qed.

(** X13.  Where addition is exact, the order of the sources does not
    matter to [Merge]: when the sources have [n] bins each, at least
    one, and the target at least [n], merging a list and merging any
    permutation of it both return 1 and leave the very same histogram. *)
Theorem Merge_source_order_free (this : Profile) (l l' : list Profile) (n : nat) :
  l ≡ₚ l' ->
  l <> [] -> (0 < n)%nat ->
  Forall (fun e => length (fBins e) = n) l ->
  (n <= length (fBins this))%nat ->
  length (fOverflowBins this) = 9%nat ->
  Forall (fun e => length (fOverflowBins e) = 9%nat) l ->
  exists h, Merge this l = Some (h, 1) /\ Merge this l' = Some (h, 1).
Proof.
  intros Hperm Hne Hpos Hbins Hn Hovf Hovfs.
  exists (Merged this l n). split; [now apply Merged_Some|].
  rewrite (Merged_perm this l l' n Hperm).
  apply Merged_Some; try assumption.
  - intros ->. now apply Permutation_nil_r in Hperm.
  - now rewrite <- Hperm.
  - now rewrite <- Hperm.
Qed.

End CoverageMergeOrder.

(** X13 over the real numbers: a histogram with statistics and an empty
    one, merged into the empty square in both orders. *)
Lemma Merge_source_order_free_witness :
  exists h, TProfile2Poly.Merge squareR [markedR; squareR] = Some (h, 1) /\
            TProfile2Poly.Merge squareR [squareR; markedR] = Some (h, 1).
Proof.
  apply (Merge_source_order_free squareR [markedR; squareR] [squareR; markedR] 1).
  - apply perm_swap.
  - discriminate.
  - lia.
  - repeat constructor.
  - cbn. lia.
  - reflexivity.
  - repeat constructor.
Defined.
